(** * The template compilation engine of intent-blueprint-docs

    A shallow embedding of
    [packages/cli/src/enterprise/templates/engine.ts] (class
    [TemplateEngine]) together with the types of [types.ts], and the
    properties of the engine that the specification states.

    Conventions of the embedding.
    - A JavaScript string is a [string]: a sequence of 8-bit code units.
      The character classes [\w] and [\s], [trim] and the case
      conversions are exact on ASCII text; a code unit above 127 is
      carried through unchanged and belongs to no class.
    - An [unknown] value is a JSON-like [value].  Numbers are the
      integers ([VNum z] is the double equal to [z], exact while
      [|z| <= 2^53]).
    - A [Record<string, unknown>] is a [dict]: the own enumerable
      properties in [Object.entries] order.  Reading a property falls
      back to [Object.prototype], as a property read in JavaScript does.
    - An optional property of an object literal is a [prop]: the key may
      be absent, present with the value [undefined], or present with a
      value; object spread distinguishes the first two.
    - Code that can throw returns an [outcome].  The recursion of
      [resolveInheritance] through the registry need not terminate and
      takes fuel.
    - [new Date()] is the reading [now] of the clock, an argument of
      everything that can reach the [date] helper. *)

From Stdlib Require Import ZArith List Bool Lia Arith.
From Stdlib Require QArith Sorting.Sorted Sorting.Permutation.
From Stdlib Require Import Strings.String Strings.Ascii Numbers.DecimalString.
Import ListNotations.

Set Warnings "-register-all".

Local Open Scope list_scope.
Local Open Scope string_scope.

(** ** Characters and strings *)

Module Str.

Definition code (c : ascii) : nat := nat_of_ascii c.

Definition in_range (lo hi : nat) (c : ascii) : bool :=
  (lo <=? code c)%nat && (code c <=? hi)%nat.

Definition is_digit (c : ascii) : bool := in_range 48 57 c.
Definition is_upper (c : ascii) : bool := in_range 65 90 c.
Definition is_lower (c : ascii) : bool := in_range 97 122 c.

(** The class [\w]: [[A-Za-z0-9_]]. *)
Definition is_word (c : ascii) : bool :=
  is_digit c || is_upper c || is_lower c || (code c =? 95)%nat.

(** The class [\s] on ASCII: tab, line feed, vertical tab, form feed,
    carriage return, space. *)
Definition is_space (c : ascii) : bool :=
  in_range 9 13 c || (code c =? 32)%nat.

Definition lbrace : ascii := "{"%char.
Definition rbrace : ascii := "}"%char.
Definition dquote : ascii := "034"%char.
Definition squote : ascii := "'"%char.

Definition is_lbrace (c : ascii) : bool := Ascii.eqb c lbrace.
Definition is_rbrace (c : ascii) : bool := Ascii.eqb c rbrace.

Fixpoint forallb (p : ascii -> bool) (s : string) : bool :=
  match s with
  | EmptyString => true
  | String c s' => p c && forallb p s'
  end.

Fixpoint existsb (p : ascii -> bool) (s : string) : bool :=
  match s with
  | EmptyString => false
  | String c s' => p c || existsb p s'
  end.

(** [span p s]: the longest prefix of [s] whose characters satisfy [p],
    and the rest.  This is what a greedy [c+] or [c*] consumes. *)
Fixpoint span (p : ascii -> bool) (s : string) : string * string :=
  match s with
  | EmptyString => (EmptyString, EmptyString)
  | String c s' =>
      if p c then let (a, b) := span p s' in (String c a, b)
      else (EmptyString, s)
  end.

(** [strip_prefix p s]: the rest of [s] after the literal [p]. *)
Fixpoint strip_prefix (p s : string) : option string :=
  match p with
  | EmptyString => Some s
  | String a p' =>
      match s with
      | EmptyString => None
      | String b s' => if Ascii.eqb a b then strip_prefix p' s' else None
      end
  end.

Definition starts_with (p s : string) : bool :=
  match strip_prefix p s with Some _ => true | None => false end.

(** [find_first p s]: the text before the first occurrence of the
    literal [p] in [s] and the text after it.  This is what a lazy
    [[\s\S]*?] followed by the literal [p] matches. *)
Fixpoint find_first (p s : string) : option (string * string) :=
  match strip_prefix p s with
  | Some rest => Some (EmptyString, rest)
  | None =>
      match s with
      | EmptyString => None
      | String c s' =>
          match find_first p s' with
          | Some (before, rest) => Some (String c before, rest)
          | None => None
          end
      end
  end.

Fixpoint drop (n : nat) (s : string) : string :=
  match n, s with
  | O, _ => s
  | S n', EmptyString => EmptyString
  | S n', String _ s' => drop n' s'
  end.

Fixpoint take (n : nat) (s : string) : string :=
  match n, s with
  | O, _ => EmptyString
  | S n', EmptyString => EmptyString
  | S n', String c s' => String c (take n' s')
  end.

Fixpoint rev_onto (acc s : string) : string :=
  match s with
  | EmptyString => acc
  | String c s' => rev_onto (String c acc) s'
  end.

Definition rev (s : string) : string := rev_onto EmptyString s.

Fixpoint drop_while (p : ascii -> bool) (s : string) : string :=
  match s with
  | EmptyString => EmptyString
  | String c s' => if p c then drop_while p s' else s
  end.

(** [String.prototype.trim]. *)
Definition trim (s : string) : string :=
  rev (drop_while is_space (rev (drop_while is_space s))).

Definition to_upper_char (c : ascii) : ascii :=
  if is_lower c then ascii_of_nat (code c - 32) else c.

Definition to_lower_char (c : ascii) : ascii :=
  if is_upper c then ascii_of_nat (code c + 32) else c.

Fixpoint map (f : ascii -> ascii) (s : string) : string :=
  match s with
  | EmptyString => EmptyString
  | String c s' => String (f c) (map f s')
  end.

Definition toUpperCase : string -> string := map to_upper_char.
Definition toLowerCase : string -> string := map to_lower_char.

(** [Array.prototype.join] on strings already converted. *)
Fixpoint join (sep : string) (l : list string) : string :=
  match l with
  | [] => EmptyString
  | [x] => x
  | x :: rest => x ++ sep ++ join sep rest
  end.

Fixpoint concat (l : list string) : string :=
  match l with
  | [] => EmptyString
  | x :: rest => x ++ concat rest
  end.

Fixpoint repeat (s : string) (n : nat) : string :=
  match n with
  | O => EmptyString
  | S n' => s ++ repeat s n'
  end.

(** [s.split(/\s+/)]: the pieces of [s] between maximal runs of white
    space; a run at either end leaves an empty piece there. *)
Fixpoint split_ws_from (cur : string) (in_gap : bool) (s : string) : list string :=
  match s with
  | EmptyString => [rev cur]
  | String c s' =>
      if is_space c then
        if in_gap then split_ws_from cur true s'
        else rev cur :: split_ws_from EmptyString true s'
      else split_ws_from (String c cur) false s'
  end.

Definition split_ws (s : string) : list string := split_ws_from EmptyString false s.

Definition last_char (s : string) : option ascii :=
  match rev s with
  | EmptyString => None
  | String c _ => Some c
  end.

Definition of_Z (z : Z) : string := NilEmpty.string_of_int (Z.to_int z).

End Str.

(** ** Values *)

(** A property of an object literal: absent, present with the value
    [undefined], or present with a value. *)
Inductive prop (A : Type) : Type :=
  | Absent
  | Undefined
  | Has (a : A).
Arguments Absent {A}.
Arguments Undefined {A}.
Arguments Has {A} a.

(** [{...parent, ...child}] on one property: a key of the child wins,
    also when its value is [undefined]. *)
Definition spread {A : Type} (parent child : prop A) : prop A :=
  match child with
  | Absent => parent
  | _ => child
  end.

(** [unknown].  [VFunc name] is a built-in function inherited from
    [Object.prototype]; template data holds none, a property read can
    return one. *)
Inductive value : Type :=
  | VUndef
  | VNull
  | VBool (b : bool)
  | VNum (z : Z)
  | VStr (s : string)
  | VArr (items : list value)
  | VObj (entries : list (string * value))
  | VFunc (name : string).

Definition dict : Type := list (string * value).

(** What a call can do besides returning. *)
Inductive exn : Type :=
  | Error (message : string)
  | TypeError (message : string).

Inductive outcome (A : Type) : Type :=
  | Ok (a : A)
  | Throw (e : exn)
  | Unmodelled (what : string)
  | OutOfFuel.
Arguments Ok {A} a.
Arguments Throw {A} e.
Arguments Unmodelled {A} what.
Arguments OutOfFuel {A}.

Definition bind {A B : Type} (m : outcome A) (k : A -> outcome B) : outcome B :=
  match m with
  | Ok a => k a
  | Throw e => Throw e
  | Unmodelled w => Unmodelled w
  | OutOfFuel => OutOfFuel
  end.

Notation "x <- m ;; k" := (bind m (fun x => k))
  (at level 61, m at next level, right associativity).

Module Js.

(** *** Property access *)

Fixpoint own (d : dict) (k : string) : option value :=
  match d with
  | [] => None
  | (k', v) :: rest => if String.eqb k' k then Some v else own rest k
  end.

(** The function-valued members of [Object.prototype], with the name
    each function reports. *)
Definition object_prototype : list (string * string) :=
  [ ("constructor", "Object");
    ("hasOwnProperty", "hasOwnProperty");
    ("isPrototypeOf", "isPrototypeOf");
    ("propertyIsEnumerable", "propertyIsEnumerable");
    ("toLocaleString", "toLocaleString");
    ("toString", "toString");
    ("valueOf", "valueOf");
    ("__defineGetter__", "__defineGetter__");
    ("__defineSetter__", "__defineSetter__");
    ("__lookupGetter__", "__lookupGetter__");
    ("__lookupSetter__", "__lookupSetter__") ].

Fixpoint assoc (l : list (string * string)) (k : string) : option string :=
  match l with
  | [] => None
  | (k', v) :: rest => if String.eqb k' k then Some v else assoc rest k
  end.

(** [d[k]] on a plain object: an own property, else a member of
    [Object.prototype] ([__proto__] is that prototype itself, an object
    without enumerable properties), else [undefined]. *)
Definition get (d : dict) (k : string) : value :=
  match own d k with
  | Some v => v
  | None =>
      match assoc object_prototype k with
      | Some name => VFunc name
      | None => if String.eqb k "__proto__" then VObj [] else VUndef
      end
  end.

(** [v !== undefined]. *)
Definition defined (v : value) : bool :=
  match v with
  | VUndef => false
  | _ => true
  end.

(** A canonical array index: the decimal form, without leading zeros, of
    an integer below [2^32 - 1].  Such keys are enumerated first, in
    numeric order. *)
Fixpoint digits_value (acc : N) (s : string) : option N :=
  match s with
  | EmptyString => Some acc
  | String c s' =>
      if Str.is_digit c
      then digits_value (acc * 10 + N.of_nat (Str.code c - 48)) s'
      else None
  end.

Definition array_index (k : string) : option N :=
  match k with
  | EmptyString => None
  | String c rest =>
      if Ascii.eqb c "0"%char && negb (String.eqb rest "") then None
      else
        match digits_value 0 k with
        | Some n => if (n <? 4294967295)%N then Some n else None
        | None => None
        end
  end.

Fixpoint replace_own (d : dict) (k : string) (v : value) : dict :=
  match d with
  | [] => []
  | (k', v') :: rest =>
      if String.eqb k' k then (k', v) :: rest else (k', v') :: replace_own rest k v
  end.

(** A new index key goes before the first key that is not a smaller
    index; a new string key goes last. *)
Fixpoint insert_index (d : dict) (n : N) (k : string) (v : value) : dict :=
  match d with
  | [] => [(k, v)]
  | (k', v') :: rest =>
      match array_index k' with
      | Some m => if (m <? n)%N then (k', v') :: insert_index rest n k v
                  else (k, v) :: d
      | None => (k, v) :: d
      end
  end.

(** [d[k] = v] on a plain object.  An assignment under [__proto__] that
    finds no own property of that name stores nothing: it reaches the
    setter of [Object.prototype] (the model does not follow a prototype
    replaced that way). *)
Definition set (d : dict) (k : string) (v : value) : dict :=
  match own d k with
  | Some _ => replace_own d k v
  | None =>
      if String.eqb k "__proto__" then d
      else
        match array_index k with
        | Some n => insert_index d n k v
        | None => (d ++ [(k, v)])%list
        end
  end.

(** *** Conversions *)

Definition native_function (name : string) : string :=
  "function " ++ name ++ "() { [native code] }".

(** [String(v)].  An array is its elements joined by commas, [null] and
    [undefined] elements giving the empty string. *)
Fixpoint to_string (v : value) : string :=
  match v with
  | VUndef => "undefined"
  | VNull => "null"
  | VBool true => "true"
  | VBool false => "false"
  | VNum z => Str.of_Z z
  | VStr s => s
  | VArr items =>
      Str.join ","
        (List.map (fun x => match x with
                            | VUndef | VNull => EmptyString
                            | _ => to_string x
                            end) items)
  | VObj _ => "[object Object]"
  | VFunc name => native_function name
  end.

(** [arr.join(sep)]. *)
Definition array_join (sep : string) (items : list value) : string :=
  Str.join sep
    (List.map (fun x => match x with
                        | VUndef | VNull => EmptyString
                        | _ => to_string x
                        end) items).

(** Truthiness ([v || ...], [v ? ... : ...]). *)
Definition truthy (v : value) : bool :=
  match v with
  | VUndef | VNull => false
  | VBool b => b
  | VNum z => negb (z =? 0)%Z
  | VStr s => negb (String.eqb s "")
  | _ => true
  end.

(** [a || b]. *)
Definition or_else (a b : value) : value := if truthy a then a else b.

(** [args[i]]. *)
Definition arg (args : list value) (i : nat) : value := nth i args VUndef.

(** [a === b].  Two arrays or two objects are equal only when they are
    the same object, which data coming from a template and data coming
    from the caller never are. *)
Definition strict_eq (a b : value) : bool :=
  match a, b with
  | VUndef, VUndef => true
  | VNull, VNull => true
  | VBool x, VBool y => Bool.eqb x y
  | VNum x, VNum y => (x =? y)%Z
  | VStr x, VStr y => String.eqb x y
  | VFunc x, VFunc y => String.eqb x y
  | _, _ => false
  end.

End Js.

(** ** Numbers read from text *)

Module Num.

(** [Number(s)] for a string: not a number, an integer the model holds
    exactly, or a numeric literal outside the integers of the model (a
    fraction, an exponent, a radix prefix, [Infinity], an integer beyond
    [2^53]). *)
Inductive number : Type :=
  | NaN
  | Int (z : Z)
  | Other.

Definition nonempty (s : string) : bool := negb (String.eqb s "").

Definition all_digits (s : string) : bool :=
  nonempty s && Str.forallb Str.is_digit s.

Fixpoint digits_Z (acc : Z) (s : string) : Z :=
  match s with
  | EmptyString => acc
  | String c s' => digits_Z (acc * 10 + Z.of_nat (Str.code c - 48)) s'
  end.

Definition strip_sign (s : string) : Z * string :=
  match s with
  | String "+"%char r => (1%Z, r)
  | String "-"%char r => ((-1)%Z, r)
  | _ => (1%Z, s)
  end.

Definition is_exponent (s : string) : bool :=
  match s with
  | EmptyString => true
  | String e r =>
      (Ascii.eqb e "e"%char || Ascii.eqb e "E"%char)
      && all_digits (snd (strip_sign r))
  end.

(** [StrUnsignedDecimalLiteral]. *)
Definition is_decimal_literal (u : string) : bool :=
  if String.eqb u "Infinity" then true
  else
    let (ip, r1) := Str.span Str.is_digit u in
    match r1 with
    | String "."%char r =>
        let (fp, r2) := Str.span Str.is_digit r in
        (nonempty ip || nonempty fp) && is_exponent r2
    | _ => nonempty ip && is_exponent r1
    end.

Definition is_hex (c : ascii) : bool :=
  Str.is_digit c || Str.in_range 65 70 c || Str.in_range 97 102 c.

(** [NonDecimalIntegerLiteral]: no sign. *)
Definition is_radix_literal (t : string) : bool :=
  match t with
  | String "0"%char (String r ds) =>
      nonempty ds &&
      (if Ascii.eqb r "x"%char || Ascii.eqb r "X"%char then Str.forallb is_hex ds
       else if Ascii.eqb r "o"%char || Ascii.eqb r "O"%char then Str.forallb (Str.in_range 48 55) ds
       else if Ascii.eqb r "b"%char || Ascii.eqb r "B"%char then Str.forallb (Str.in_range 48 49) ds
       else false)
  | _ => false
  end.

Definition safe : Z := 9007199254740992%Z.

Definition of_string (s : string) : number :=
  let t := Str.trim s in
  if String.eqb t "" then Int 0
  else
    let (sign, u) := strip_sign t in
    if all_digits u then
      let z := digits_Z 0 u in
      if (z <=? safe)%Z then Int (sign * z) else Other
    else if is_decimal_literal u || is_radix_literal t then Other
    else NaN.

End Num.

Module Builtin.

(** [Number(v)]. *)
Definition to_number (v : value) : Num.number :=
  match v with
  | VUndef => Num.NaN
  | VNull => Num.Int 0
  | VBool true => Num.Int 1
  | VBool false => Num.Int 0
  | VNum z => Num.Int z
  | VStr s => Num.of_string s
  | VArr _ => Num.of_string (Js.to_string v)
  | VObj _ => Num.NaN
  | VFunc _ => Num.NaN
  end.

(** [haystack.includes(needle)] on strings. *)
Fixpoint includes (needle haystack : string) : bool :=
  Str.starts_with needle haystack ||
  match haystack with
  | EmptyString => false
  | String _ rest => includes needle rest
  end.

(** [Object.entries(item)] for an item with [typeof item === 'object']
    that is not [null]: the properties of an object, the indices of an
    array. *)
Fixpoint indexed (i : nat) (l : list value) : list (string * value) :=
  match l with
  | [] => []
  | x :: rest => (Str.of_Z (Z.of_nat i), x) :: indexed (S i) rest
  end.

Definition entries (item : value) : option (list (string * value)) :=
  match item with
  | VObj es => Some es
  | VArr xs => Some (indexed 0 xs)
  | _ => None
  end.

End Builtin.

(** ** The types of [types.ts] *)

Inductive Scope : Type := ScopeMvp | ScopeStandard | ScopeComprehensive | ScopeEnterprise.
Inductive Audience : Type := AudienceStartup | AudienceBusiness | AudienceEnterprise.
Inductive VariableType : Type :=
  | TString | TNumber | TBoolean | TSelect | TMultiselect | TText | TDate.
Inductive Model : Type := ModelClaude | ModelGpt4 | ModelGemini | ModelOllama | ModelAuto.

Record TemplateMeta : Type := mkMeta {
  m_id : string;
  m_name : string;
  m_description : string;
  m_version : string;
  m_author : prop string;
  m_category : string;
  m_scope : Scope;
  m_audience : prop Audience;
  m_tags : prop (list string);
  m_license : prop string }.

Record TemplateVariable : Type := mkVariable {
  v_name : string;
  v_label : string;
  v_type : VariableType;
  v_default : prop value;
  v_required : prop bool;
  v_description : prop string;
  v_options : prop (list (string * string));
  v_pattern : prop string;
  v_min : prop Z;
  v_max : prop Z }.

(** The operators of a condition; [OpOther] is a string outside the
    declared union, which a loaded file can carry and the [default] branch
    of [evaluateCondition] receives. *)
Inductive Operator : Type :=
  | OpEquals | OpNotEquals | OpContains | OpNotContains
  | OpGreaterThan | OpLessThan | OpExists | OpNotExists
  | OpOther (name : string).

Record SectionCondition : Type := mkCondition {
  c_variable : string;
  c_operator : Operator;
  c_value : prop value }.

Inductive TemplateSection : Type := mkSection {
  s_id : string;
  s_title : string;
  s_content : string;
  s_condition : prop SectionCondition;
  s_sections : prop (list TemplateSection);
  s_collapsible : prop bool;
  s_order : prop Z;
  s_prompt : prop string }.

Record TemplatePrompt : Type := mkPrompt {
  p_id : string;
  p_section : string;
  p_system : prop string;
  p_user : string;
  p_model : prop Model;
  p_temperature : prop QArith_base.Q;
  p_maxTokens : prop Z }.

Record CustomTemplate : Type := mkTemplate {
  meta : TemplateMeta;
  variables : list TemplateVariable;
  sections : list TemplateSection;
  extends : prop string;
  prompts : prop (list TemplatePrompt) }.

(** Of a [TemplateContext] the engine reads [variables] only. *)
Record TemplateContext : Type := mkContext {
  ctx_variables : dict }.

Inductive CompiledSection : Type := mkCompiledSection {
  cs_id : string;
  cs_title : string;
  cs_content : string;
  cs_sections : prop (list CompiledSection);
  cs_aiGenerated : prop bool }.

Record CompiledTemplate : Type := mkCompiled {
  ct_template : CustomTemplate;
  ct_sections : list CompiledSection;
  ct_variables : dict }.

(** What [new Date()] is read for. *)
Record Date : Type := mkDate {
  getFullYear : Z;
  getMonth : Z;
  getDate : Z;
  getHours : Z;
  getMinutes : Z;
  getSeconds : Z }.

(** [type TemplateHelper = (args, variables) => unknown]; a helper may
    read the clock and may throw. *)
Definition TemplateHelper : Type := Date -> list value -> dict -> outcome value.

(** ** [Map<string, V>]: keys in insertion order *)

Module SMap.

Definition t (V : Type) : Type := list (string * V).

Fixpoint get {V : Type} (m : t V) (k : string) : option V :=
  match m with
  | [] => None
  | (k', v) :: rest => if String.eqb k' k then Some v else get rest k
  end.

(** [m.set(k, v)]: a key already there keeps its place. *)
Fixpoint set {V : Type} (m : t V) (k : string) (v : V) : t V :=
  match m with
  | [] => [(k, v)]
  | (k', v') :: rest =>
      if String.eqb k' k then (k', v) :: rest else (k', v') :: set rest k v
  end.

Definition values {V : Type} (m : t V) : list V := List.map snd m.
Definition keys {V : Type} (m : t V) : list string := List.map fst m.

Definition mem (k : string) (l : list string) : bool := List.existsb (String.eqb k) l.

End SMap.

(** ** The regular expressions of the engine

    Each pattern of [engine.ts] is a function that tries to match at the
    start of a text and returns the captured groups and the text after
    the match.  No pattern of the engine matches the empty string. *)

Module Re.

Definition and_then {A B : Type} (o : option A) (k : A -> option B) : option B :=
  match o with
  | Some a => k a
  | None => None
  end.

(** [/\{\{(\w+)\}\}/]. *)
Definition plainPattern (s : string) : option (string * string) :=
  and_then (Str.strip_prefix "{{" s) (fun s1 =>
  let (name, s2) := Str.span Str.is_word s1 in
  if String.eqb name "" then None
  else and_then (Str.strip_prefix "}}" s2) (fun rest => Some (name, rest))).

(** [\{\{#kw\s+(\w+)\}\}], the opening tag of a block. *)
Definition openTag (kw : string) (s : string) : option (string * string) :=
  and_then (Str.strip_prefix ("{{#" ++ kw) s) (fun s1 =>
  let (gap, s2) := Str.span Str.is_space s1 in
  if String.eqb gap "" then None
  else
    let (name, s3) := Str.span Str.is_word s2 in
    if String.eqb name "" then None
    else and_then (Str.strip_prefix "}}" s3) (fun rest => Some (name, rest))).

(** [/\{\{#if\s+(\w+)\}\}([\s\S]*?)\{\{else\}\}([\s\S]*?)\{\{\/if\}\}/]. *)
Definition ifElsePattern (s : string) : option ((string * string * string) * string) :=
  and_then (openTag "if" s) (fun '(varName, s1) =>
  and_then (Str.find_first "{{else}}" s1) (fun '(ifContent, s2) =>
  and_then (Str.find_first "{{/if}}" s2) (fun '(elseContent, rest) =>
  Some ((varName, ifContent, elseContent), rest)))).

(** [/\{\{#kw\s+(\w+)\}\}([\s\S]*?)\{\{\/kw\}\}/]. *)
Definition blockPattern (kw : string) (s : string) : option ((string * string) * string) :=
  and_then (openTag kw s) (fun '(varName, s1) =>
  and_then (Str.find_first ("{{/" ++ kw ++ "}}") s1) (fun '(content, rest) =>
  Some ((varName, content), rest))).

Definition ifPattern := blockPattern "if".
Definition unlessPattern := blockPattern "unless".
Definition eachPattern := blockPattern "each".

(** [/\{\{(\w+)(?:\s+([^}]+))?\}\}/].  After the name, the optional
    group takes a run of white space and then everything up to the next
    closing brace.  When nothing but white space precedes the closing
    braces, [\s+] gives its last character back to [[^}]+], provided the
    run has two characters or more. *)
Definition helperPattern (s : string) : option ((string * option string) * string) :=
  and_then (Str.strip_prefix "{{" s) (fun s1 =>
  let (helperName, s2) := Str.span Str.is_word s1 in
  if String.eqb helperName "" then None
  else
    let (gap, s3) := Str.span Str.is_space s2 in
    let (argsString, s4) := Str.span (fun c => negb (Str.is_rbrace c)) s3 in
    match gap with
    | EmptyString =>
        and_then (Str.strip_prefix "}}" s2) (fun rest => Some ((helperName, None), rest))
    | String _ gap' =>
        if String.eqb argsString "" then
          match Str.last_char gap' with
          | Some c =>
              and_then (Str.strip_prefix "}}" s3) (fun rest =>
              Some ((helperName, Some (String c EmptyString)), rest))
          | None => None
          end
        else
          and_then (Str.strip_prefix "}}" s4) (fun rest =>
          Some ((helperName, Some argsString), rest))
    end).

(** [text.replace(pattern, callback)] with the flag [g]: the text is
    scanned from the left, every match is replaced by what the callback
    returns for it and the scan resumes after the match.  The callback
    receives the matched text and the groups.  [skip] counts the
    characters of a match still to pass over. *)
Fixpoint replace {A : Type} (pattern : string -> option (A * string))
    (callback : string -> A -> outcome string) (skip : nat) (text : string)
    : outcome string :=
  match skip, text with
  | S k, String _ text' => replace pattern callback k text'
  | S _, EmptyString => Ok EmptyString
  | O, _ =>
      match pattern text with
      | Some (groups, rest) =>
          let n := (String.length text - String.length rest)%nat in
          r <- callback (Str.take n text) groups ;;
          tl <- match text with
                | EmptyString => Ok EmptyString
                | String _ text' => replace pattern callback (n - 1) text'
                end ;;
          Ok (r ++ tl)
      | None =>
          match text with
          | EmptyString => Ok EmptyString
          | String c text' =>
              tl <- replace pattern callback 0 text' ;;
              Ok (String c tl)
          end
      end
  end.

(** The replacement text of [text.replace(pattern, replacement)] for a
    pattern without groups: [$$] is a dollar sign, [$&] the matched text,
    [$`] the text before the match, [$'] the text after it. *)
Fixpoint substitution (before matched after replacement : string) : string :=
  match replacement with
  | EmptyString => EmptyString
  | String d t =>
      if Ascii.eqb d "$"%char then
        match t with
        | String c t' =>
            if Ascii.eqb c "$"%char then "$" ++ substitution before matched after t'
            else if Ascii.eqb c "&"%char then matched ++ substitution before matched after t'
            else if Ascii.eqb c "`"%char then before ++ substitution before matched after t'
            else if Ascii.eqb c "'"%char then after ++ substitution before matched after t'
            else String d (substitution before matched after t)
        | EmptyString => String d EmptyString
        end
      else String d (substitution before matched after t)
  end.

(** [text.replace(/literal/g, replacement)] for a pattern that is a
    non-empty literal.  [passed] holds the text already scanned, last
    character first. *)
Fixpoint replaceLiteral (literal replacement : string) (passed : string)
    (skip : nat) (text : string) : string :=
  match text with
  | EmptyString => EmptyString
  | String c text' =>
      match skip with
      | S k => replaceLiteral literal replacement (String c passed) k text'
      | O =>
          match Str.strip_prefix literal text with
          | Some after =>
              substitution (Str.rev passed) literal after replacement
              ++ replaceLiteral literal replacement (String c passed)
                   (String.length literal - 1) text'
          | None =>
              String c (replaceLiteral literal replacement (String c passed) 0 text')
          end
      end
  end.

Definition replaceAll (literal replacement text : string) : string :=
  replaceLiteral literal replacement EmptyString 0 text.

(** [text.replace(literal, replacement)] with a string as its pattern:
    the first occurrence only. *)
Fixpoint replaceFirstFrom (literal replacement : string) (passed : string)
    (text : string) : string :=
  match Str.strip_prefix literal text with
  | Some after => substitution (Str.rev passed) literal after replacement ++ after
  | None =>
      match text with
      | EmptyString => EmptyString
      | String c text' =>
          String c (replaceFirstFrom literal replacement (String c passed) text')
      end
  end.

Definition replaceFirst (literal replacement text : string) : string :=
  replaceFirstFrom literal replacement EmptyString text.

(** The characters with a meaning in a pattern.  A property name without
    any of them, put between escaped braces by [new RegExp], is the
    pattern of a literal. *)
Definition is_syntax_char (c : ascii) : bool :=
  Str.existsb (Ascii.eqb c) "\^$.*+?()[]{}|".

Definition is_literal_source (key : string) : bool :=
  negb (Str.existsb is_syntax_char key).

End Re.

(** ** The engine *)

(** The two registries of a [TemplateEngine]. *)
Record TemplateEngine : Type := mkEngine {
  templates : SMap.t CustomTemplate;
  helpers : SMap.t TemplateHelper }.

Definition registerTemplate (e : TemplateEngine) (template : CustomTemplate) : TemplateEngine :=
  {| templates := SMap.set (templates e) (m_id (meta template)) template;
     helpers := helpers e |}.

Definition getTemplate (e : TemplateEngine) (id : string) : option CustomTemplate :=
  SMap.get (templates e) id.

Definition listTemplates (e : TemplateEngine) : list CustomTemplate :=
  SMap.values (templates e).

Definition registerHelper (e : TemplateEngine) (name : string) (helper : TemplateHelper)
    : TemplateEngine :=
  {| templates := templates e;
     helpers := SMap.set (helpers e) name helper |}.

(** *** Inheritance *)

(** [x || []]. *)
Definition or_empty {A : Type} (p : prop (list A)) : list A :=
  match p with
  | Has l => l
  | _ => []
  end.

(** [{ ...parent.meta, ...child.meta }]. *)
Definition mergeMeta (parent child : TemplateMeta) : TemplateMeta :=
  {| m_id := m_id child;
     m_name := m_name child;
     m_description := m_description child;
     m_version := m_version child;
     m_author := spread (m_author parent) (m_author child);
     m_category := m_category child;
     m_scope := m_scope child;
     m_audience := spread (m_audience parent) (m_audience child);
     m_tags := spread (m_tags parent) (m_tags child);
     m_license := spread (m_license parent) (m_license child) |}.

(** [{ ...merged.get(v.name), ...v }]. *)
Definition mergeVariable (existing : option TemplateVariable) (v : TemplateVariable)
    : TemplateVariable :=
  match existing with
  | None => v
  | Some x =>
      {| v_name := v_name v;
         v_label := v_label v;
         v_type := v_type v;
         v_default := spread (v_default x) (v_default v);
         v_required := spread (v_required x) (v_required v);
         v_description := spread (v_description x) (v_description v);
         v_options := spread (v_options x) (v_options v);
         v_pattern := spread (v_pattern x) (v_pattern v);
         v_min := spread (v_min x) (v_min v);
         v_max := spread (v_max x) (v_max v) |}
  end.

Definition mergeVariables (parent child : list TemplateVariable) : list TemplateVariable :=
  let seeded := fold_left (fun merged v => SMap.set merged (v_name v) v) parent [] in
  let merged :=
    fold_left (fun merged v =>
                 SMap.set merged (v_name v) (mergeVariable (SMap.get merged (v_name v)) v))
              child seeded in
  SMap.values merged.

(** [a.order || 0]. *)
Definition orderOf (s : TemplateSection) : Z :=
  match s_order s with
  | Has z => z
  | _ => 0%Z
  end.

(** [list.sort((a, b) => (a.order || 0) - (b.order || 0))].  The sort of
    an array is stable: a section goes before the sections of the same
    weight that followed it. *)
Fixpoint insertByOrder (s : TemplateSection) (sorted : list TemplateSection)
    : list TemplateSection :=
  match sorted with
  | [] => [s]
  | x :: rest =>
      if (orderOf s <=? orderOf x)%Z then s :: sorted
      else x :: insertByOrder s rest
  end.

Fixpoint sortByOrder (l : list TemplateSection) : list TemplateSection :=
  match l with
  | [] => []
  | s :: rest => insertByOrder s (sortByOrder rest)
  end.

(** The first loop of [mergeSections]. *)
Definition seedSections (parent : list TemplateSection) : SMap.t TemplateSection :=
  fold_left (fun merged s => SMap.set merged (s_id s) s) parent [].

(** [{ ...existing, ...s, sections: nested }]. *)
Definition overrideSection (existing s : TemplateSection)
    (nested : prop (list TemplateSection)) : TemplateSection :=
  {| s_id := s_id s;
     s_title := s_title s;
     s_content := s_content s;
     s_condition := spread (s_condition existing) (s_condition s);
     s_sections := nested;
     s_collapsible := spread (s_collapsible existing) (s_collapsible s);
     s_order := spread (s_order existing) (s_order s);
     s_prompt := spread (s_prompt existing) (s_prompt s) |}.

(** The value of [existing.sections] under the key [sections] of an
    object literal: the key is there, whatever the value. *)
Definition kept {A : Type} (p : prop A) : prop A :=
  match p with
  | Has a => Has a
  | _ => Undefined
  end.

(** One turn of the second loop of [mergeSections], for the child
    section [s].  The recursion of the source, on the list of nested
    sections, is a recursion on the section that holds them. *)
Fixpoint overrideWith (s : TemplateSection) (merged : SMap.t TemplateSection)
    {struct s} : SMap.t TemplateSection :=
  match s with
  | mkSection id _ _ _ nested _ _ _ =>
      match SMap.get merged id with
      | Some existing =>
          SMap.set merged id
            (overrideSection existing s
               match nested with
               | Has ss =>
                   Has (sortByOrder (SMap.values
                     ((fix each (ss : list TemplateSection) (merged : SMap.t TemplateSection)
                           {struct ss} : SMap.t TemplateSection :=
                         match ss with
                         | [] => merged
                         | s' :: rest => each rest (overrideWith s' merged)
                         end) ss (seedSections (or_empty (s_sections existing))))))
               | _ => kept (s_sections existing)
               end)
      | None => SMap.set merged id s
      end
  end.

Definition mergeSections (parent child : list TemplateSection) : list TemplateSection :=
  let merged := fold_left (fun merged s => overrideWith s merged) child (seedSections parent) in
  sortByOrder (SMap.values merged).

Fixpoint resolveInheritance (e : TemplateEngine) (fuel : nat) (template : CustomTemplate)
    : outcome CustomTemplate :=
  match extends template with
  | Has parentId =>
      if String.eqb parentId "" then Ok template
      else
        match SMap.get (templates e) parentId with
        | None => Throw (Error ("Parent template not found: " ++ parentId))
        | Some parent =>
            match fuel with
            | O => OutOfFuel
            | S fuel' =>
                resolvedParent <- resolveInheritance e fuel' parent ;;
                Ok {| meta := mergeMeta (meta resolvedParent) (meta template);
                      variables := mergeVariables (variables resolvedParent) (variables template);
                      sections := mergeSections (sections resolvedParent) (sections template);
                      extends := Absent;
                      prompts := Has (or_empty (prompts resolvedParent)
                                      ++ or_empty (prompts template))%list |}
            end
        end
  | _ => Ok template
  end.

(** *** Variables *)

Definition valueOf (p : prop value) : value :=
  match p with
  | Has v => v
  | _ => VUndef
  end.

Definition isTrue (p : prop bool) : bool :=
  match p with
  | Has b => b
  | _ => false
  end.

(** The first loop of [resolveVariables]. *)
Fixpoint resolveDefinitions (definitions : list TemplateVariable)
    (provided resolved : dict) : outcome dict :=
  match definitions with
  | [] => Ok resolved
  | def :: rest =>
      if Js.defined (Js.get provided (v_name def)) then
        resolveDefinitions rest provided
          (Js.set resolved (v_name def) (Js.get provided (v_name def)))
      else if Js.defined (valueOf (v_default def)) then
        resolveDefinitions rest provided
          (Js.set resolved (v_name def) (valueOf (v_default def)))
      else if isTrue (v_required def) then
        Throw (Error ("Required variable missing: " ++ v_name def))
      else resolveDefinitions rest provided resolved
  end.

(** The second loop: the provided variables not yet resolved. *)
Definition addExtra (resolved : dict) (entry : string * value) : dict :=
  let (key, v) := entry in
  if Js.defined (Js.get resolved key) then resolved else Js.set resolved key v.

Definition resolveVariables (definitions : list TemplateVariable) (provided : dict)
    : outcome dict :=
  resolved <- resolveDefinitions definitions provided [] ;;
  Ok (fold_left addExtra provided resolved).

(** *** Conditions *)

Definition evaluateCondition (condition : SectionCondition) (variables : dict)
    : outcome bool :=
  let v := Js.get variables (c_variable condition) in
  let cv := valueOf (c_value condition) in
  match c_operator condition with
  | OpEquals => Ok (Js.strict_eq v cv)
  | OpNotEquals => Ok (negb (Js.strict_eq v cv))
  | OpContains =>
      match v with
      | VArr items => Ok (List.existsb (fun x => Js.strict_eq x cv) items)
      | VStr s => Ok (Builtin.includes (Js.to_string cv) s)
      | _ => Ok false
      end
  | OpNotContains =>
      match v with
      | VArr items => Ok (negb (List.existsb (fun x => Js.strict_eq x cv) items))
      | VStr s => Ok (negb (Builtin.includes (Js.to_string cv) s))
      | _ => Ok true
      end
  | OpGreaterThan =>
      match v with
      | VNum z =>
          match Builtin.to_number cv with
          | Num.Int n => Ok (n <? z)%Z
          | Num.NaN => Ok false
          | Num.Other => Unmodelled "Number"
          end
      | _ => Ok false
      end
  | OpLessThan =>
      match v with
      | VNum z =>
          match Builtin.to_number cv with
          | Num.Int n => Ok (z <? n)%Z
          | Num.NaN => Ok false
          | Num.Other => Unmodelled "Number"
          end
      | _ => Ok false
      end
  | OpExists =>
      Ok (negb (Js.strict_eq v VUndef) && negb (Js.strict_eq v VNull)
          && negb (Js.strict_eq v (VStr "")))
  | OpNotExists =>
      Ok (Js.strict_eq v VUndef || Js.strict_eq v VNull || Js.strict_eq v (VStr ""))
  | OpOther _ => Ok true
  end.

(** *** Interpolation *)

(** [value !== undefined && value !== null && value !== false && value !== '']. *)
Definition isTruthy (v : value) : bool :=
  negb (Js.strict_eq v VUndef) && negb (Js.strict_eq v VNull)
  && negb (Js.strict_eq v (VBool false)) && negb (Js.strict_eq v (VStr "")).

(** The callback of the first replacement of [interpolate]. *)
Definition substituteVariable (variables : dict) (_ : string) (name : string)
    : outcome string :=
  let v := Js.get variables name in
  if Js.defined v then Ok (Js.to_string v) else Ok ("{{" ++ name ++ "}}").

Definition processConditionalBlocks (text : string) (variables : dict) : outcome string :=
  r1 <- Re.replace Re.ifElsePattern
          (fun _ '(varName, ifContent, elseContent) =>
             Ok (if isTruthy (Js.get variables varName) then ifContent else elseContent))
          0 text ;;
  r2 <- Re.replace Re.ifPattern
          (fun _ '(varName, content) =>
             Ok (if isTruthy (Js.get variables varName) then content else ""))
          0 r1 ;;
  Re.replace Re.unlessPattern
    (fun _ '(varName, content) =>
       Ok (if negb (isTruthy (Js.get variables varName)) then content else ""))
    0 r2.

(** One turn of the loop over [Object.entries(item)]. *)
Definition replaceProperty (itemContent : outcome string) (entry : string * value)
    : outcome string :=
  c <- itemContent ;;
  let (key, val) := entry in
  if Re.is_literal_source key
  then Ok (Re.replaceAll ("{{" ++ key ++ "}}") (Js.to_string val) c)
  else Unmodelled "RegExp".

(** The callback of [value.map] in [processLoopBlocks]; [count] is
    [value.length]. *)
Definition renderItem (count : nat) (content : string) (index : nat) (item : value)
    : outcome string :=
  let c1 := Re.replaceAll "{{this}}" (Js.to_string item) content in
  let c2 := Re.replaceAll "{{@index}}" (Str.of_Z (Z.of_nat index)) c1 in
  let c3 := Re.replaceAll "{{@first}}" (Js.to_string (VBool (index =? 0)%nat)) c2 in
  let c4 := Re.replaceAll "{{@last}}"
              (Js.to_string (VBool (Z.of_nat index =? Z.of_nat count - 1)%Z)) c3 in
  match Builtin.entries item with
  | Some es => fold_left replaceProperty es (Ok c4)
  | None => Ok c4
  end.

Fixpoint renderItems (count : nat) (content : string) (index : nat) (items : list value)
    : outcome (list string) :=
  match items with
  | [] => Ok []
  | item :: rest =>
      r <- renderItem count content index item ;;
      tl <- renderItems count content (S index) rest ;;
      Ok (r :: tl)
  end.

Definition processLoopBlocks (text : string) (variables : dict) : outcome string :=
  Re.replace Re.eachPattern
    (fun _ '(varName, content) =>
       match Js.get variables varName with
       | VArr items =>
           rs <- renderItems (List.length items) content 0 items ;;
           Ok (Str.concat rs)
       | _ => Ok ""
       end)
    0 text.

Definition starts_and_ends_with (q : ascii) (arg : string) : bool :=
  match arg with
  | String c _ =>
      Ascii.eqb c q &&
      match Str.last_char arg with
      | Some d => Ascii.eqb d q
      | None => false
      end
  | EmptyString => false
  end.

(** [arg.slice(1, -1)]. *)
Definition slice_1_m1 (arg : string) : string :=
  Str.take (String.length arg - 2) (Str.drop 1 arg).

(** The callback of [argsString.split(/\s+/).map]. *)
Definition resolveArgument (variables : dict) (arg : string) : outcome value :=
  if Js.defined (Js.get variables arg) then Ok (Js.get variables arg)
  else if starts_and_ends_with Str.dquote arg then Ok (VStr (slice_1_m1 arg))
  else if starts_and_ends_with Str.squote arg then Ok (VStr (slice_1_m1 arg))
  else
    match Num.of_string arg with
    | Num.NaN => Ok (VStr arg)
    | Num.Int z => Ok (VNum z)
    | Num.Other => Unmodelled "Number"
    end.

Fixpoint resolveArguments (variables : dict) (tokens : list string) : outcome (list value) :=
  match tokens with
  | [] => Ok []
  | t :: rest =>
      a <- resolveArgument variables t ;;
      tl <- resolveArguments variables rest ;;
      Ok (a :: tl)
  end.

(** The callback of [processHelperCalls]. *)
Definition callHelper (e : TemplateEngine) (now : Date) (variables : dict)
    (matched : string) (groups : string * option string) : outcome string :=
  let (helperName, argsString) := groups in
  match SMap.get (helpers e) helperName with
  | None => Ok matched
  | Some helper =>
      args <- match argsString with
              | Some a => resolveArguments variables (Str.split_ws a)
              | None => Ok []
              end ;;
      r <- helper now args variables ;;
      Ok (Js.to_string r)
  end.

Definition processHelperCalls (e : TemplateEngine) (now : Date) (text : string)
    (variables : dict) : outcome string :=
  Re.replace Re.helperPattern (callHelper e now variables) 0 text.

Definition interpolate (e : TemplateEngine) (now : Date) (text : string) (variables : dict)
    : outcome string :=
  r1 <- Re.replace Re.plainPattern (substituteVariable variables) 0 text ;;
  r2 <- processConditionalBlocks r1 variables ;;
  r3 <- processLoopBlocks r2 variables ;;
  processHelperCalls e now r3 variables.

(** *** Sections *)

(** [compiled.push(compiledSection)], or [continue]. *)
Definition pushSection (c : option CompiledSection) (compiled : list CompiledSection)
    : list CompiledSection :=
  match c with
  | Some x => x :: compiled
  | None => compiled
  end.

(** One turn of the loop of [compileSections]: [None] is [continue].
    The recursion of the source, on the list of nested sections, is a
    recursion on the section that holds them. *)
Fixpoint compileSection (e : TemplateEngine) (now : Date) (variables : dict)
    (section : TemplateSection) {struct section} : outcome (option CompiledSection) :=
  match section with
  | mkSection id title content condition nested _ _ _ =>
      skip <- match condition with
              | Has condition =>
                  holds <- evaluateCondition condition variables ;;
                  Ok (negb holds)
              | _ => Ok false
              end ;;
      if skip : bool then Ok None
      else
        title' <- interpolate e now title variables ;;
        content' <- interpolate e now content variables ;;
        nested' <- match nested with
                   | Has ss =>
                       cs <- (fix each (ss : list TemplateSection)
                                : outcome (list CompiledSection) :=
                                match ss with
                                | [] => Ok []
                                | s' :: rest =>
                                    c <- compileSection e now variables s' ;;
                                    tl <- each rest ;;
                                    Ok (pushSection c tl)
                                end) ss ;;
                       Ok (Has cs)
                   | _ => Ok Absent
                   end ;;
        Ok (Some {| cs_id := id; cs_title := title'; cs_content := content';
                    cs_sections := nested'; cs_aiGenerated := Absent |})
  end.

Fixpoint compileSections (e : TemplateEngine) (now : Date)
    (sections : list TemplateSection) (variables : dict)
    : outcome (list CompiledSection) :=
  match sections with
  | [] => Ok []
  | section :: rest =>
      c <- compileSection e now variables section ;;
      tl <- compileSections e now rest variables ;;
      Ok (pushSection c tl)
  end.

(** *** Rendering *)

Definition newline : string := String "010"%char EmptyString.

Fixpoint renderSection (section : CompiledSection) (level : nat) {struct section}
    : list string :=
  match section with
  | mkCompiledSection _ title content nested _ =>
      let prefix := Str.repeat "#" (Nat.min level 6) in
      ([(prefix ++ " " ++ title)%string; ""]
       ++ (if String.eqb (Str.trim content) "" then [] else [Str.trim content; ""])
       ++ match nested with
          | Has children =>
              (fix each (children : list CompiledSection) : list string :=
                 match children with
                 | [] => []
                 | child :: rest => renderSection child (level + 1) ++ each rest
                 end) children
          | _ => []
          end)%list
  end.

Definition render (e : TemplateEngine) (now : Date) (compiled : CompiledTemplate)
    : outcome string :=
  name <- interpolate e now (m_name (meta (ct_template compiled))) (ct_variables compiled) ;;
  Ok (Str.join newline
        ([("# " ++ name)%string; ""]
         ++ flat_map (fun section => renderSection section 2) (ct_sections compiled))%list).

(** *** Compilation *)

Definition compile (e : TemplateEngine) (now : Date) (fuel : nat)
    (template : CustomTemplate) (context : TemplateContext) : outcome CompiledTemplate :=
  resolvedTemplate <- resolveInheritance e fuel template ;;
  variables <- resolveVariables (variables resolvedTemplate) (ctx_variables context) ;;
  sections <- compileSections e now (sections resolvedTemplate) variables ;;
  Ok {| ct_template := resolvedTemplate; ct_sections := sections; ct_variables := variables |}.

Definition process (e : TemplateEngine) (now : Date) (fuel : nat)
    (template : CustomTemplate) (context : TemplateContext) : outcome string :=
  compiled <- compile e now fuel template context ;;
  render e now compiled.

(** *** The default helpers *)

(** [String(n).padStart(2, '0')]. *)
Definition pad (n : Z) : string :=
  let s := Str.of_Z n in
  Str.repeat "0" (2 - String.length s) ++ s.

Definition formatDate (date : Date) (format : string) : string :=
  let f1 := Re.replaceFirst "YYYY" (Str.of_Z (getFullYear date)) format in
  let f2 := Re.replaceFirst "MM" (pad (getMonth date + 1)) f1 in
  let f3 := Re.replaceFirst "DD" (pad (getDate date)) f2 in
  let f4 := Re.replaceFirst "HH" (pad (getHours date)) f3 in
  let f5 := Re.replaceFirst "mm" (pad (getMinutes date)) f4 in
  Re.replaceFirst "ss" (pad (getSeconds date)) f5.

Definition dateHelper : TemplateHelper := fun now args _ =>
  match Js.or_else (Js.arg args 0) (VStr "YYYY-MM-DD") with
  | VStr format => Ok (VStr (formatDate now format))
  | _ => Throw (TypeError "format.replace is not a function")
  end.

Definition uppercaseHelper : TemplateHelper := fun _ args _ =>
  Ok (VStr (Str.toUpperCase (Js.to_string (Js.or_else (Js.arg args 0) (VStr ""))))).

Definition lowercaseHelper : TemplateHelper := fun _ args _ =>
  Ok (VStr (Str.toLowerCase (Js.to_string (Js.or_else (Js.arg args 0) (VStr ""))))).

Definition capitalizeHelper : TemplateHelper := fun _ args _ =>
  let str := Js.to_string (Js.or_else (Js.arg args 0) (VStr "")) in
  Ok (VStr (Str.toUpperCase (Str.take 1 str) ++ Str.drop 1 str)).

Definition joinHelper : TemplateHelper := fun _ args _ =>
  let arr := Js.arg args 0 in
  let separator := Js.to_string (Js.or_else (Js.arg args 1) (VStr ", ")) in
  match arr with
  | VArr items => Ok (VStr (Js.array_join separator items))
  | _ => Ok (VStr (Js.to_string arr))
  end.

Definition defaultHelper : TemplateHelper := fun _ args _ =>
  let a := Js.arg args 0 in
  if negb (Js.strict_eq a VUndef) && negb (Js.strict_eq a VNull)
     && negb (Js.strict_eq a (VStr ""))
  then Ok a else Ok (Js.arg args 1).

Definition lengthHelper : TemplateHelper := fun _ args _ =>
  match Js.arg args 0 with
  | VArr items => Ok (VNum (Z.of_nat (List.length items)))
  | VStr s => Ok (VNum (Z.of_nat (String.length s)))
  | _ => Ok (VNum 0)
  end.

(** [str.slice(0, len)]: a negative [len] counts from the end. *)
Definition slice_0 (str : string) (len : Z) : string :=
  if (len <? 0)%Z then Str.take (String.length str - Z.to_nat (- len)) str
  else Str.take (Z.to_nat len) str.

Definition truncateHelper : TemplateHelper := fun _ args _ =>
  let str := Js.to_string (Js.or_else (Js.arg args 0) (VStr "")) in
  match Builtin.to_number (Js.arg args 1) with
  | Num.Other => Unmodelled "Number"
  | n =>
      let len := match n with
                 | Num.Int z => if (z =? 0)%Z then 100%Z else z
                 | _ => 100%Z
                 end in
      if (Z.of_nat (String.length str) <=? len)%Z then Ok (VStr str)
      else Ok (VStr (slice_0 str len ++ "..."))
  end.

Definition is_slug_char (c : ascii) : bool := Str.is_lower c || Str.is_digit c.

(** [s.replace(/[^a-z0-9]+/g, '-')]. *)
Fixpoint hyphenate (in_run : bool) (s : string) : string :=
  match s with
  | EmptyString => EmptyString
  | String c s' =>
      if is_slug_char c then String c (hyphenate false s')
      else if in_run then hyphenate true s'
      else String "-"%char (hyphenate true s')
  end.

(** [s.replace(/^-|-$/g, '')]. *)
Definition strip_hyphens (s : string) : string :=
  let s1 := match s with
            | String "-"%char r => r
            | _ => s
            end in
  match Str.rev s1 with
  | String "-"%char r => Str.rev r
  | _ => s1
  end.

Definition slugHelper : TemplateHelper := fun _ args _ =>
  let str := Js.to_string (Js.or_else (Js.arg args 0) (VStr "")) in
  Ok (VStr (strip_hyphens (hyphenate false (Str.toLowerCase str)))).

Definition registerDefaultHelpers (e : TemplateEngine) : TemplateEngine :=
  fold_left (fun e h => registerHelper e (fst h) (snd h))
    [ ("date", dateHelper);
      ("uppercase", uppercaseHelper);
      ("lowercase", lowercaseHelper);
      ("capitalize", capitalizeHelper);
      ("join", joinHelper);
      ("default", defaultHelper);
      ("length", lengthHelper);
      ("truncate", truncateHelper);
      ("slug", slugHelper) ] e.

(** [new TemplateEngine()]. *)
Definition createTemplateEngine : TemplateEngine :=
  registerDefaultHelpers {| templates := []; helpers := [] |}.

(** ** Notions used by the properties *)

(** A declared variable that is required, has no default and gets no
    value from the caller: the third branch of the first loop of
    [resolveVariables]. *)
Definition unresolved (provided : dict) (def : TemplateVariable) : bool :=
  negb (Js.defined (Js.get provided (v_name def)))
  && negb (Js.defined (valueOf (v_default def)))
  && isTrue (v_required def).

(** [new Error(`Required variable missing: ${def.name}`)]. *)
Definition missingError (def : TemplateVariable) : exn :=
  Error ("Required variable missing: " ++ v_name def).

(** What [compileSections] pushes for a section that passes its
    condition. *)
Definition compileVisible (e : TemplateEngine) (now : Date) (variables : dict)
    (section : TemplateSection) : outcome CompiledSection :=
  title <- interpolate e now (s_title section) variables ;;
  content <- interpolate e now (s_content section) variables ;;
  nested <- match s_sections section with
            | Has ss =>
                cs <- compileSections e now ss variables ;;
                Ok (Has cs)
            | _ => Ok Absent
            end ;;
  Ok {| cs_id := s_id section; cs_title := title; cs_content := content;
        cs_sections := nested; cs_aiGenerated := Absent |}.

(** The renderer as the specification words it: a walk over the tree of
    compiled sections by nesting depth, the top-level sections being at
    depth one. *)
Module Spec.



Definition body (content : string) : list string :=
  if String.eqb (Str.trim content) "" then [] else [Str.trim content; ""].





(** a child section merged field by field onto the section of the same
    id, the nested lists being merged by the same rule when the child has
    one: *)
Definition mergeOnto (existing s : TemplateSection) : TemplateSection :=
  overrideSection existing s
    match s_sections s with
    | Has ss => Has (mergeSections (or_empty (s_sections existing)) ss)
    | _ => kept (s_sections existing)
    end.

(** the section that the merge holds under an id: the parent section of
    that id (the last one, should the id occur twice), with the child
    sections of that id merged onto it one after the other. *)
Definition seeded (parent : list TemplateSection) (id : string) : option TemplateSection :=
  find (fun s => String.eqb (s_id s) id) (List.rev parent).





Definition byOrder (a b : TemplateSection) : Prop := (orderOf a <= orderOf b)%Z.


End Spec.

(** ** Notions used by the proofs *)

(** Both loops of [mergeSections] store, under the id of a section, a
    section computed from what the map held under that id. *)
Definition loopStep (g : option TemplateSection -> TemplateSection -> TemplateSection)
    (merged : SMap.t TemplateSection) (s : TemplateSection) : SMap.t TemplateSection :=
  SMap.set merged (s_id s) (g (SMap.get merged (s_id s)) s).

(** What the first loop stores, and what the second loop stores. *)
Definition seedWith (held : option TemplateSection) (s : TemplateSection)
    : TemplateSection := s.

Definition mergeWith (held : option TemplateSection) (s : TemplateSection)
    : TemplateSection :=
  match held with
  | Some existing => Spec.mergeOnto existing s
  | None => s
  end.

(** Every section is held under its own id. *)
Definition keyed (merged : SMap.t TemplateSection) : Prop :=
  Forall (fun kv => fst kv = s_id (snd kv)) merged.

(** A text without an opening brace: no pattern of the engine matches
    inside it. *)
Definition plain (s : string) : bool :=
  Str.forallb (fun c => negb (Str.is_lbrace c)) s.

(** A name as [\w+] matches it. *)
Definition word (s : string) : bool :=
  negb (String.eqb s "") && Str.forallb Str.is_word s.

(** A reference to a name between double braces. *)
Definition reference (name : string) : string := "{{" ++ name ++ "}}".

(** What the head of a text has to be for no character of the class [p]
    to start it. *)
Definition headFails (p : ascii -> bool) (t : string) : Prop :=
  match t with
  | EmptyString => True
  | String c _ => p c = false
  end.

(** *** Texts in pieces

    A text as a sequence of pieces: stretches without an opening brace,
    and references [{{inner}}] whose inner text holds no brace. *)
Inductive chunk : Type :=
  | Plain (s : string)
  | Token (inner : string).

Definition showChunk (c : chunk) : string :=
  match c with
  | Plain s => s
  | Token inner => reference inner
  end.

Definition show (chunks : list chunk) : string :=
  Str.concat (List.map showChunk chunks).

Definition braceless (s : string) : bool :=
  Str.forallb (fun c => negb (Str.is_lbrace c || Str.is_rbrace c)) s.


Definition wellFormed (c : chunk) : Prop :=
  match c with
  | Plain s => plain s = true
  | Token inner => braceless inner = true
  end.





(** A piece of the body of an [each] block that the other passes leave
    to the loop: a plain stretch, one of the three markers that start with
    an at sign, or a name that is neither defined in the resolved mapping
    nor, [this] apart, registered as a helper. *)
Definition loopPiece (e : TemplateEngine) (variables : dict) (c : chunk) : Prop :=
  match c with
  | Plain s => plain s = true
  | Token inner =>
      inner = "@index" \/ inner = "@first" \/ inner = "@last"
      \/ (word inner = true /\ Js.get variables inner = VUndef
          /\ (inner = "this" \/ SMap.get (helpers e) inner = None))
  end.

(** An [each] block over the variable [v]. *)
Definition eachBlock (v : string) (body : list chunk) : string :=
  "{{#each " ++ v ++ "}}" ++ show body ++ "{{/each}}".



(** A reference that a replacement leaves as it stands: the pattern
    does not match at its start, or matches the reference alone and the
    callback returns it. *)
Definition inert {A : Type} (pattern : string -> option (A * string))
    (callback : string -> A -> outcome string) (c : chunk) : Prop :=
  match c with
  | Plain _ => True
  | Token inner =>
      forall rest,
        pattern (reference inner ++ rest) = None
        \/ exists groups,
             pattern (reference inner ++ rest) = Some (groups, rest)
             /\ callback (reference inner) groups = Ok (reference inner)
  end.

(** Two readings of the clock between which no registered helper tells
    the difference. *)
Definition helpersAgree (e : TemplateEngine) (now1 now2 : Date) : Prop :=
  forall (name : string) (helper : TemplateHelper),
    SMap.get (helpers e) name = Some helper ->
    forall (args : list value) (variables : dict),
      helper now1 args variables = helper now2 args variables.

(** ** Induction over trees of sections *)

Section TemplateSectionInduction.

Variable P : TemplateSection -> Prop.

Hypothesis step :
  forall id title content condition nested collapsible order prompt,
    match nested with
    | Has ss => Forall P ss
    | _ => True
    end ->
    P (mkSection id title content condition nested collapsible order prompt).

Fixpoint TemplateSection_tree_ind (s : TemplateSection) : P s :=
  match s with
  | mkSection id title content condition nested collapsible order prompt =>
      step id title content condition nested collapsible order prompt
        (match nested as n
               return match n with Has ss => Forall P ss | _ => True end with
         | Has ss =>
             (fix all (l : list TemplateSection) : Forall P l :=
                match l with
                | [] => Forall_nil P
                | x :: r => Forall_cons x (TemplateSection_tree_ind x) (all r)
                end) ss
         | Absent => I
         | Undefined => I
         end)
  end.

End TemplateSectionInduction.

Section CompiledSectionInduction.

Variable P : CompiledSection -> Prop.

Hypothesis step :
  forall id title content nested ai,
    match nested with
    | Has cs => Forall P cs
    | _ => True
    end ->
    P (mkCompiledSection id title content nested ai).


End CompiledSectionInduction.

(** ** Sample data *)

Module Sample.

Definition quote : string := String Str.dquote EmptyString.

Definition someMeta (id : string) : TemplateMeta :=
  {| m_id := id; m_name := id; m_description := "A custom template";
     m_version := "1.0.0"; m_author := Absent; m_category := "custom";
     m_scope := ScopeStandard; m_audience := Absent; m_tags := Absent;
     m_license := Absent |}.

Definition required (name : string) : TemplateVariable :=
  {| v_name := name; v_label := name; v_type := TString; v_default := Absent;
     v_required := Has true; v_description := Absent; v_options := Absent;
     v_pattern := Absent; v_min := Absent; v_max := Absent |}.

Definition section (id content : string) : TemplateSection :=
  {| s_id := id; s_title := id; s_content := content; s_condition := Absent;
     s_sections := Absent; s_collapsible := Absent; s_order := Absent;
     s_prompt := Absent |}.

Definition template (vars : list TemplateVariable) (secs : list TemplateSection)
    : CustomTemplate :=
  {| meta := someMeta "sample"; variables := vars; sections := secs;
     extends := Absent; prompts := Absent |}.

Definition noVariables : TemplateContext := {| ctx_variables := [] |}.

Definition morning : Date :=
  {| getFullYear := 2025; getMonth := 9; getDate := 9;
     getHours := 8; getMinutes := 30; getSeconds := 0 |}.

Definition nextYear : Date :=
  {| getFullYear := 2026; getMonth := 0; getDate := 1;
     getHours := 0; getMinutes := 0; getSeconds := 0 |}.

(** Scenario 1 of the specification. *)
Definition scenario1 : CustomTemplate := template [required "name"] [].

Definition twoRequired : CustomTemplate := template [required "a"; required "b"] [].

Definition dated : CustomTemplate := template [] [section "stamp" "{{date}}"].

Definition stamped (day : string) : CompiledTemplate :=
  {| ct_template := dated;
     ct_sections := [ {| cs_id := "stamp"; cs_title := "stamp"; cs_content := day;
                         cs_sections := Absent; cs_aiGenerated := Absent |} ];
     ct_variables := [] |}.

(** An engine whose [date] helper has been registered anew and no longer
    reads the clock. *)
Definition frozen : TemplateEngine :=
  registerHelper createTemplateEngine "date" (fun _ _ _ => Ok (VStr "2025-10-09")).




Definition rollBody : list chunk := [Token "@index"; Plain ":"; Token "name"; Plain ";"].

(** Scenario 4 of the specification. *)
Definition scenario4 : string := "{{join techStack " ++ quote ++ ", " ++ quote ++ "}}".
Definition techStack : dict := [("techStack", VArr [VStr "Go"; VStr "Rust"])].

Definition notExists (variable : string) : SectionCondition :=
  {| c_variable := variable; c_operator := OpNotExists; c_value := Absent |}.

Definition guarded : TemplateSection :=
  {| s_id := "auth"; s_title := "Authentication"; s_content := "None yet.";
     s_condition := Has (notExists "authProvider");
     s_sections := Absent; s_collapsible := Absent; s_order := Absent;
     s_prompt := Absent |}.

Definition leaf (title content : string) : CompiledSection :=
  {| cs_id := title; cs_title := title; cs_content := content;
     cs_sections := Absent; cs_aiGenerated := Absent |}.

Definition compiledSample : CompiledTemplate :=
  {| ct_template := template [] [];
     ct_sections :=
       [ {| cs_id := "a"; cs_title := "Overview"; cs_content := "  ";
            cs_sections := Has [leaf "Goals" " Ship it. "];
            cs_aiGenerated := Absent |} ];
     ct_variables := [] |}.

End Sample.


(** * The template loader

    A shallow embedding of the part of
    [packages/cli/src/enterprise/templates/loader.ts] (class
    [TemplateLoader]) that turns parsed data into templates: [validate],
    [validateMeta], [validateVariables], [validateSections] and
    [createBlankTemplate].  The methods that read files and the YAML
    parser are not embedded: [validate] starts from the parsed data, a
    [Record<string, unknown>].

    The loader casts without checking ([data.scope as ...],
    [s.order as number]): whatever the file holds lands in the template.
    The types of the embedding hold the values the casts name; a value
    outside them makes the conversion [Unmodelled]. *)

(** [${source ? ` in ${source}` : ''}]. *)
Definition inSource (source : option string) : string :=
  match source with
  | Some s => if String.eqb s "" then "" else " in " ++ s
  | None => ""
  end.

(** An element of a parsed list read as a record, [first] being the
    first property read.  [null] and [undefined] have no properties: the
    read throws.  Of the properties the loader reads, a number, a
    boolean, a text and an array have none. *)
Definition asRecord (v : value) (first : string) : outcome dict :=
  match v with
  | VObj d => Ok d
  | VNull =>
      Throw (TypeError ("Cannot read properties of null (reading '" ++ first ++ "')"))
  | VUndef =>
      Throw (TypeError ("Cannot read properties of undefined (reading '" ++ first ++ "')"))
  | VFunc _ => Unmodelled "function"
  | _ => Ok []
  end.

(** [(x as Record<string, unknown>[]) || []], about to be mapped over by
    [callee]. *)
Definition asList (v : value) (callee : string) : outcome (list value) :=
  if Js.truthy v then
    match v with
    | VArr items => Ok items
    | _ => Throw (TypeError (callee ++ " is not a function"))
    end
  else Ok [].

(** [key: x] in an object literal: the key is there, whatever [x]. *)
Definition held (v : value) : prop value :=
  match v with
  | VUndef => Undefined
  | _ => Has v
  end.

(** [key: x ? String(x) : undefined]. *)
Definition optionalText (v : value) : prop string :=
  if Js.truthy v then Has (Js.to_string v) else Undefined.

(** [key: x as number]. *)
Definition asNumber (v : value) : outcome (prop Z) :=
  match v with
  | VUndef => Ok Undefined
  | VNum z => Ok (Has z)
  | _ => Unmodelled "number"
  end.

(** [key: x as boolean]. *)
Definition asBoolean (v : value) : outcome (prop bool) :=
  match v with
  | VUndef => Ok Undefined
  | VBool b => Ok (Has b)
  | _ => Unmodelled "boolean"
  end.

(** [data.scope as 'mvp' | 'standard' | 'comprehensive' | 'enterprise']. *)
Definition asScope (v : value) : outcome Scope :=
  match v with
  | VStr s =>
      if String.eqb s "mvp" then Ok ScopeMvp
      else if String.eqb s "standard" then Ok ScopeStandard
      else if String.eqb s "comprehensive" then Ok ScopeComprehensive
      else if String.eqb s "enterprise" then Ok ScopeEnterprise
      else Unmodelled "scope"
  | _ => Unmodelled "scope"
  end.

(** [data.audience as 'startup' | 'business' | 'enterprise']. *)
Definition asAudience (v : value) : outcome (prop Audience) :=
  match v with
  | VUndef => Ok Undefined
  | VStr s =>
      if String.eqb s "startup" then Ok (Has AudienceStartup)
      else if String.eqb s "business" then Ok (Has AudienceBusiness)
      else if String.eqb s "enterprise" then Ok (Has AudienceEnterprise)
      else Unmodelled "audience"
  | _ => Unmodelled "audience"
  end.

Fixpoint texts (items : list value) : option (list string) :=
  match items with
  | [] => Some []
  | VStr s :: rest =>
      match texts rest with
      | Some l => Some (s :: l)
      | None => None
      end
  | _ => None
  end.

(** [data.tags as string[]]. *)
Definition asTags (v : value) : outcome (prop (list string)) :=
  match v with
  | VUndef => Ok Undefined
  | VArr items =>
      match texts items with
      | Some l => Ok (Has l)
      | None => Unmodelled "tags"
      end
  | _ => Unmodelled "tags"
  end.

(** [(v.type as TemplateVariable['type']) || 'string']. *)
Definition asType (v : value) : outcome VariableType :=
  if Js.truthy v then
    match v with
    | VStr s =>
        if String.eqb s "string" then Ok TString
        else if String.eqb s "number" then Ok TNumber
        else if String.eqb s "boolean" then Ok TBoolean
        else if String.eqb s "select" then Ok TSelect
        else if String.eqb s "multiselect" then Ok TMultiselect
        else if String.eqb s "text" then Ok TText
        else if String.eqb s "date" then Ok TDate
        else Unmodelled "type"
    | _ => Unmodelled "type"
    end
  else Ok TString.

Fixpoint choices (items : list value) : option (list (string * string)) :=
  match items with
  | [] => Some []
  | VObj [(k1, VStr label); (k2, VStr v)] :: rest =>
      if String.eqb k1 "label" && String.eqb k2 "value" then
        match choices rest with
        | Some l => Some ((label, v) :: l)
        | None => None
        end
      else None
  | _ => None
  end.

(** [v.options as Array<{ label: string; value: string }>]. *)
Definition asOptions (v : value) : outcome (prop (list (string * string))) :=
  match v with
  | VUndef => Ok Undefined
  | VArr items =>
      match choices items with
      | Some l => Ok (Has l)
      | None => Unmodelled "options"
      end
  | _ => Unmodelled "options"
  end.

Definition operatorOf (name : string) : Operator :=
  if String.eqb name "equals" then OpEquals
  else if String.eqb name "not_equals" then OpNotEquals
  else if String.eqb name "contains" then OpContains
  else if String.eqb name "not_contains" then OpNotContains
  else if String.eqb name "greater_than" then OpGreaterThan
  else if String.eqb name "less_than" then OpLessThan
  else if String.eqb name "exists" then OpExists
  else if String.eqb name "not_exists" then OpNotExists
  else OpOther name.

(** The object literal built from [s.condition], a value that is
    truthy. *)
Definition asCondition (v : value) : outcome SectionCondition :=
  match v with
  | VObj cond =>
      match Js.get cond "operator" with
      | VStr name =>
          Ok {| c_variable := Js.to_string (Js.get cond "variable");
                c_operator := operatorOf name;
                c_value := held (Js.get cond "value") |}
      | _ => Unmodelled "operator"
      end
  | _ => Unmodelled "condition"
  end.

(** [p.model as 'claude' | 'gpt-4' | 'gemini' | 'ollama' | 'auto']. *)
Definition asModel (v : value) : outcome (prop Model) :=
  match v with
  | VUndef => Ok Undefined
  | VStr s =>
      if String.eqb s "claude" then Ok (Has ModelClaude)
      else if String.eqb s "gpt-4" then Ok (Has ModelGpt4)
      else if String.eqb s "gemini" then Ok (Has ModelGemini)
      else if String.eqb s "ollama" then Ok (Has ModelOllama)
      else if String.eqb s "auto" then Ok (Has ModelAuto)
      else Unmodelled "model"
  | _ => Unmodelled "model"
  end.

(** [p.temperature as number]. *)
Definition asTemperature (v : value) : outcome (prop QArith_base.Q) :=
  match v with
  | VUndef => Ok Undefined
  | VNum z => Ok (Has (QArith_base.inject_Z z))
  | _ => Unmodelled "number"
  end.

(** [data.map((x, index) => f(x, index))]: the elements in order, the
    first throw ending the loop. *)
Fixpoint mapIndexed {A : Type} (f : value -> nat -> outcome A) (items : list value)
    (index : nat) : outcome (list A) :=
  match items with
  | [] => Ok []
  | item :: rest =>
      a <- f item index ;;
      tl <- mapIndexed f rest (S index) ;;
      Ok (a :: tl)
  end.

(** ** [validateMeta] *)

Definition requiredFields : list string :=
  ["id"; "name"; "description"; "version"; "category"; "scope"].

Definition missingField (field : string) (source : option string) : exn :=
  Error ("Invalid template meta: missing " ++ field ++ inSource source).

(** The loop over [required]. *)
Fixpoint checkRequired (data : dict) (source : option string) (fields : list string)
    : outcome unit :=
  match fields with
  | [] => Ok tt
  | field :: rest =>
      if Js.truthy (Js.get data field) then checkRequired data source rest
      else Throw (missingField field source)
  end.

Definition validateMeta (data : dict) (source : option string) : outcome TemplateMeta :=
  checked <- checkRequired data source requiredFields ;;
  scope <- asScope (Js.get data "scope") ;;
  audience <- asAudience (Js.get data "audience") ;;
  tags <- asTags (Js.get data "tags") ;;
  Ok {| m_id := Js.to_string (Js.get data "id");
        m_name := Js.to_string (Js.get data "name");
        m_description := Js.to_string (Js.get data "description");
        m_version := Js.to_string (Js.get data "version");
        m_author := optionalText (Js.get data "author");
        m_category := Js.to_string (Js.get data "category");
        m_scope := scope;
        m_audience := audience;
        m_tags := tags;
        m_license := optionalText (Js.get data "license") |}.

(** ** [validateVariables] *)

Definition missingName (index : nat) (source : option string) : exn :=
  Error ("Invalid variable at index " ++ Str.of_Z (Z.of_nat index) ++ ": missing name"
         ++ inSource source).

(** The callback of [data.map] in [validateVariables]. *)
Definition validateVariable (source : option string) (v : value) (index : nat)
    : outcome TemplateVariable :=
  d <- asRecord v "name" ;;
  if Js.truthy (Js.get d "name") then
    type <- asType (Js.get d "type") ;;
    options <- asOptions (Js.get d "options") ;;
    min <- asNumber (Js.get d "min") ;;
    max <- asNumber (Js.get d "max") ;;
    Ok {| v_name := Js.to_string (Js.get d "name");
          v_label := Js.to_string (Js.or_else (Js.get d "label") (Js.get d "name"));
          v_type := type;
          v_default := held (Js.get d "default");
          v_required := Has (Js.truthy (Js.get d "required"));
          v_description := optionalText (Js.get d "description");
          v_options := options;
          v_pattern := optionalText (Js.get d "pattern");
          v_min := min;
          v_max := max |}
  else Throw (missingName index source).

Definition validateVariables (data : list value) (source : option string)
    : outcome (list TemplateVariable) :=
  mapIndexed (validateVariable source) data 0.

(** ** [validateSections] *)

Definition missingOf (what : string) (index : nat) (source : option string) : exn :=
  Error ("Invalid section at index " ++ Str.of_Z (Z.of_nat index) ++ ": missing " ++ what
         ++ inSource source).

(** The callback of [data.map] in [validateSections].  The recursion of
    the source, on the list under [s.sections], is a recursion on the
    value that holds the list: the inner loops find the property
    [sections] among the properties of [s] and map over its elements. *)
Fixpoint validateSection (source : option string) (v : value) (index : nat) {struct v}
    : outcome TemplateSection :=
  match v with
  | VObj s =>
      if negb (Js.truthy (Js.get s "id")) then Throw (missingOf "id" index source)
      else if negb (Js.truthy (Js.get s "title")) then Throw (missingOf "title" index source)
      else
        order <- asNumber (Js.get s "order") ;;
        collapsible <- asBoolean (Js.get s "collapsible") ;;
        condition <- (if Js.truthy (Js.get s "condition")
                      then c <- asCondition (Js.get s "condition") ;; Ok (Has c)
                      else Ok Absent) ;;
        nested <- (fix property (entries : list (string * value))
                     : outcome (prop (list TemplateSection)) :=
                     match entries with
                     | [] => Ok Absent
                     | (k, x) :: rest =>
                         if String.eqb k "sections" then
                           if Js.truthy x then
                             match x with
                             | VArr items =>
                                 l <- (fix each (items : list value) (i : nat)
                                         : outcome (list TemplateSection) :=
                                         match items with
                                         | [] => Ok []
                                         | item :: more =>
                                             a <- validateSection source item i ;;
                                             tl <- each more (S i) ;;
                                             Ok (a :: tl)
                                         end) items 0 ;;
                                 Ok (Has l)
                             | _ => Throw (TypeError "data.map is not a function")
                             end
                           else Ok Absent
                         else property rest
                     end) s ;;
        Ok {| s_id := Js.to_string (Js.get s "id");
              s_title := Js.to_string (Js.get s "title");
              s_content := Js.to_string (Js.or_else (Js.get s "content") (VStr ""));
              s_condition := condition;
              s_sections := nested;
              s_collapsible := collapsible;
              s_order := order;
              s_prompt := optionalText (Js.get s "prompt") |}
  | VNull => Throw (TypeError "Cannot read properties of null (reading 'id')")
  | VUndef => Throw (TypeError "Cannot read properties of undefined (reading 'id')")
  | VFunc _ => Unmodelled "function"
  | _ => Throw (missingOf "id" index source)
  end.

Definition validateSections (data : list value) (source : option string)
    : outcome (list TemplateSection) :=
  mapIndexed (validateSection source) data 0.

(** ** [validate] *)

(** The callback of [data.prompts.map]. *)
Definition validatePrompt (p : value) (index : nat) : outcome TemplatePrompt :=
  d <- asRecord p "id" ;;
  model <- asModel (Js.get d "model") ;;
  temperature <- asTemperature (Js.get d "temperature") ;;
  maxTokens <- asNumber (Js.get d "maxTokens") ;;
  Ok {| p_id := Js.to_string (Js.get d "id");
        p_section := Js.to_string (Js.get d "section");
        p_system := optionalText (Js.get d "system");
        p_user := Js.to_string (Js.get d "user");
        p_model := model;
        p_temperature := temperature;
        p_maxTokens := maxTokens |}.

(** [!data.meta || typeof data.meta !== 'object'] fails for an object
    and for an array; of the properties [validateMeta] reads, an array
    has none. *)
Definition metaRecord (v : value) : option dict :=
  match v with
  | VObj d => Some d
  | VArr _ => Some []
  | _ => None
  end.

Definition validate (data : dict) (source : option string) : outcome CustomTemplate :=
  match metaRecord (Js.get data "meta") with
  | None => Throw (Error ("Invalid template: missing meta section" ++ inSource source))
  | Some m =>
      meta <- validateMeta m source ;;
      vs <- asList (Js.get data "variables") "data.map" ;;
      variables <- validateVariables vs source ;;
      ss <- asList (Js.get data "sections") "data.map" ;;
      sections <- validateSections ss source ;;
      prompts <- (if Js.truthy (Js.get data "prompts") then
                    match Js.get data "prompts" with
                    | VArr items =>
                        l <- mapIndexed validatePrompt items 0 ;;
                        Ok (Has l)
                    | _ => Throw (TypeError "data.prompts.map is not a function")
                    end
                  else Ok Absent) ;;
      Ok {| meta := meta;
            variables := variables;
            sections := sections;
            extends := if Js.truthy (Js.get data "extends")
                       then Has (Js.to_string (Js.get data "extends"))
                       else Absent;
            prompts := prompts |}
  end.

(** ** [createBlankTemplate] *)

Definition createBlankTemplate (id name : string) : CustomTemplate :=
  {| meta := {| m_id := id; m_name := name; m_description := "A custom template";
                m_version := "1.0.0"; m_author := Absent; m_category := "custom";
                m_scope := ScopeStandard; m_audience := Absent; m_tags := Absent;
                m_license := Absent |};
     variables :=
       [ {| v_name := "projectName"; v_label := "Project Name"; v_type := TString;
            v_default := Absent; v_required := Has true; v_description := Absent;
            v_options := Absent; v_pattern := Absent; v_min := Absent;
            v_max := Absent |};
         {| v_name := "projectDescription"; v_label := "Project Description";
            v_type := TText; v_default := Absent; v_required := Has true;
            v_description := Absent; v_options := Absent; v_pattern := Absent;
            v_min := Absent; v_max := Absent |} ];
     sections :=
       [ {| s_id := "overview"; s_title := "Overview";
            s_content := "{{projectDescription}}"; s_condition := Absent;
            s_sections := Absent; s_collapsible := Absent; s_order := Has 1%Z;
            s_prompt := Absent |};
         {| s_id := "details"; s_title := "Details";
            s_content := "Add your content here."; s_condition := Absent;
            s_sections := Absent; s_collapsible := Absent; s_order := Has 2%Z;
            s_prompt := Absent |} ];
     extends := Absent;
     prompts := Absent |}.

(** [if (s.sections) section.sections = this.validateSections(s.sections, source)],
    as the source has it. *)
Definition nestedSections (source : option string) (s : dict)
    : outcome (prop (list TemplateSection)) :=
  if Js.truthy (Js.get s "sections") then
    match Js.get s "sections" with
    | VArr items =>
        l <- validateSections items source ;;
        Ok (Has l)
    | _ => Throw (TypeError "data.map is not a function")
    end
  else Ok Absent.

(** * Notions used by the further properties *)

(** A family of templates in which every template extends a registered
    template of the family: a chain of parents that never reaches a
    template without parent. *)
Definition endless (e : TemplateEngine) (chain : CustomTemplate -> Prop) : Prop :=
  forall template : CustomTemplate,
    chain template ->
    exists (parentId : string) (parent : CustomTemplate),
      extends template = Has parentId /\ parentId <> ""
      /\ getTemplate e parentId = Some parent /\ chain parent.


(** Both loops of [mergeVariables] store, under the name of a variable,
    a variable computed from what the map held under that name. *)
Definition storeUnder {A : Type} (key : A -> string) (g : option A -> A -> A)
    (merged : SMap.t A) (a : A) : SMap.t A :=
  SMap.set merged (key a) (g (SMap.get merged (key a)) a).


(** The condition of a section that names [variable], with the operator
    and the value given. *)
Definition conditionOn (variable : string) (operator : Operator) (v : prop value)
    : SectionCondition :=
  {| c_variable := variable; c_operator := operator; c_value := v |}.

(** Whether [compileSections] keeps a section: it has no condition, or
    its condition holds. *)
Definition shown (variables : dict) (section : TemplateSection) : outcome bool :=
  match s_condition section with
  | Has condition => evaluateCondition condition variables
  | _ => Ok true
  end.

(** The sections of a list that are kept, as far as every condition can
    be evaluated. *)
Fixpoint shownSections (variables : dict) (sections : list TemplateSection)
    : outcome (list TemplateSection) :=
  match sections with
  | [] => Ok []
  | section :: rest =>
      keep <- shown variables section ;;
      tl <- shownSections variables rest ;;
      Ok (if keep : bool then section :: tl else tl)
  end.

(** A block [{{#kw v}}body{{/kw}}], and an [if] block with its [else]
    branch. *)
Definition blockOf (kw v body : string) : string :=
  "{{#" ++ kw ++ " " ++ v ++ "}}" ++ body ++ "{{/" ++ kw ++ "}}".

Definition ifElseBlock (v yes no : string) : string :=
  "{{#if " ++ v ++ "}}" ++ yes ++ "{{else}}" ++ no ++ "{{/if}}".

(** A call [{{name args}}]. *)
Definition helperCall (name args : string) : string :=
  "{{" ++ name ++ " " ++ args ++ "}}".

(** The shape of a slug: runs of lower-case letters and digits separated
    by single hyphens.  [after] tells whether a hyphen, or the start of
    the text, comes just before; a slug neither starts nor ends with a
    hyphen, and may be empty. *)
Fixpoint isSlugFrom (after : bool) (s : string) : bool :=
  match s with
  | EmptyString => negb after
  | String c s' =>
      if is_slug_char c then isSlugFrom false s'
      else Ascii.eqb c "-"%char && negb after && isSlugFrom true s'
  end.

Definition isSlug (s : string) : bool := String.eqb s "" || isSlugFrom true s.

(** The same shape with a hyphen allowed at the end, and with one at the
    start unless [after] is set. *)
Fixpoint hyphenated (after : bool) (s : string) : bool :=
  match s with
  | EmptyString => true
  | String c s' =>
      if is_slug_char c then hyphenated false s'
      else Ascii.eqb c "-"%char && negb after && hyphenated true s'
  end.

(** The first argument of a helper as a text: [String(args[0] || '')]. *)
Definition textArgument (args : list value) : string :=
  Js.to_string (Js.or_else (Js.arg args 0) (VStr "")).

(** [Number(args[1]) || 100], when the number is one the model holds. *)
Definition truncateLimit (args : list value) : option Z :=
  match Builtin.to_number (Js.arg args 1) with
  | Num.Int z => Some (if (z =? 0)%Z then 100%Z else z)
  | Num.NaN => Some 100%Z
  | Num.Other => None
  end.

(** A text made of digits and hyphens. *)
Definition numeric (s : string) : bool :=
  Str.forallb (fun c => Str.is_digit c || Ascii.eqb c "-"%char) s.

(** A date in the default format of the [date] helper. *)
Definition isoDay (date : Date) : string :=
  Str.of_Z (getFullYear date) ++ "-" ++ pad (getMonth date + 1) ++ "-" ++ pad (getDate date).

(** ** Further sample data *)

Module Cases.

Definition extending (id parentId : string) : CustomTemplate :=
  {| meta := Sample.someMeta id; variables := []; sections := [];
     extends := Has parentId; prompts := Absent |}.

(** A template registered under the id it extends. *)
Definition selfish : CustomTemplate := extending "loop" "loop".

Definition looping : TemplateEngine := registerTemplate createTemplateEngine selfish.

Definition base : CustomTemplate :=
  Sample.template [Sample.required "name"]
    [Sample.section "intro" "Hello"; Sample.section "usage" "Run it"].

Definition withBase : TemplateEngine := registerTemplate createTemplateEngine base.

Definition weighted (id : string) (order : Z) : TemplateSection :=
  {| s_id := id; s_title := id; s_content := ""; s_condition := Absent;
     s_sections := Absent; s_collapsible := Absent; s_order := Has order;
     s_prompt := Absent |}.

Definition greeting : list TemplateVariable :=
  [ {| v_name := "name"; v_label := "Name"; v_type := TString;
       v_default := Has (VStr "world"); v_required := Has true;
       v_description := Absent; v_options := Absent; v_pattern := Absent;
       v_min := Absent; v_max := Absent |} ].

End Cases.

(** * Properties *)

(** ** The outcome monad *)

Lemma bind_Ok {A B : Type} (a : A) (k : A -> outcome B) : bind (Ok a) k = k a.
Proof. reflexivity. Qed.

Lemma bind_ret {A : Type} (m : outcome A) : bind m Ok = m.
Proof. destruct m; reflexivity. Qed.

Lemma bind_assoc {A B C : Type} (m : outcome A) (f : A -> outcome B) (g : B -> outcome C) :
  bind (bind m f) g = bind m (fun a => bind (f a) g).
Proof. destruct m; reflexivity. Qed.

Lemma bind_ext {A B : Type} (m : outcome A) (f g : A -> outcome B) :
  (forall a, f a = g a) -> bind m f = bind m g.
Proof. intros H. destruct m; simpl; auto. Qed.

(** ** Inheritance of a template that extends nothing *)

(** C9.  A template whose [extends] property is absent comes out of
    inheritance resolution unchanged, whatever the registry holds and
    however deep the recursion is allowed to go. *)
Theorem resolveInheritance_without_extends :
  forall (e : TemplateEngine) (fuel : nat) (template : CustomTemplate),
    extends template = Absent ->
    resolveInheritance e fuel template = Ok template.
Proof.
  intros e fuel template Habsent.
  destruct fuel; simpl; rewrite Habsent; reflexivity.
Qed.

(** The body of [resolveInheritance] as the source has it. *)
Lemma resolveInheritance_eq (e : TemplateEngine) (fuel : nat) (template : CustomTemplate) :
  resolveInheritance e fuel template
  = match extends template with
    | Has parentId =>
        if String.eqb parentId "" then Ok template
        else
          match SMap.get (templates e) parentId with
          | None => Throw (Error ("Parent template not found: " ++ parentId))
          | Some parent =>
              match fuel with
              | O => OutOfFuel
              | S fuel' =>
                  resolvedParent <- resolveInheritance e fuel' parent ;;
                  Ok {| meta := mergeMeta (meta resolvedParent) (meta template);
                        variables := mergeVariables (variables resolvedParent)
                                       (variables template);
                        sections := mergeSections (sections resolvedParent)
                                      (sections template);
                        extends := Absent;
                        prompts := Has (or_empty (prompts resolvedParent)
                                        ++ or_empty (prompts template))%list |}
              end
          end
    | _ => Ok template
    end.
Proof. destruct fuel; reflexivity. Qed.

(** More fuel does not change what inheritance resolution returns. *)
Lemma resolveInheritance_more_fuel (e : TemplateEngine) (fuel : nat) :
  forall (template : CustomTemplate) (r : outcome CustomTemplate),
    resolveInheritance e fuel template = r -> r <> OutOfFuel ->
    resolveInheritance e (S fuel) template = r.
Proof.
  induction fuel as [|fuel IH]; intros template r Hr Hne;
    rewrite resolveInheritance_eq in Hr; rewrite resolveInheritance_eq;
    destruct (extends template) as [| |parentId]; try exact Hr;
    destruct (String.eqb parentId ""); try exact Hr;
    destruct (SMap.get (templates e) parentId) as [parent|]; try exact Hr.
  - congruence.
  - destruct (resolveInheritance e fuel parent) as [rp|ex|what|] eqn:Hparent.
    + now rewrite (IH parent (Ok rp) Hparent) by discriminate.
    + now rewrite (IH parent (Throw ex) Hparent) by discriminate.
    + now rewrite (IH parent (Unmodelled what) Hparent) by discriminate.
    + simpl in Hr. congruence.
Qed.

(** ** Required variables *)

Lemma find_unresolved_exists (provided : dict) (definitions : list TemplateVariable)
    (def : TemplateVariable) :
  In def definitions -> unresolved provided def = true ->
  exists first, find (unresolved provided) definitions = Some first.
Proof.
  induction definitions as [|d rest IH]; simpl; intros Hin Hun.
  - contradiction.
  - destruct (unresolved provided d) eqn:Hd.
    + now exists d.
    + destruct Hin as [-> | Hin]; [congruence | auto].
Qed.

Lemma resolveDefinitions_throws (provided : dict) (definitions : list TemplateVariable) :
  forall (resolved : dict) (first : TemplateVariable),
    find (unresolved provided) definitions = Some first ->
    resolveDefinitions definitions provided resolved = Throw (missingError first).
Proof.
  induction definitions as [|d rest IH]; simpl; intros resolved first Hfind.
  - discriminate.
  - unfold unresolved in Hfind.
    destruct (Js.defined (Js.get provided (v_name d))); simpl in Hfind; [now apply IH|].
    destruct (Js.defined (valueOf (v_default d))); simpl in Hfind; [now apply IH|].
    destruct (isTrue (v_required d)); [|now apply IH].
    now inversion Hfind.
Qed.

Lemma resolveVariables_throws (provided : dict) (definitions : list TemplateVariable)
    (first : TemplateVariable) :
  find (unresolved provided) definitions = Some first ->
  resolveVariables definitions provided = Throw (missingError first).
Proof.
  intros Hfind. unfold resolveVariables.
  now rewrite (resolveDefinitions_throws provided definitions [] first Hfind).
Qed.

(** C1, as amended.  When some variable declared by the resolved
    template is required, has no default and gets no value from the
    caller, variable resolution fails, and so does [compile], with the
    error that names the first such variable in declaration order. *)
Theorem compile_missing_required_variable :
  forall (e : TemplateEngine) (now : Date) (fuel : nat)
         (template resolved : CustomTemplate) (context : TemplateContext)
         (def : TemplateVariable),
    resolveInheritance e fuel template = Ok resolved ->
    In def (variables resolved) ->
    unresolved (ctx_variables context) def = true ->
    exists first,
      find (unresolved (ctx_variables context)) (variables resolved) = Some first
      /\ resolveVariables (variables resolved) (ctx_variables context)
         = Throw (missingError first)
      /\ compile e now fuel template context = Throw (missingError first).
Proof.
  intros e now fuel template resolved context def Hres Hin Hun.
  destruct (find_unresolved_exists _ _ def Hin Hun) as [first Hfirst].
  exists first. split; [exact Hfirst|].
  pose proof (resolveVariables_throws _ _ _ Hfirst) as Hthrow.
  split; [exact Hthrow|].
  unfold compile. rewrite Hres. simpl. now rewrite Hthrow.
Qed.

(** C1, as the claim states it, fails where two variables are missing:
    the error names the first, not the second. *)
Lemma compile_missing_names_first_only :
  ~ (forall def : TemplateVariable,
       In def (variables Sample.twoRequired) ->
       unresolved [] def = true ->
       compile createTemplateEngine Sample.morning 0 Sample.twoRequired Sample.noVariables
       = Throw (missingError def)).
Proof.
  intros H.
  specialize (H (Sample.required "b")).
  simpl in H. discriminate H; auto.
Qed.

Lemma compile_missing_required_variable_scenario1 :
  exists first,
    find (unresolved []) (variables Sample.scenario1) = Some first
    /\ resolveVariables (variables Sample.scenario1) [] = Throw (missingError first)
    /\ compile createTemplateEngine Sample.morning 0 Sample.scenario1 Sample.noVariables
       = Throw (missingError first).
Proof.
  apply (compile_missing_required_variable createTemplateEngine Sample.morning 0
           Sample.scenario1 Sample.scenario1 Sample.noVariables (Sample.required "name")).
  - reflexivity.
  - simpl. left. reflexivity.
  - reflexivity.
Defined.

Lemma resolveInheritance_without_extends_sample :
  resolveInheritance createTemplateEngine 0 Sample.scenario1 = Ok Sample.scenario1.
Proof.
  apply (resolveInheritance_without_extends createTemplateEngine 0 Sample.scenario1).
  reflexivity.
Defined.

(** ** Scenario 4: a quoted separator that holds a space *)

(** C3.  The arguments of a helper call are split at white space before
    the quotes are looked at, so the separator of scenario 4 reaches
    [join] as two pieces, the first of which, a quote and a comma, is
    taken as it stands: the result is [Go], a double quote, a comma and
    [Rust], and not [Go, Rust]. *)
Theorem interpolate_join_quoted_separator :
  forall now : Date,
    interpolate createTemplateEngine now Sample.scenario4 Sample.techStack
    = Ok ("Go" ++ Sample.quote ++ ",Rust")
    /\ interpolate createTemplateEngine now Sample.scenario4 Sample.techStack
       <> Ok "Go, Rust".
Proof.
  intros now.
  assert (H : interpolate createTemplateEngine now Sample.scenario4 Sample.techStack
              = Ok ("Go" ++ Sample.quote ++ ",Rust")) by reflexivity.
  split; [exact H|]. rewrite H. discriminate.
Qed.

(** ** The section compiler *)

(** The loop of [compileSections] as the source has it: one equation for
    the body of the loop, with the recursive call on the nested list. *)
Lemma compileSection_nested (e : TemplateEngine) (now : Date) (variables : dict)
    (ss : list TemplateSection) :
  (fix each (ss : list TemplateSection) : outcome (list CompiledSection) :=
     match ss with
     | [] => Ok []
     | s' :: rest =>
         c <- compileSection e now variables s' ;;
         tl <- each rest ;;
         Ok (pushSection c tl)
     end) ss
  = compileSections e now ss variables.
Proof.
  induction ss as [|s rest IH]; simpl; [reflexivity|].
  now rewrite IH.
Qed.

Lemma compileSection_eq (e : TemplateEngine) (now : Date) (variables : dict)
    (section : TemplateSection) :
  compileSection e now variables section
  = (skip <- match s_condition section with
             | Has condition =>
                 holds <- evaluateCondition condition variables ;;
                 Ok (negb holds)
             | _ => Ok false
             end ;;
     if skip : bool then Ok None
     else c <- compileVisible e now variables section ;; Ok (Some c)).
Proof.
  destruct section as [id title content condition nested collapsible order prompt].
  unfold compileVisible. simpl.
  apply bind_ext. intros [|]; [reflexivity|].
  rewrite !bind_assoc. apply bind_ext. intros title'.
  rewrite !bind_assoc. apply bind_ext. intros content'.
  rewrite !bind_assoc.
  destruct nested as [| |ss]; simpl; try reflexivity.
  rewrite compileSection_nested.
  destruct (compileSections e now ss variables); reflexivity.
Qed.







(** ** The renderer *)

Lemma renderSection_nested (level : nat) (children : list CompiledSection) :
  (fix each (children : list CompiledSection) : list string :=
     match children with
     | [] => []
     | child :: rest => (renderSection child (level + 1) ++ each rest)%list
     end) children
  = flat_map (fun child => renderSection child (level + 1)) children.
Proof.
  induction children as [|c rest IH]; simpl; [reflexivity|].
  now rewrite IH.
Qed.





(** ** Maps in insertion order *)

Module SMapFacts.

Lemma get_set {V : Type} (m : SMap.t V) (k k' : string) (v : V) :
  SMap.get (SMap.set m k v) k' = if String.eqb k k' then Some v else SMap.get m k'.
Proof.
  induction m as [|[k0 v0] rest IH]; simpl.
  - reflexivity.
  - destruct (String.eqb k0 k) eqn:Hk; simpl.
    + apply String.eqb_eq in Hk. subst k0.
      destruct (String.eqb k k'); reflexivity.
    + rewrite IH. destruct (String.eqb k0 k') eqn:Hk'; [|reflexivity].
      apply String.eqb_eq in Hk'. subst k0. now rewrite String.eqb_sym, Hk.
Qed.

Lemma mem_In (k : string) (l : list string) : SMap.mem k l = true <-> In k l.
Proof.
  unfold SMap.mem. rewrite existsb_exists. split.
  - intros [x [Hin Heq]]. apply String.eqb_eq in Heq. now subst.
  - intros Hin. exists k. split; [assumption|apply String.eqb_refl].
Qed.


Lemma get_None {V : Type} (m : SMap.t V) (k : string) :
  SMap.get m k = None <-> SMap.mem k (SMap.keys m) = false.
Proof.
  induction m as [|[k0 v0] rest IH]; simpl.
  - split; reflexivity.
  - rewrite (String.eqb_sym k k0). destruct (String.eqb k0 k); simpl.
    + split; discriminate.
    + exact IH.
Qed.

Lemma keys_set {V : Type} (m : SMap.t V) (k : string) (v : V) :
  SMap.keys (SMap.set m k v)
  = if SMap.mem k (SMap.keys m) then SMap.keys m else (SMap.keys m ++ [k])%list.
Proof.
  induction m as [|[k0 v0] rest IH]; simpl.
  - reflexivity.
  - rewrite (String.eqb_sym k k0). destruct (String.eqb k0 k) eqn:Hk; simpl.
    + reflexivity.
    + fold (SMap.keys (SMap.set rest k v)). fold (SMap.keys rest).
      rewrite IH. now destruct (SMap.mem k (SMap.keys rest)).
Qed.

Lemma NoDup_keys_set {V : Type} (m : SMap.t V) (k : string) (v : V) :
  NoDup (SMap.keys m) -> NoDup (SMap.keys (SMap.set m k v)).
Proof.
  intros Hnd. rewrite keys_set.
  destruct (SMap.mem k (SMap.keys m)) eqn:Hmem; [assumption|].
  apply NoDup_app.
  - assumption.
  - repeat constructor. intros [].
  - intros x Hx [Hk|[]]. subst x.
    apply mem_In in Hx. congruence.
Qed.


End SMapFacts.

(** ** The stable sort by weight *)





Lemma insertByOrder_perm (s : TemplateSection) (l : list TemplateSection) :
  Permutation.Permutation (insertByOrder s l) (s :: l).
Proof.
  induction l as [|x l IH]; simpl.
  - apply Permutation.Permutation_refl.
  - destruct (orderOf s <=? orderOf x)%Z.
    + apply Permutation.Permutation_refl.
    + eapply Permutation.perm_trans; [apply Permutation.perm_skip, IH|].
      apply Permutation.perm_swap.
Qed.

Lemma sortByOrder_perm (l : list TemplateSection) :
  Permutation.Permutation (sortByOrder l) l.
Proof.
  induction l as [|s rest IH]; simpl.
  - constructor.
  - eapply Permutation.perm_trans; [apply insertByOrder_perm|].
    now apply Permutation.perm_skip.
Qed.

(** ** The merge of two lists of sections *)



Section MergeLoop.

(** Both loops of [mergeSections] store, under the id of a section, a
    section computed from what the map held under that id. *)
Variable g : option TemplateSection -> TemplateSection -> TemplateSection.



Lemma loop_NoDup (l : list TemplateSection) :
  forall merged : SMap.t TemplateSection,
    NoDup (SMap.keys merged) -> NoDup (SMap.keys (fold_left (loopStep g) l merged)).
Proof.
  induction l as [|s rest IH]; simpl; intros merged Hnd.
  - assumption.
  - apply IH. now apply SMapFacts.NoDup_keys_set.
Qed.

Hypothesis g_id : forall held s, s_id (g held s) = s_id s.

Lemma set_keyed (merged : SMap.t TemplateSection) (s : TemplateSection) :
  keyed merged -> keyed (SMap.set merged (s_id s) s).
Proof.
  unfold keyed. induction 1 as [|[k v] rest Hkv Hrest IH]; simpl.
  - repeat constructor.
  - destruct (String.eqb k (s_id s)) eqn:Hk.
    + apply String.eqb_eq in Hk. constructor; [exact Hk|assumption].
    + constructor; assumption.
Qed.

Lemma loop_keyed (l : list TemplateSection) :
  forall merged : SMap.t TemplateSection,
    keyed merged -> keyed (fold_left (loopStep g) l merged).
Proof.
  induction l as [|s rest IH]; simpl; intros merged Hk.
  - assumption.
  - apply IH. unfold loopStep.
    pose proof (set_keyed merged (g (SMap.get merged (s_id s)) s) Hk) as Hset.
    now rewrite g_id in Hset.
Qed.

End MergeLoop.

Lemma keyed_ids (merged : SMap.t TemplateSection) :
  keyed merged -> List.map s_id (SMap.values merged) = SMap.keys merged.
Proof.
  unfold keyed, SMap.values, SMap.keys.
  induction 1 as [|[k v] rest Hkv _ IH]; simpl.
  - reflexivity.
  - simpl in Hkv. now rewrite IH, Hkv.
Qed.

Lemma seedSections_loop (parent : list TemplateSection) :
  seedSections parent = fold_left (loopStep seedWith) parent [].
Proof. reflexivity. Qed.

(** The body of the second loop as the source has it, with the
    recursive call of [mergeSections] on the nested lists. *)
Lemma overrideWith_eq (s : TemplateSection) (merged : SMap.t TemplateSection) :
  overrideWith s merged = loopStep mergeWith merged s.
Proof.
  destruct s as [id title content condition nested collapsible order prompt].
  unfold loopStep, mergeWith, Spec.mergeOnto. simpl.
  destruct (SMap.get merged id) as [existing|]; [|reflexivity].
  destruct nested; reflexivity.
Qed.

Lemma mergeSections_loop (parent child : list TemplateSection) :
  mergeSections parent child
  = sortByOrder (SMap.values (fold_left (loopStep mergeWith) child (seedSections parent))).
Proof.
  unfold mergeSections. do 2 f_equal.
  generalize (seedSections parent).
  induction child as [|s rest IH]; simpl; intros merged; [reflexivity|].
  now rewrite overrideWith_eq, IH.
Qed.





Lemma mergeWith_id (held : option TemplateSection) (s : TemplateSection) :
  s_id (mergeWith held s) = s_id s.
Proof. destruct held; reflexivity. Qed.


(** The sections of a template that extends a registered parent are the
    merge of the sections of the resolved parent with its own. *)
Lemma resolveInheritance_merges_sections (e : TemplateEngine) (fuel : nat)
    (template parent resolvedParent : CustomTemplate) (parentId : string) :
  extends template = Has parentId -> parentId <> "" ->
  SMap.get (templates e) parentId = Some parent ->
  resolveInheritance e fuel parent = Ok resolvedParent ->
  exists resolved,
    resolveInheritance e (S fuel) template = Ok resolved
    /\ sections resolved = mergeSections (sections resolvedParent) (sections template)
    /\ variables resolved = mergeVariables (variables resolvedParent) (variables template).
Proof.
  intros Hextends Hid Hparent Hresolved.
  apply String.eqb_neq in Hid.
  eexists. cbn [resolveInheritance].
  rewrite Hextends, Hid, Hparent, Hresolved. cbn [bind].
  repeat split.
Qed.

(** ** The clock *)

Lemma replace_ext {A : Type} (pattern : string -> option (A * string))
    (f g : string -> A -> outcome string) :
  (forall matched groups, f matched groups = g matched groups) ->
  forall (text : string) (skip : nat),
    Re.replace pattern f skip text = Re.replace pattern g skip text.
Proof.
  intros Hfg. induction text as [|c text IH]; intros skip.
  - destruct skip; simpl; [|reflexivity].
    destruct (pattern "") as [[groups rest]|]; [|reflexivity].
    now rewrite Hfg.
  - destruct skip; simpl; [|apply IH].
    destruct (pattern (String c text)) as [[groups rest]|].
    + now rewrite Hfg, IH.
    + now rewrite IH.
Qed.

Lemma callHelper_agree (e : TemplateEngine) (now1 now2 : Date) (variables : dict) :
  helpersAgree e now1 now2 ->
  forall matched groups,
    callHelper e now1 variables matched groups = callHelper e now2 variables matched groups.
Proof.
  intros Hagree matched [helperName argsString]. unfold callHelper.
  destruct (SMap.get (helpers e) helperName) as [helper|] eqn:Hget; [|reflexivity].
  apply bind_ext. intros args. now rewrite (Hagree helperName helper Hget).
Qed.

Lemma interpolate_agree (e : TemplateEngine) (now1 now2 : Date) :
  helpersAgree e now1 now2 ->
  forall (text : string) (variables : dict),
    interpolate e now1 text variables = interpolate e now2 text variables.
Proof.
  intros Hagree text variables. unfold interpolate, processHelperCalls.
  do 3 (apply bind_ext; intros ?).
  apply replace_ext. now apply callHelper_agree.
Qed.

Lemma compileSection_agree (e : TemplateEngine) (now1 now2 : Date) (variables : dict) :
  helpersAgree e now1 now2 ->
  forall section : TemplateSection,
    compileSection e now1 variables section = compileSection e now2 variables section.
Proof.
  intros Hagree section.
  induction section as [id title content condition nested collapsible order prompt IH]
    using TemplateSection_tree_ind.
  rewrite !compileSection_eq. unfold compileVisible. simpl.
  apply bind_ext. intros [|]; [reflexivity|].
  rewrite !(interpolate_agree e now1 now2 Hagree).
  f_equal.
  apply bind_ext. intros title'. apply bind_ext. intros content'.
  destruct nested as [| |ss]; try reflexivity.
  assert (Hss : compileSections e now1 ss variables = compileSections e now2 ss variables).
  { induction IH as [|s rest Hs _ IHrest]; simpl; [reflexivity|].
    now rewrite Hs, IHrest. }
  now rewrite Hss.
Qed.

Lemma compileSections_agree (e : TemplateEngine) (now1 now2 : Date) (variables : dict) :
  helpersAgree e now1 now2 ->
  forall sections : list TemplateSection,
    compileSections e now1 sections variables = compileSections e now2 sections variables.
Proof.
  intros Hagree sections.
  induction sections as [|s rest IH]; simpl; [reflexivity|].
  now rewrite (compileSection_agree e now1 now2 variables Hagree s), IH.
Qed.

(** C4, as amended.  [compile] depends on the template, the context, the
    two registries and the clock, and on the clock through the helpers
    only: two runs on the same template and context, at two moments
    between which no registered helper tells the difference, give the
    same outcome.  (The [date] helper of a new engine reads the clock.) *)
Theorem compile_same_outcome :
  forall (e : TemplateEngine) (now1 now2 : Date) (fuel : nat)
         (template : CustomTemplate) (context : TemplateContext),
    helpersAgree e now1 now2 ->
    compile e now1 fuel template context = compile e now2 fuel template context.
Proof.
  intros e now1 now2 fuel template context Hagree. unfold compile.
  apply bind_ext. intros resolved. apply bind_ext. intros variables.
  now rewrite (compileSections_agree e now1 now2 variables Hagree).
Qed.

(** C4, as the claim states it, fails for a template that calls the
    [date] helper: two runs on the same template and context, one on
    9 October 2025 and one on 1 January 2026, differ. *)
Lemma compile_reads_the_clock :
  compile createTemplateEngine Sample.morning 0 Sample.dated Sample.noVariables
  = Ok (Sample.stamped "2025-10-09")
  /\ compile createTemplateEngine Sample.nextYear 0 Sample.dated Sample.noVariables
     = Ok (Sample.stamped "2026-01-01")
  /\ compile createTemplateEngine Sample.morning 0 Sample.dated Sample.noVariables
     <> compile createTemplateEngine Sample.nextYear 0 Sample.dated Sample.noVariables.
Proof.
  assert (H1 : compile createTemplateEngine Sample.morning 0 Sample.dated Sample.noVariables
               = Ok (Sample.stamped "2025-10-09")) by reflexivity.
  assert (H2 : compile createTemplateEngine Sample.nextYear 0 Sample.dated Sample.noVariables
               = Ok (Sample.stamped "2026-01-01")) by reflexivity.
  repeat split; try assumption.
  rewrite H1, H2. discriminate.
Qed.

Lemma frozen_helpersAgree : helpersAgree Sample.frozen Sample.morning Sample.nextYear.
Proof.
  intros name helper Hget args variables.
  unfold Sample.frozen, createTemplateEngine, registerDefaultHelpers, registerHelper in Hget.
  simpl in Hget.
  repeat match type of Hget with
         | (if ?b then _ else _) = _ => destruct b
         end;
    try discriminate; inversion Hget; reflexivity.
Qed.

Lemma compile_same_outcome_frozen :
  compile Sample.frozen Sample.morning 0 Sample.dated Sample.noVariables
  = compile Sample.frozen Sample.nextYear 0 Sample.dated Sample.noVariables.
Proof.
  apply (compile_same_outcome Sample.frozen Sample.morning Sample.nextYear 0
           Sample.dated Sample.noVariables).
  exact frozen_helpersAgree.
Defined.

(** ** Scanning a text *)

Lemma append_assoc (a b c : string) : (a ++ b) ++ c = a ++ (b ++ c).
Proof. induction a as [|x a IH]; simpl; [reflexivity|now rewrite IH]. Qed.

Lemma append_empty_r (a : string) : a ++ "" = a.
Proof. induction a as [|x a IH]; simpl; [reflexivity|now rewrite IH]. Qed.

Lemma length_append (a b : string) :
  String.length (a ++ b) = String.length a + String.length b.
Proof. induction a as [|x a IH]; simpl; [reflexivity|now rewrite IH]. Qed.

Lemma take_append (a b : string) : Str.take (String.length a) (a ++ b) = a.
Proof. induction a as [|x a IH]; simpl; [reflexivity|now rewrite IH]. Qed.

Lemma forallb_append (p : ascii -> bool) (a b : string) :
  Str.forallb p (a ++ b) = Str.forallb p a && Str.forallb p b.
Proof.
  induction a as [|x a IH]; simpl; [reflexivity|].
  now rewrite IH, Bool.andb_assoc.
Qed.

Lemma strip_prefix_append (p t : string) : Str.strip_prefix p (p ++ t) = Some t.
Proof.
  induction p as [|a p IH]; simpl; [reflexivity|].
  now rewrite Ascii.eqb_refl.
Qed.

Lemma strip_prefix_split (a b s : string) :
  Str.strip_prefix (a ++ b) s
  = match Str.strip_prefix a s with
    | Some rest => Str.strip_prefix b rest
    | None => None
    end.
Proof.
  revert s. induction a as [|x a IH]; simpl; intros s; [reflexivity|].
  destruct s as [|y s]; [reflexivity|].
  destruct (Ascii.eqb x y); [apply IH|reflexivity].
Qed.

Lemma span_append (p : ascii -> bool) (w t : string) :
  Str.forallb p w = true -> headFails p t -> Str.span p (w ++ t) = (w, t).
Proof.
  intros Hw Ht. induction w as [|c w IH]; simpl.
  - destruct t as [|c t]; [reflexivity|]. simpl in *. now rewrite Ht.
  - simpl in Hw. apply Bool.andb_true_iff in Hw. destruct Hw as [Hc Hw].
    now rewrite Hc, (IH Hw).
Qed.

Lemma span_none (p : ascii -> bool) (t : string) :
  headFails p t -> Str.span p t = ("", t).
Proof. intros Ht. exact (span_append p "" t eq_refl Ht). Qed.

Lemma word_not (c x : ascii) :
  Str.is_word c = true -> Str.is_word x = false -> Ascii.eqb c x = false.
Proof.
  intros Hc Hx. destruct (Ascii.eqb c x) eqn:Heq; [|reflexivity].
  apply Ascii.eqb_eq in Heq. congruence.
Qed.

Lemma word_nonempty (w : string) : word w = true -> w <> "".
Proof.
  unfold word. intros H Hw. subst w. discriminate.
Qed.

Lemma word_chars (w : string) : word w = true -> Str.forallb Str.is_word w = true.
Proof.
  unfold word. intros H. now apply Bool.andb_true_iff in H.
Qed.

Lemma word_plain (w : string) : Str.forallb Str.is_word w = true -> plain w = true.
Proof.
  unfold plain. induction w as [|c w IH]; simpl; [reflexivity|].
  intros H. apply Bool.andb_true_iff in H. destruct H as [Hc Hw].
  rewrite (IH Hw), Bool.andb_true_r.
  unfold Str.is_lbrace. now rewrite (word_not c Str.lbrace Hc eq_refl).
Qed.

(** *** [replace] *)

Section Replace.

Context {A : Type}.
Variable pattern : string -> option (A * string).
Variable callback : string -> A -> outcome string.

Lemma replace_skip (x t : string) :
  Re.replace pattern callback (String.length x) (x ++ t)
  = Re.replace pattern callback 0 t.
Proof.
  induction x as [|c x IH]; simpl.
  - destruct t; reflexivity.
  - exact IH.
Qed.

Lemma replace_miss (c : ascii) (t : string) :
  pattern (String c t) = None ->
  Re.replace pattern callback 0 (String c t)
  = (tl <- Re.replace pattern callback 0 t ;; Ok (String c tl)).
Proof. intros Hnone. simpl. now rewrite Hnone. Qed.

Lemma replace_end : pattern "" = None -> Re.replace pattern callback 0 "" = Ok "".
Proof. intros Hnone. simpl. now rewrite Hnone. Qed.

Lemma replace_hit (x t : string) (groups : A) :
  x <> "" ->
  pattern (x ++ t) = Some (groups, t) ->
  Re.replace pattern callback 0 (x ++ t)
  = (r <- callback x groups ;;
     tl <- Re.replace pattern callback 0 t ;;
     Ok (r ++ tl)).
Proof.
  intros Hx Hhit. destruct x as [|c x]; [contradiction|].
  change (String c x ++ t) with (String c (x ++ t)) in *.
  cbn [Re.replace]. rewrite Hhit.
  assert (Hn : String.length (String c (x ++ t)) - String.length t = S (String.length x)).
  { cbn [String.length]. rewrite length_append. lia. }
  rewrite Hn. cbn [Str.take]. rewrite take_append.
  apply bind_ext. intros r.
  replace (S (String.length x) - 1) with (String.length x) by lia.
  now rewrite replace_skip.
Qed.

(** The patterns of the engine start with an opening brace. *)
Hypothesis needs_brace : forall t, headFails Str.is_lbrace t -> pattern t = None.

Lemma replace_plain_prefix (pre t : string) :
  plain pre = true ->
  Re.replace pattern callback 0 (pre ++ t)
  = (tl <- Re.replace pattern callback 0 t ;; Ok (pre ++ tl)).
Proof.
  unfold plain. induction pre as [|c pre IH]; intros Hpre.
  - simpl. now rewrite bind_ret.
  - simpl in Hpre. apply Bool.andb_true_iff in Hpre. destruct Hpre as [Hc Hpre].
    cbn [append]. rewrite replace_miss.
    + rewrite (IH Hpre), bind_assoc. reflexivity.
    + apply needs_brace. simpl. now apply Bool.negb_true_iff.
Qed.

Lemma replace_plain (t : string) :
  plain t = true -> Re.replace pattern callback 0 t = Ok t.
Proof.
  intros Ht. rewrite <- (append_empty_r t) at 1.
  rewrite (replace_plain_prefix t "" Ht), replace_end.
  - simpl. now rewrite append_empty_r.
  - now apply needs_brace.
Qed.

End Replace.

(** *** The patterns *)

Lemma strip_braces_fails (rest t : string) :
  headFails Str.is_lbrace t -> Str.strip_prefix (String "{" rest) t = None.
Proof.
  destruct t as [|c t]; [reflexivity|].
  cbn [Str.strip_prefix headFails]. unfold Str.is_lbrace, Str.lbrace. intros Hc.
  now rewrite Ascii.eqb_sym, Hc.
Qed.

Lemma plainPattern_needs_brace (t : string) :
  headFails Str.is_lbrace t -> Re.plainPattern t = None.
Proof.
  intros Ht. unfold Re.plainPattern. now rewrite strip_braces_fails.
Qed.

Lemma helperPattern_needs_brace (t : string) :
  headFails Str.is_lbrace t -> Re.helperPattern t = None.
Proof.
  intros Ht. unfold Re.helperPattern. now rewrite strip_braces_fails.
Qed.

Lemma openTag_needs_brace (kw t : string) :
  headFails Str.is_lbrace t -> Re.openTag kw t = None.
Proof.
  intros Ht. unfold Re.openTag.
  change ("{{#" ++ kw) with (String "{" ("{#" ++ kw)).
  now rewrite strip_braces_fails.
Qed.

Lemma blockPattern_needs_brace (kw t : string) :
  headFails Str.is_lbrace t -> Re.blockPattern kw t = None.
Proof.
  intros Ht. unfold Re.blockPattern. now rewrite openTag_needs_brace.
Qed.

Lemma ifElsePattern_needs_brace (t : string) :
  headFails Str.is_lbrace t -> Re.ifElsePattern t = None.
Proof.
  intros Ht. unfold Re.ifElsePattern. now rewrite openTag_needs_brace.
Qed.

(** A reference to a name is matched by the first pattern and by the
    last one, as a call without arguments. *)
Lemma plainPattern_reference (w t : string) :
  word w = true -> Re.plainPattern (reference w ++ t) = Some (w, t).
Proof.
  intros Hw. unfold Re.plainPattern, reference.
  rewrite !append_assoc, strip_prefix_append. cbn [Re.and_then].
  rewrite (span_append Str.is_word w ("}}" ++ t) (word_chars w Hw) eq_refl).
  destruct (String.eqb w "") eqn:Hempty.
  - apply String.eqb_eq in Hempty. now apply word_nonempty in Hw.
  - now rewrite strip_prefix_append.
Qed.

Lemma helperPattern_reference (w t : string) :
  word w = true -> Re.helperPattern (reference w ++ t) = Some ((w, None), t).
Proof.
  intros Hw. unfold Re.helperPattern, reference.
  rewrite !append_assoc, strip_prefix_append. cbn [Re.and_then].
  rewrite (span_append Str.is_word w ("}}" ++ t) (word_chars w Hw) eq_refl).
  destruct (String.eqb w "") eqn:Hempty.
  - apply String.eqb_eq in Hempty. now apply word_nonempty in Hw.
  - rewrite (span_none Str.is_space ("}}" ++ t) eq_refl).
    destruct (Str.span (fun c => negb (Str.is_rbrace c)) ("}}" ++ t)).
    now rewrite strip_prefix_append.
Qed.

Lemma reference_nonempty (w : string) : reference w <> "".
Proof. discriminate. Qed.

(** *** Texts without a block *)

(** The patterns of the blocks start with two braces and a hash. *)
Lemma openTag_needs_hash (kw t : string) :
  Str.starts_with "{{#" t = false -> Re.openTag kw t = None.
Proof.
  unfold Re.openTag, Str.starts_with. rewrite strip_prefix_split.
  now destruct (Str.strip_prefix "{{#" t).
Qed.

Lemma blockPattern_needs_hash (kw t : string) :
  Str.starts_with "{{#" t = false -> Re.blockPattern kw t = None.
Proof. intros Ht. unfold Re.blockPattern. now rewrite openTag_needs_hash. Qed.

Lemma ifElsePattern_needs_hash (t : string) :
  Str.starts_with "{{#" t = false -> Re.ifElsePattern t = None.
Proof. intros Ht. unfold Re.ifElsePattern. now rewrite openTag_needs_hash. Qed.

Lemma replace_without_block {A : Type} (pattern : string -> option (A * string))
    (callback : string -> A -> outcome string) :
  (forall t, Str.starts_with "{{#" t = false -> pattern t = None) ->
  forall text : string,
    Builtin.includes "{{#" text = false ->
    Re.replace pattern callback 0 text = Ok text.
Proof.
  intros Hhash. induction text as [|c text IH]; intros Hfree.
  - apply replace_end. now apply Hhash.
  - cbn [Builtin.includes] in Hfree. apply Bool.orb_false_iff in Hfree.
    destruct Hfree as [Hhere Hrest].
    rewrite replace_miss by now apply Hhash.
    now rewrite (IH Hrest).
Qed.

Lemma includes_cons (needle : string) (c : ascii) (t : string) :
  Builtin.includes needle (String c t)
  = Str.starts_with needle (String c t) || Builtin.includes needle t.
Proof. reflexivity. Qed.

Lemma includes_plain_prefix (needle pre t : string) :
  plain pre = true ->
  Builtin.includes (String "{" needle) (pre ++ t) = Builtin.includes (String "{" needle) t.
Proof.
  unfold plain. induction pre as [|c pre IH]; intros Hpre; [reflexivity|].
  simpl in Hpre. apply Bool.andb_true_iff in Hpre. destruct Hpre as [Hc Hpre].
  cbn [append Builtin.includes]. rewrite (IH Hpre).
  unfold Str.starts_with. rewrite strip_braces_fails; [reflexivity|].
  simpl. now apply Bool.negb_true_iff.
Qed.

Lemma includes_plain (needle t : string) :
  plain t = true -> Builtin.includes (String "{" needle) t = false.
Proof.
  intros Ht. rewrite <- (append_empty_r t).
  now rewrite includes_plain_prefix.
Qed.

Lemma plain_append (a b : string) : plain (a ++ b) = plain a && plain b.
Proof. unfold plain. apply forallb_append. Qed.

(** A text made of a reference to a name between two texts without
    braces opens no block. *)
Lemma reference_opens_no_block (pre w post : string) :
  plain pre = true -> word w = true -> plain post = true ->
  Builtin.includes "{{#" (pre ++ reference w ++ post) = false.
Proof.
  intros Hpre Hw Hpost.
  rewrite includes_plain_prefix by assumption.
  pose proof (word_nonempty w Hw) as Hne.
  pose proof (word_chars w Hw) as Hchars.
  destruct w as [|c w]; [contradiction|].
  simpl in Hchars. apply Bool.andb_true_iff in Hchars. destruct Hchars as [Hc Hchars].
  unfold reference. rewrite !append_assoc.
  change ("{{" ++ String c w ++ "}}" ++ post)
    with (String "{" (String "{" (String c w ++ "}}" ++ post))).
  rewrite 2 includes_cons.
  rewrite includes_plain_prefix by (apply word_plain; simpl; now rewrite Hc, Hchars).
  rewrite (includes_plain "{#" ("}}" ++ post)) by exact Hpost.
  unfold Str.starts_with. cbn [append Str.strip_prefix].
  rewrite !Ascii.eqb_refl.
  rewrite (Ascii.eqb_sym "#"%char c), (word_not c "#"%char Hc eq_refl).
  rewrite (Ascii.eqb_sym "{"%char c), (word_not c "{"%char Hc eq_refl).
  reflexivity.
Qed.

(** *** The four passes on a reference between plain texts *)

Lemma substitution_pass (variables : dict) (pre w post : string) :
  plain pre = true -> word w = true -> plain post = true ->
  Re.replace Re.plainPattern (substituteVariable variables) 0 (pre ++ reference w ++ post)
  = Ok (pre ++ (if Js.defined (Js.get variables w)
                then Js.to_string (Js.get variables w)
                else reference w) ++ post).
Proof.
  intros Hpre Hw Hpost.
  rewrite (replace_plain_prefix _ _ plainPattern_needs_brace) by assumption.
  rewrite (replace_hit _ _ (reference w) post w (reference_nonempty w)
             (plainPattern_reference w post Hw)).
  rewrite (replace_plain _ _ plainPattern_needs_brace) by assumption.
  unfold substituteVariable, reference.
  now destruct (Js.defined (Js.get variables w)).
Qed.

Lemma conditional_pass_without_block (variables : dict) (text : string) :
  Builtin.includes "{{#" text = false ->
  processConditionalBlocks text variables = Ok text.
Proof.
  intros Hfree. unfold processConditionalBlocks.
  rewrite (replace_without_block _ _ ifElsePattern_needs_hash) by assumption.
  cbn [bind].
  rewrite (replace_without_block _ _ (blockPattern_needs_hash "if")) by assumption.
  cbn [bind].
  now rewrite (replace_without_block _ _ (blockPattern_needs_hash "unless")).
Qed.

Lemma loop_pass_without_block (variables : dict) (text : string) :
  Builtin.includes "{{#" text = false ->
  processLoopBlocks text variables = Ok text.
Proof.
  intros Hfree. unfold processLoopBlocks.
  now rewrite (replace_without_block _ _ (blockPattern_needs_hash "each")).
Qed.

Lemma helper_pass_reference (e : TemplateEngine) (now : Date) (variables : dict)
    (pre w post : string) :
  plain pre = true -> word w = true -> plain post = true ->
  processHelperCalls e now (pre ++ reference w ++ post) variables
  = match SMap.get (helpers e) w with
    | Some helper =>
        r <- helper now [] variables ;;
        Ok (pre ++ Js.to_string r ++ post)
    | None => Ok (pre ++ reference w ++ post)
    end.
Proof.
  intros Hpre Hw Hpost. unfold processHelperCalls.
  rewrite (replace_plain_prefix _ _ helperPattern_needs_brace) by assumption.
  rewrite (replace_hit _ _ (reference w) post (w, None) (reference_nonempty w)
             (helperPattern_reference w post Hw)).
  rewrite (replace_plain _ _ helperPattern_needs_brace) by assumption.
  unfold callHelper.
  destruct (SMap.get (helpers e) w) as [helper|]; [|reflexivity].
  cbn [bind]. destruct (helper now [] variables); reflexivity.
Qed.

Lemma passes_on_plain (e : TemplateEngine) (now : Date) (variables : dict) (text : string) :
  plain text = true ->
  (r2 <- processConditionalBlocks text variables ;;
   r3 <- processLoopBlocks r2 variables ;;
   processHelperCalls e now r3 variables) = Ok text.
Proof.
  intros Hplain.
  rewrite conditional_pass_without_block by now apply includes_plain.
  cbn [bind].
  rewrite loop_pass_without_block by now apply includes_plain.
  cbn [bind]. unfold processHelperCalls.
  now apply (replace_plain _ _ helperPattern_needs_brace).
Qed.



(** *** Texts in pieces *)

Lemma braceless_chars (y : string) :
  braceless y = true ->
  Str.forallb (fun c => negb (Str.is_lbrace c)) y = true
  /\ Str.forallb (fun c => negb (Str.is_rbrace c)) y = true.
Proof.
  unfold braceless. induction y as [|c y IH]; simpl; [now split|].
  intros H. apply Bool.andb_true_iff in H. destruct H as [Hc Hy].
  destruct (IH Hy) as [Hl Hr]. rewrite Hl, Hr.
  apply Bool.negb_true_iff, Bool.orb_false_iff in Hc. destruct Hc as [Hcl Hcr].
  now rewrite Hcl, Hcr.
Qed.

Lemma braceless_plain (y : string) : braceless y = true -> plain y = true.
Proof. intros H. exact (proj1 (braceless_chars y H)). Qed.

Lemma word_braceless (w : string) : Str.forallb Str.is_word w = true -> braceless w = true.
Proof.
  unfold braceless. induction w as [|c w IH]; simpl; [reflexivity|].
  intros H. apply Bool.andb_true_iff in H. destruct H as [Hc Hw].
  rewrite (IH Hw), Bool.andb_true_r.
  unfold Str.is_lbrace, Str.is_rbrace.
  now rewrite (word_not c Str.lbrace Hc eq_refl), (word_not c Str.rbrace Hc eq_refl).
Qed.

Lemma show_cons (c : chunk) (chunks : list chunk) :
  show (c :: chunks) = showChunk c ++ show chunks.
Proof. reflexivity. Qed.

Lemma show_app (a b : list chunk) : show (a ++ b)%list = show a ++ show b.
Proof.
  induction a as [|c a IH]; [reflexivity|].
  cbn [List.app]. now rewrite !show_cons, IH, append_assoc.
Qed.

Lemma reference_unfold (y t : string) :
  reference y ++ t = String "{" (String "{" (y ++ "}}" ++ t)).
Proof. unfold reference. now rewrite !append_assoc. Qed.

(** After the first brace of a reference, no text starts with two
    braces before the reference ends. *)
Lemma second_brace_alone (y t : string) :
  braceless y = true ->
  Str.starts_with "{{" (String "{" (y ++ "}}" ++ t)) = false.
Proof.
  intros Hy. unfold Str.starts_with. cbn [Str.strip_prefix].
  rewrite Ascii.eqb_refl.
  destruct y as [|c y]; [reflexivity|].
  cbn [append]. unfold braceless in Hy. simpl in Hy.
  apply Bool.andb_true_iff in Hy. destruct Hy as [Hc _].
  apply Bool.negb_true_iff, Bool.orb_false_iff in Hc. destruct Hc as [Hcl _].
  unfold Str.is_lbrace, Str.lbrace in Hcl.
  now rewrite Ascii.eqb_sym, Hcl.
Qed.

Lemma inner_then_close_plain (y : string) :
  braceless y = true -> plain (y ++ "}}") = true.
Proof.
  intros Hy. rewrite plain_append, (braceless_plain y Hy). reflexivity.
Qed.

Lemma not_two_braces (t : string) :
  headFails Str.is_lbrace t -> Str.starts_with "{{" t = false.
Proof.
  destruct t as [|c t]; [reflexivity|].
  cbn [headFails]. unfold Str.is_lbrace, Str.lbrace, Str.starts_with.
  cbn [Str.strip_prefix]. intros Hc. now rewrite Ascii.eqb_sym, Hc.
Qed.

Section ReplaceChunks.

Context {A : Type}.
Variable pattern : string -> option (A * string).
Variable callback : string -> A -> outcome string.

Hypothesis needs_two :
  forall t, Str.starts_with "{{" t = false -> pattern t = None.

Lemma needs_one (t : string) : headFails Str.is_lbrace t -> pattern t = None.
Proof. intros Ht. now apply needs_two, not_two_braces. Qed.

Lemma replace_token_miss (y t : string) :
  braceless y = true ->
  pattern (reference y ++ t) = None ->
  Re.replace pattern callback 0 (reference y ++ t)
  = (tl <- Re.replace pattern callback 0 t ;; Ok (reference y ++ tl)).
Proof.
  intros Hy Hmiss. rewrite reference_unfold in *.
  rewrite replace_miss by exact Hmiss.
  rewrite replace_miss by (apply needs_two; now apply second_brace_alone).
  rewrite <- append_assoc.
  rewrite (replace_plain_prefix pattern callback needs_one (y ++ "}}") t)
    by now apply inner_then_close_plain.
  rewrite !bind_assoc. apply bind_ext. intros tl. cbn [bind].
  now rewrite reference_unfold, append_assoc.
Qed.

Lemma replace_chunk (c : chunk) (t : string) :
  wellFormed c -> inert pattern callback c ->
  Re.replace pattern callback 0 (showChunk c ++ t)
  = (tl <- Re.replace pattern callback 0 t ;; Ok (showChunk c ++ tl)).
Proof.
  destruct c as [s|y]; cbn [wellFormed inert showChunk]; intros Hwf Hinert.
  - now apply replace_plain_prefix; [exact needs_one|].
  - destruct (Hinert t) as [Hmiss|[groups [Hhit Hsame]]].
    + now apply replace_token_miss.
    + rewrite (replace_hit pattern callback (reference y) t groups
                 (reference_nonempty y) Hhit).
      now rewrite Hsame.
Qed.

Lemma replace_chunks (chunks : list chunk) (t : string) :
  Forall wellFormed chunks -> Forall (inert pattern callback) chunks ->
  Re.replace pattern callback 0 (show chunks ++ t)
  = (tl <- Re.replace pattern callback 0 t ;; Ok (show chunks ++ tl)).
Proof.
  induction chunks as [|c chunks IH]; intros Hwf Hinert.
  - cbn. now rewrite bind_ret.
  - inversion Hwf as [|? ? Hc Hcs]; subst.
    inversion Hinert as [|? ? Ic Ics]; subst.
    rewrite show_cons, append_assoc.
    rewrite (replace_chunk c _ Hc Ic), (IH Hcs Ics), bind_assoc.
    apply bind_ext. intros tl. cbn [bind]. now rewrite append_assoc.
Qed.

Lemma replace_all_chunks (chunks : list chunk) :
  Forall wellFormed chunks -> Forall (inert pattern callback) chunks ->
  Re.replace pattern callback 0 (show chunks) = Ok (show chunks).
Proof.
  intros Hwf Hinert.
  rewrite <- (append_empty_r (show chunks)) at 1.
  rewrite (replace_chunks chunks "" Hwf Hinert).
  rewrite replace_end by (now apply needs_one).
  cbn [bind]. now rewrite append_empty_r.
Qed.

End ReplaceChunks.

(** *** [replaceAll] on a text in pieces *)


Lemma substitution_without_dollar (before matched after replacement : string) :
  Str.forallb (fun c => negb (Ascii.eqb c "$"%char)) replacement = true ->
  Re.substitution before matched after replacement = replacement.
Proof.
  induction replacement as [|d t IH]; cbn [Re.substitution Str.forallb]; [reflexivity|].
  intros H. apply Bool.andb_true_iff in H. destruct H as [Hd Ht].
  apply Bool.negb_true_iff in Hd. rewrite Hd. now rewrite (IH Ht).
Qed.

Lemma reference_mismatch (x : string) :
  forall y t : string,
    braceless x = true -> braceless y = true -> x <> y ->
    Str.strip_prefix (x ++ "}}") (y ++ "}}" ++ t) = None.
Proof.
  induction x as [|a x IH]; intros y t Hx Hy Hneq.
  - destruct y as [|b y]; [contradiction|].
    cbn [append Str.strip_prefix].
    pose proof (proj2 (braceless_chars _ Hy)) as Hr. simpl in Hr.
    apply Bool.andb_true_iff in Hr. destruct Hr as [Hb _].
    apply Bool.negb_true_iff in Hb. unfold Str.is_rbrace, Str.rbrace in Hb.
    now rewrite Ascii.eqb_sym, Hb.
  - pose proof (proj2 (braceless_chars _ Hx)) as Hr. simpl in Hr.
    apply Bool.andb_true_iff in Hr. destruct Hr as [Ha _].
    apply Bool.negb_true_iff in Ha. unfold Str.is_rbrace, Str.rbrace in Ha.
    destruct y as [|b y].
    + cbn [append Str.strip_prefix]. now rewrite Ha.
    + cbn [append Str.strip_prefix].
      destruct (Ascii.eqb a b) eqn:Hab; [|reflexivity].
      apply Ascii.eqb_eq in Hab. subst b.
      apply IH.
      * unfold braceless in *. simpl in Hx. now apply Bool.andb_true_iff in Hx.
      * unfold braceless in *. simpl in Hy. now apply Bool.andb_true_iff in Hy.
      * intros ->. now apply Hneq.
Qed.

Lemma strip_reference (x y t : string) :
  Str.strip_prefix (reference x) (reference y ++ t)
  = Str.strip_prefix (x ++ "}}") (y ++ "}}" ++ t).
Proof.
  rewrite reference_unfold. unfold reference.
  cbn [append Str.strip_prefix]. now rewrite !Ascii.eqb_refl.
Qed.

Lemma strip_reference_needs_two (x s : string) :
  Str.starts_with "{{" s = false -> Str.strip_prefix (reference x) s = None.
Proof.
  unfold Str.starts_with, reference.
  change ("{{" ++ x ++ "}}") with ("{{" ++ (x ++ "}}")).
  rewrite strip_prefix_split.
  now destruct (Str.strip_prefix "{{" s).
Qed.

Section ReplaceLiteral.

Variables literal replacement : string.

Hypothesis no_dollar :
  Str.forallb (fun c => negb (Ascii.eqb c "$"%char)) replacement = true.




Hypothesis needs_two :
  forall s, Str.starts_with "{{" s = false -> Str.strip_prefix literal s = None.



End ReplaceLiteral.


Lemma replaceLiteral_end (literal replacement passed : string) (skip : nat) :
  Re.replaceLiteral literal replacement passed skip "" = "".
Proof. reflexivity. Qed.


(** *** [find_first] on a text in pieces *)

Section FindFirst.

Variable literal : string.

Hypothesis needs_two :
  forall s, Str.starts_with "{{" s = false -> Str.strip_prefix literal s = None.

Lemma find_first_miss (c : ascii) (s before rest : string) :
  Str.strip_prefix literal (String c s) = None ->
  Str.find_first literal s = Some (before, rest) ->
  Str.find_first literal (String c s) = Some (String c before, rest).
Proof.
  intros Hmiss Hfound. cbn [Str.find_first]. now rewrite Hmiss, Hfound.
Qed.

Lemma find_first_plain_prefix (pre s before rest : string) :
  plain pre = true ->
  Str.find_first literal s = Some (before, rest) ->
  Str.find_first literal (pre ++ s) = Some (pre ++ before, rest).
Proof.
  unfold plain. intros Hpre Hfound. induction pre as [|c pre IH]; [exact Hfound|].
  simpl in Hpre. apply Bool.andb_true_iff in Hpre. destruct Hpre as [Hc Hpre].
  cbn [append]. apply find_first_miss; [|now apply IH].
  apply needs_two, not_two_braces. simpl. now apply Bool.negb_true_iff.
Qed.

Lemma find_first_token_miss (y s before rest : string) :
  braceless y = true ->
  Str.strip_prefix literal (reference y ++ s) = None ->
  Str.find_first literal s = Some (before, rest) ->
  Str.find_first literal (reference y ++ s) = Some (reference y ++ before, rest).
Proof.
  intros Hy Hmiss Hfound. rewrite !reference_unfold in *.
  apply find_first_miss; [exact Hmiss|].
  apply find_first_miss; [apply needs_two; now apply second_brace_alone|].
  rewrite <- !append_assoc.
  apply find_first_plain_prefix; [now apply inner_then_close_plain|exact Hfound].
Qed.

End FindFirst.

Lemma find_first_hit (literal t : string) :
  Str.find_first literal (literal ++ t) = Some ("", t).
Proof.
  destruct literal as [|c l].
  - destruct t; reflexivity.
  - cbn [append Str.find_first]. pose proof (strip_prefix_append (String c l) t) as H.
    cbn [append] in H. now rewrite H.
Qed.

Lemma find_closing_tag (closing : string) (chunks : list chunk) (t : string) :
  braceless closing = true ->
  Forall wellFormed chunks ->
  Forall (fun c => c <> Token closing) chunks ->
  Str.find_first (reference closing) (show chunks ++ reference closing ++ t)
  = Some (show chunks, t).
Proof.
  intros Hclosing Hwf Hother.
  induction Hwf as [|c chunks Hc Hcs IH].
  - unfold show. cbn [List.map Str.concat append]. apply find_first_hit.
  - inversion Hother as [|? ? Hne Hrest]; subst.
    rewrite show_cons, append_assoc.
    destruct c as [s|y]; cbn [wellFormed showChunk] in *.
    + apply find_first_plain_prefix; [apply strip_reference_needs_two|assumption|now apply IH].
    + apply find_first_token_miss; [apply strip_reference_needs_two|assumption| |now apply IH].
      rewrite strip_reference. apply reference_mismatch; try assumption.
      intros ->. now apply Hne.
Qed.

(** *** Characters *)

Lemma word_not_space (c : ascii) : Str.is_word c = true -> Str.is_space c = false.
Proof.
  destruct c as [b0 b1 b2 b3 b4 b5 b6 b7].
  destruct b0, b1, b2, b3, b4, b5, b6, b7; intros H; try reflexivity; discriminate H.
Qed.


Lemma string_of_uint_digits (u : Decimal.uint) :
  Str.forallb Str.is_digit (NilEmpty.string_of_uint u) = true.
Proof. induction u; simpl; auto. Qed.





Lemma braceless_append (a b : string) : braceless (a ++ b) = braceless a && braceless b.
Proof. unfold braceless. apply forallb_append. Qed.

(** *** One turn of an [each] block *)












(** *** The four passes on an [each] block *)

Lemma eachBlock_chunks (v : string) (body : list chunk) :
  eachBlock v body = show (Token ("#each " ++ v) :: body ++ [Token "/each"])%list.
Proof.
  unfold eachBlock. rewrite show_cons, show_app. cbn [showChunk].
  unfold reference at 1. rewrite !append_assoc. reflexivity.
Qed.

Lemma loopPiece_wellFormed (e : TemplateEngine) (variables : dict) (c : chunk) :
  loopPiece e variables c -> wellFormed c.
Proof.
  destruct c as [s|y]; cbn [loopPiece wellFormed]; [auto|].
  intros [-> | [-> | [-> | [Hw _]]]]; try reflexivity.
  now apply word_braceless, word_chars.
Qed.

Lemma loopPiece_not_closing (e : TemplateEngine) (variables : dict) (c : chunk) :
  loopPiece e variables c -> c <> Token "/each".
Proof.
  destruct c as [s|y]; cbn [loopPiece]; [discriminate|].
  intros [-> | [-> | [-> | [Hw _]]]]; try discriminate.
  intros H. inversion H. subst y. discriminate Hw.
Qed.

Lemma each_tag_wellFormed (v : string) : word v = true -> wellFormed (Token ("#each " ++ v)).
Proof.
  intros Hv. cbn [wellFormed]. rewrite braceless_append.
  now rewrite (word_braceless v (word_chars v Hv)).
Qed.

Lemma block_wellFormed (e : TemplateEngine) (variables : dict) (v : string)
    (body : list chunk) :
  word v = true -> Forall (loopPiece e variables) body ->
  Forall wellFormed (Token ("#each " ++ v) :: body ++ [Token "/each"])%list.
Proof.
  intros Hv Hbody. constructor; [now apply each_tag_wellFormed|].
  apply Forall_app. split.
  - eapply Forall_impl; [|exact Hbody]. apply loopPiece_wellFormed.
  - repeat constructor.
Qed.

(** The first pattern does not match a reference whose inner text does
    not start with a character of a name. *)
Lemma plainPattern_not_a_name (y rest : string) :
  headFails Str.is_word (y ++ "}}") ->
  Re.plainPattern (reference y ++ rest) = None.
Proof.
  intros Hy. unfold Re.plainPattern. rewrite reference_unfold.
  change (Str.strip_prefix "{{" (String "{" (String "{" (y ++ "}}" ++ rest))))
    with (Some (y ++ "}}" ++ rest)).
  cbn [Re.and_then]. rewrite span_none; [reflexivity|].
  destruct y; exact Hy.
Qed.

Lemma helperPattern_not_a_name (y rest : string) :
  headFails Str.is_word (y ++ "}}") ->
  Re.helperPattern (reference y ++ rest) = None.
Proof.
  intros Hy. unfold Re.helperPattern. rewrite reference_unfold.
  change (Str.strip_prefix "{{" (String "{" (String "{" (y ++ "}}" ++ rest))))
    with (Some (y ++ "}}" ++ rest)).
  cbn [Re.and_then]. rewrite span_none; [reflexivity|].
  destruct y; exact Hy.
Qed.

Lemma plainPattern_needs_two (t : string) :
  Str.starts_with "{{" t = false -> Re.plainPattern t = None.
Proof.
  unfold Re.plainPattern, Str.starts_with.
  now destruct (Str.strip_prefix "{{" t).
Qed.


Lemma hash_needs_two (t : string) :
  Str.starts_with "{{" t = false -> Str.starts_with "{{#" t = false.
Proof.
  unfold Str.starts_with.
  change "{{#" with ("{{" ++ "#"). rewrite strip_prefix_split.
  now destruct (Str.strip_prefix "{{" t).
Qed.

Lemma substitution_inert (e : TemplateEngine) (variables : dict) (c : chunk) :
  loopPiece e variables c ->
  inert Re.plainPattern (substituteVariable variables) c.
Proof.
  destruct c as [s|y]; cbn [loopPiece inert]; [auto|].
  intros [-> | [-> | [-> | [Hw [Hundef _]]]]] rest;
    try (left; now apply plainPattern_not_a_name).
  right. exists y. split; [now apply plainPattern_reference|].
  unfold substituteVariable. now rewrite Hundef.
Qed.

(** No piece of the block opens an [if] or an [unless]. *)
Lemma loopPiece_no_hash (e : TemplateEngine) (variables : dict) (y rest : string) :
  loopPiece e variables (Token y) ->
  Str.starts_with "{{#" (reference y ++ rest) = false.
Proof.
  cbn [loopPiece]. intros [-> | [-> | [-> | [Hw _]]]]; try reflexivity.
  pose proof (word_nonempty y Hw) as Hne. pose proof (word_chars y Hw) as Hchars.
  destruct y as [|c y]; [contradiction|].
  simpl in Hchars. apply Bool.andb_true_iff in Hchars. destruct Hchars as [Hc _].
  rewrite reference_unfold. unfold Str.starts_with. cbn [append Str.strip_prefix].
  rewrite !Ascii.eqb_refl.
  now rewrite (Ascii.eqb_sym "#"%char c), (word_not c "#"%char Hc eq_refl).
Qed.

Lemma block_inert {A : Type} (pattern : string -> option (A * string))
    (callback : string -> A -> outcome string)
    (e : TemplateEngine) (variables : dict) (v : string) (body : list chunk) :
  (forall t, Str.starts_with "{{#" t = false -> pattern t = None) ->
  (forall rest, pattern (reference ("#each " ++ v) ++ rest) = None) ->
  Forall (loopPiece e variables) body ->
  Forall (inert pattern callback) (Token ("#each " ++ v) :: body ++ [Token "/each"])%list.
Proof.
  intros Hhash Htag Hbody. constructor; [intros rest; left; apply Htag|].
  apply Forall_app. split.
  - eapply Forall_impl; [|exact Hbody].
    intros [s|y] Hc; cbn [inert]; [exact I|].
    intros rest. left. apply Hhash. now apply (loopPiece_no_hash e variables).
  - constructor; [|constructor]. intros rest. left. now apply Hhash.
Qed.

Lemma openTag_if_each_tag (v rest : string) :
  Re.openTag "if" (reference ("#each " ++ v) ++ rest) = None.
Proof. rewrite reference_unfold. reflexivity. Qed.

Lemma openTag_unless_each_tag (v rest : string) :
  Re.openTag "unless" (reference ("#each " ++ v) ++ rest) = None.
Proof. rewrite reference_unfold. reflexivity. Qed.

Lemma block_passes_unchanged {A : Type} (pattern : string -> option (A * string))
    (callback : string -> A -> outcome string)
    (e : TemplateEngine) (variables : dict) (pre v post : string) (body : list chunk) :
  (forall t, Str.starts_with "{{#" t = false -> pattern t = None) ->
  (forall rest, pattern (reference ("#each " ++ v) ++ rest) = None) ->
  plain pre = true -> word v = true -> plain post = true ->
  Forall (loopPiece e variables) body ->
  Re.replace pattern callback 0 (pre ++ eachBlock v body ++ post)
  = Ok (pre ++ eachBlock v body ++ post).
Proof.
  intros Hhash Htag Hpre Hv Hpost Hbody.
  assert (Htwo : forall t, Str.starts_with "{{" t = false -> pattern t = None).
  { intros t Ht. now apply Hhash, hash_needs_two. }
  rewrite (replace_plain_prefix _ _ (needs_one pattern Htwo)) by assumption.
  rewrite eachBlock_chunks.
  rewrite (replace_chunks pattern callback Htwo _ post
             (block_wellFormed e variables v body Hv Hbody)
             (block_inert pattern callback e variables v body Hhash Htag Hbody)).
  rewrite (replace_plain _ _ (needs_one pattern Htwo)) by assumption.
  reflexivity.
Qed.

Lemma substitution_pass_block (e : TemplateEngine) (variables : dict)
    (pre v post : string) (body : list chunk) :
  plain pre = true -> word v = true -> plain post = true ->
  Forall (loopPiece e variables) body ->
  Re.replace Re.plainPattern (substituteVariable variables) 0
    (pre ++ eachBlock v body ++ post)
  = Ok (pre ++ eachBlock v body ++ post).
Proof.
  intros Hpre Hv Hpost Hbody.
  rewrite (replace_plain_prefix _ _ plainPattern_needs_brace) by assumption.
  rewrite eachBlock_chunks.
  rewrite (replace_chunks _ _ plainPattern_needs_two _ post
             (block_wellFormed e variables v body Hv Hbody)).
  - now rewrite (replace_plain _ _ plainPattern_needs_brace) by assumption.
  - constructor; [intros rest; left; now apply plainPattern_not_a_name|].
    apply Forall_app. split.
    + eapply Forall_impl; [|exact Hbody]. apply substitution_inert.
    + constructor; [|constructor]. intros rest. left. now apply plainPattern_not_a_name.
Qed.

Lemma conditional_pass_block (e : TemplateEngine) (variables : dict)
    (pre v post : string) (body : list chunk) :
  plain pre = true -> word v = true -> plain post = true ->
  Forall (loopPiece e variables) body ->
  processConditionalBlocks (pre ++ eachBlock v body ++ post) variables
  = Ok (pre ++ eachBlock v body ++ post).
Proof.
  intros Hpre Hv Hpost Hbody. unfold processConditionalBlocks.
  rewrite (block_passes_unchanged Re.ifElsePattern _ e variables pre v post body
             ifElsePattern_needs_hash); try assumption.
  2:{ intros rest. unfold Re.ifElsePattern. now rewrite openTag_if_each_tag. }
  cbn [bind].
  rewrite (block_passes_unchanged Re.ifPattern _ e variables pre v post body
             (blockPattern_needs_hash "if")); try assumption.
  2:{ intros rest. unfold Re.ifPattern, Re.blockPattern. now rewrite openTag_if_each_tag. }
  cbn [bind].
  apply (block_passes_unchanged Re.unlessPattern _ e variables pre v post body
           (blockPattern_needs_hash "unless")); try assumption.
  intros rest. unfold Re.unlessPattern, Re.blockPattern.
  now rewrite openTag_unless_each_tag.
Qed.

Lemma eachPattern_block (e : TemplateEngine) (variables : dict)
    (v post : string) (body : list chunk) :
  word v = true -> Forall (loopPiece e variables) body ->
  Re.eachPattern (eachBlock v body ++ post) = Some ((v, show body), post).
Proof.
  intros Hv Hbody.
  pose proof (word_nonempty v Hv) as Hne. pose proof (word_chars v Hv) as Hchars.
  unfold Re.eachPattern, Re.blockPattern, Re.openTag, eachBlock.
  change ("{{#" ++ "each") with "{{#each".
  change ("{{/" ++ "each" ++ "}}") with (reference "/each").
  rewrite !append_assoc.
  change ("{{#each " ++ v ++ "}}" ++ show body ++ "{{/each}}" ++ post)
    with ("{{#each" ++ " " ++ v ++ "}}" ++ show body ++ reference "/each" ++ post).
  rewrite strip_prefix_append. cbn [Re.and_then].
  rewrite (span_append Str.is_space " " _ eq_refl).
  2:{ destruct v as [|c v]; [contradiction|]. cbn [append headFails].
      simpl in Hchars. apply Bool.andb_true_iff in Hchars.
      now apply word_not_space. }
  cbn [String.eqb Ascii.eqb Bool.eqb].
  rewrite (span_append Str.is_word v ("}}" ++ show body ++ reference "/each" ++ post)
             Hchars eq_refl).
  destruct (String.eqb v "") eqn:Hempty; [apply String.eqb_eq in Hempty; contradiction|].
  rewrite strip_prefix_append. cbn [Re.and_then].
  rewrite find_closing_tag.
  - reflexivity.
  - reflexivity.
  - eapply Forall_impl; [|exact Hbody]. apply loopPiece_wellFormed.
  - eapply Forall_impl; [|exact Hbody]. apply loopPiece_not_closing.
Qed.

Lemma eachBlock_nonempty (v : string) (body : list chunk) : eachBlock v body <> "".
Proof. discriminate. Qed.








(** ** The scenarios and other samples *)




Example interpolate_bare_date :
  interpolate createTemplateEngine Sample.morning "Drafted on {{date}}." []
  = Ok "Drafted on 2025-10-09.".
Proof. reflexivity. Qed.

Example interpolate_variable_before_helper :
  interpolate createTemplateEngine Sample.morning "{{date}}" [("date", VStr "tomorrow")]
  = Ok "tomorrow".
Proof. reflexivity. Qed.

(** Scenario 2 of the specification. *)
Example interpolate_hello_ada :
  interpolate createTemplateEngine Sample.morning "Hello {{name}}" [("name", VStr "Ada")]
  = Ok "Hello Ada".
Proof. reflexivity. Qed.



Example replaceAll_dollar :
  Re.replaceAll "{{this}}" "a$&b$$" "x{{this}}y{{this}}" = "xa{{this}}b$ya{{this}}b$".
Proof. reflexivity. Qed.

Example helperPattern_trailing_spaces :
  (Re.helperPattern "{{foo  }}x", Re.helperPattern "{{foo }}x")
  = (Some (("foo", Some " "), "x"), None).
Proof. reflexivity. Qed.

Example mergeSections_sample :
  List.map s_id
    (mergeSections
       [ {| s_id := "a"; s_title := "A"; s_content := ""; s_condition := Absent;
            s_sections := Absent; s_collapsible := Absent; s_order := Has 2%Z;
            s_prompt := Absent |};
         Sample.section "b" "" ]
       [ Sample.section "c" "";
         {| s_id := "b"; s_title := "B"; s_content := ""; s_condition := Absent;
            s_sections := Absent; s_collapsible := Absent; s_order := Has 2%Z;
            s_prompt := Absent |} ])
  = ["c"; "a"; "b"].
Proof. reflexivity. Qed.

Example render_sample :
  render createTemplateEngine Sample.morning Sample.compiledSample
  = Ok (Str.join newline
          ["# sample"; ""; "## Overview"; ""; "### Goals"; ""; "Ship it."; ""]).
Proof. reflexivity. Qed.

(** * Further properties *)

(** ** The registry *)

Lemma values_set_new {V : Type} (m : SMap.t V) (k : string) (v : V) :
  SMap.get m k = None -> SMap.values (SMap.set m k v) = (SMap.values m ++ [v])%list.
Proof.
  induction m as [|[k0 v0] rest IH]; cbn [SMap.get SMap.set]; intros Hnone.
  - reflexivity.
  - destruct (String.eqb k0 k); [discriminate|].
    unfold SMap.values in *. cbn [List.map snd]. now rewrite IH.
Qed.

Lemma values_set_old {V : Type} (m : SMap.t V) (k : string) (v old : V) :
  SMap.get m k = Some old ->
  exists before after,
    SMap.values m = (before ++ old :: after)%list
    /\ SMap.values (SMap.set m k v) = (before ++ v :: after)%list.
Proof.
  induction m as [|[k0 v0] rest IH]; cbn [SMap.get SMap.set]; intros Hsome.
  - discriminate.
  - destruct (String.eqb k0 k).
    + inversion Hsome. subst v0. exists [], (SMap.values rest). now split.
    + destruct (IH Hsome) as [before [after [H1 H2]]].
      exists (v0 :: before), after. unfold SMap.values in *. cbn [List.map snd].
      rewrite H1, H2. now split.
Qed.

(** X1.  Looking a template up after registering one finds the
    registered template under its id, whatever was there before, and
    what the engine held under every other id.  Registering under a new
    id lists the template last; registering
    under an id already taken puts it in the place of the template it
    replaces and leaves the list as long as it was.  The helpers are
    untouched. *)
Theorem registerTemplate_registry :
  forall (e : TemplateEngine) (template : CustomTemplate),
    (forall id : string,
       getTemplate (registerTemplate e template) id
       = (if String.eqb (m_id (meta template)) id then Some template
          else getTemplate e id))
    /\ helpers (registerTemplate e template) = helpers e
    /\ (getTemplate e (m_id (meta template)) = None ->
        listTemplates (registerTemplate e template)
        = (listTemplates e ++ [template])%list)
    /\ (forall old,
          getTemplate e (m_id (meta template)) = Some old ->
          exists before after,
            listTemplates e = (before ++ old :: after)%list
            /\ listTemplates (registerTemplate e template)
               = (before ++ template :: after)%list).
Proof.
  intros e template. unfold getTemplate, listTemplates, registerTemplate. cbn [templates].
  split; [intros id; apply SMapFacts.get_set|].
  split; [reflexivity|]. split.
  - apply values_set_new.
  - intros old. apply values_set_old.
Qed.

Lemma registerTemplate_registry_sample :
  listTemplates (registerTemplate createTemplateEngine Cases.base)
  = (listTemplates createTemplateEngine ++ [Cases.base])%list.
Proof.
  apply (proj1 (proj2 (proj2 (registerTemplate_registry createTemplateEngine Cases.base)))).
  reflexivity.
Defined.

(** ** Inheritance *)

(** X2.  A template that extends an id under which nothing is registered
    is not resolved, however deep the recursion may go: the resolution,
    and with it [compile] and [process], throws the error that names the
    id. *)
Theorem resolveInheritance_parent_not_found :
  forall (e : TemplateEngine) (now : Date) (fuel : nat) (template : CustomTemplate)
         (context : TemplateContext) (parentId : string),
    extends template = Has parentId -> parentId <> "" ->
    getTemplate e parentId = None ->
    resolveInheritance e fuel template
    = Throw (Error ("Parent template not found: " ++ parentId))
    /\ compile e now fuel template context
       = Throw (Error ("Parent template not found: " ++ parentId))
    /\ process e now fuel template context
       = Throw (Error ("Parent template not found: " ++ parentId)).
Proof.
  intros e now fuel template context parentId Hext Hne Hnone.
  assert (H : resolveInheritance e fuel template
              = Throw (Error ("Parent template not found: " ++ parentId))).
  { rewrite resolveInheritance_eq, Hext.
    apply String.eqb_neq in Hne. rewrite Hne.
    unfold getTemplate in Hnone. now rewrite Hnone. }
  unfold process, compile. now rewrite H.
Qed.

Lemma resolveInheritance_parent_not_found_sample :
  resolveInheritance createTemplateEngine 3 (Cases.extending "child" "base")
  = Throw (Error "Parent template not found: base")
  /\ compile createTemplateEngine Sample.morning 3 (Cases.extending "child" "base")
       Sample.noVariables
     = Throw (Error "Parent template not found: base")
  /\ process createTemplateEngine Sample.morning 3 (Cases.extending "child" "base")
       Sample.noVariables
     = Throw (Error "Parent template not found: base").
Proof.
  apply (resolveInheritance_parent_not_found createTemplateEngine Sample.morning 3
           (Cases.extending "child" "base") Sample.noVariables "base").
  - reflexivity.
  - discriminate.
  - reflexivity.
Defined.

(** X3.  The recursion of [resolveInheritance] has no guard against a
    chain of parents that comes back on itself: in a family of templates
    each of which extends a registered template of the family, no depth
    of recursion is enough for any of them.  The recursion never reaches
    a return or the throw of the source; it ends when the stack of the
    engine that runs it is exhausted. *)
Theorem resolveInheritance_endless_chain :
  forall (e : TemplateEngine) (chain : CustomTemplate -> Prop),
    endless e chain ->
    forall (fuel : nat) (template : CustomTemplate),
      chain template -> resolveInheritance e fuel template = OutOfFuel.
Proof.
  intros e chain Hchain fuel.
  induction fuel as [|fuel IH]; intros template Hin;
    destruct (Hchain template Hin) as [parentId [parent [Hext [Hne [Hget Hparent]]]]];
    rewrite resolveInheritance_eq, Hext;
    apply String.eqb_neq in Hne; rewrite Hne;
    unfold getTemplate in Hget; rewrite Hget.
  - reflexivity.
  - now rewrite (IH parent Hparent).
Qed.

Lemma resolveInheritance_endless_chain_selfish :
  resolveInheritance Cases.looping 7 Cases.selfish = OutOfFuel.
Proof.
  apply (resolveInheritance_endless_chain Cases.looping (fun t => t = Cases.selfish)).
  - intros template Heq. exists "loop", Cases.selfish.
    rewrite Heq. split; [reflexivity|]. split; [discriminate|].
    split; reflexivity.
  - reflexivity.
Defined.

(** X4.  A resolved template is resolved for good: it carries no
    [extends] unless it is the template that was given, and resolving it
    again, whatever is registered by then, returns it as it is. *)
Theorem resolveInheritance_idempotent :
  forall (e : TemplateEngine) (fuel : nat) (template resolved : CustomTemplate),
    resolveInheritance e fuel template = Ok resolved ->
    (resolved = template \/ extends resolved = Absent)
    /\ forall (e' : TemplateEngine) (fuel' : nat),
         resolveInheritance e' fuel' resolved = Ok resolved.
Proof.
  intros e fuel template resolved Hres.
  rewrite resolveInheritance_eq in Hres.
  assert (Hsame : forall (e' : TemplateEngine) (fuel' : nat) (t : CustomTemplate),
            match extends t with
            | Has parentId => String.eqb parentId "" = true
            | _ => True
            end -> resolveInheritance e' fuel' t = Ok t).
  { intros e' fuel' t Ht. rewrite resolveInheritance_eq.
    destruct (extends t) as [| |parentId]; try reflexivity. now rewrite Ht. }
  destruct (extends template) as [| |parentId] eqn:Hext.
  - inversion Hres. subst resolved. split; [now left|].
    intros e' fuel'. apply Hsame. now rewrite Hext.
  - inversion Hres. subst resolved. split; [now left|].
    intros e' fuel'. apply Hsame. now rewrite Hext.
  - destruct (String.eqb parentId "") eqn:Hempty.
    + inversion Hres. subst resolved. split; [now left|].
      intros e' fuel'. apply Hsame. now rewrite Hext.
    + destruct (SMap.get (templates e) parentId) as [parent|]; [|discriminate].
      destruct fuel as [|fuel]; [discriminate|].
      destruct (resolveInheritance e fuel parent) as [resolvedParent| | |];
        try discriminate.
      rewrite bind_Ok in Hres. inversion Hres. split; [now right|].
      intros e' fuel'. now apply Hsame.
Qed.

Lemma resolveInheritance_idempotent_sample :
  resolveInheritance Cases.withBase 1 (Cases.extending "child" "sample")
  = Ok {| meta := Sample.someMeta "child";
          variables := [Sample.required "name"];
          sections := [Sample.section "intro" "Hello"; Sample.section "usage" "Run it"];
          extends := Absent; prompts := Has [] |}
  /\ resolveInheritance createTemplateEngine 0
       {| meta := Sample.someMeta "child";
          variables := [Sample.required "name"];
          sections := [Sample.section "intro" "Hello"; Sample.section "usage" "Run it"];
          extends := Absent; prompts := Has [] |}
     = Ok {| meta := Sample.someMeta "child";
             variables := [Sample.required "name"];
             sections := [Sample.section "intro" "Hello"; Sample.section "usage" "Run it"];
             extends := Absent; prompts := Has [] |}.
Proof.
  split; [reflexivity|].
  apply (resolveInheritance_idempotent Cases.withBase 1 (Cases.extending "child" "sample")).
  reflexivity.
Defined.

(** X5.  Whatever the parents hold, a resolved template keeps the
    identity of the template that was given: its id, name, description,
    version, category and scope, and every optional key of its own
    [meta], also one whose value is [undefined]. *)
Theorem resolveInheritance_keeps_identity :
  forall (e : TemplateEngine) (fuel : nat) (template resolved : CustomTemplate),
    resolveInheritance e fuel template = Ok resolved ->
    m_id (meta resolved) = m_id (meta template)
    /\ m_name (meta resolved) = m_name (meta template)
    /\ m_description (meta resolved) = m_description (meta template)
    /\ m_version (meta resolved) = m_version (meta template)
    /\ m_category (meta resolved) = m_category (meta template)
    /\ m_scope (meta resolved) = m_scope (meta template)
    /\ (m_author (meta template) <> Absent ->
        m_author (meta resolved) = m_author (meta template))
    /\ (m_audience (meta template) <> Absent ->
        m_audience (meta resolved) = m_audience (meta template))
    /\ (m_tags (meta template) <> Absent ->
        m_tags (meta resolved) = m_tags (meta template))
    /\ (m_license (meta template) <> Absent ->
        m_license (meta resolved) = m_license (meta template)).
Proof.
  intros e fuel template resolved Hres.
  assert (Hcases : resolved = template
                   \/ exists parent, meta resolved = mergeMeta parent (meta template)).
  { rewrite resolveInheritance_eq in Hres.
    destruct (extends template) as [| |parentId];
      try (inversion Hres; now left).
    destruct (String.eqb parentId ""); [inversion Hres; now left|].
    destruct (SMap.get (templates e) parentId) as [parent|]; [|discriminate].
    destruct fuel as [|fuel]; [discriminate|].
    destruct (resolveInheritance e fuel parent) as [resolvedParent| | |];
      try discriminate.
    rewrite bind_Ok in Hres. inversion Hres. right. now exists (meta resolvedParent). }
  destruct Hcases as [->|[parent ->]].
  - repeat split; reflexivity.
  - unfold mergeMeta. cbn [m_id m_name m_description m_version m_category m_scope
                           m_author m_audience m_tags m_license].
    repeat split; try reflexivity.
    + destruct (m_author (meta template)); [congruence|reflexivity|reflexivity].
    + destruct (m_audience (meta template)); [congruence|reflexivity|reflexivity].
    + destruct (m_tags (meta template)); [congruence|reflexivity|reflexivity].
    + destruct (m_license (meta template)); [congruence|reflexivity|reflexivity].
Qed.

Lemma resolveInheritance_keeps_identity_sample :
  m_id (meta (Cases.extending "child" "sample")) = "child"
  /\ exists resolved,
       resolveInheritance Cases.withBase 1 (Cases.extending "child" "sample") = Ok resolved
       /\ m_id (meta resolved) = "child".
Proof.
  split; [reflexivity|].
  eexists. split; [reflexivity|].
  apply (resolveInheritance_keeps_identity Cases.withBase 1
           (Cases.extending "child" "sample")).
  reflexivity.
Defined.

(** ** The merge of sections, further *)

Lemma merged_keyed (parent child : list TemplateSection) :
  keyed (fold_left (loopStep mergeWith) child (seedSections parent)).
Proof.
  apply loop_keyed; [exact mergeWith_id|].
  rewrite seedSections_loop. apply loop_keyed; [reflexivity|constructor].
Qed.

Lemma merged_NoDup (parent child : list TemplateSection) :
  NoDup (SMap.keys (fold_left (loopStep mergeWith) child (seedSections parent))).
Proof.
  apply loop_NoDup. rewrite seedSections_loop. apply loop_NoDup. constructor.
Qed.

(** X6.  No two sections that come out of [mergeSections] share an id,
    whatever ids the two lists repeat. *)
Theorem mergeSections_distinct_ids :
  forall parent child : list TemplateSection,
    NoDup (List.map s_id (mergeSections parent child)).
Proof.
  intros parent child. rewrite mergeSections_loop.
  eapply Permutation.Permutation_NoDup.
  - apply Permutation.Permutation_sym, Permutation.Permutation_map, sortByOrder_perm.
  - rewrite keyed_ids; [apply merged_NoDup|apply merged_keyed].
Qed.

Lemma sortByOrder_of_sorted (l : list TemplateSection) :
  Sorted.StronglySorted Spec.byOrder l -> sortByOrder l = l.
Proof.
  induction 1 as [|x l Hl IH Hx]; simpl; [reflexivity|].
  rewrite IH. destruct l as [|y l']; [reflexivity|].
  simpl. inversion Hx as [|? ? Hxy _]; subst.
  unfold Spec.byOrder in Hxy. apply Z.leb_le in Hxy. now rewrite Hxy.
Qed.

(** A loop that stores each section of a list under an id that is new
    stores the sections in the order of the list. *)
Lemma loop_fresh (g : option TemplateSection -> TemplateSection -> TemplateSection)
    (l : list TemplateSection) :
  (forall s, g None s = s) ->
  forall merged : SMap.t TemplateSection,
    NoDup (SMap.keys merged ++ List.map s_id l)%list ->
    SMap.values (fold_left (loopStep g) l merged) = (SMap.values merged ++ l)%list.
Proof.
  intros Hg. induction l as [|s rest IH]; simpl; intros merged Hnd.
  - now rewrite app_nil_r.
  - assert (Hfresh : SMap.get merged (s_id s) = None).
    { apply SMapFacts.get_None. destruct (SMap.mem (s_id s) (SMap.keys merged)) eqn:Hmem;
        [|reflexivity].
      apply SMapFacts.mem_In in Hmem. apply NoDup_remove_2 in Hnd.
      exfalso. apply Hnd. apply in_or_app. now left. }
    unfold loopStep at 2. rewrite Hfresh, Hg.
    rewrite IH.
    + rewrite values_set_new by exact Hfresh. now rewrite <- app_assoc.
    + rewrite SMapFacts.keys_set.
      apply SMapFacts.get_None in Hfresh. rewrite Hfresh.
      rewrite <- app_assoc. exact Hnd.
Qed.

(** X7.  Merging with an empty list changes nothing but the order: a
    list of sections with distinct ids merged onto nothing, or with
    nothing merged onto it, comes out sorted by weight, and as it is when
    it is sorted already. *)
Theorem mergeSections_empty :
  forall l : list TemplateSection,
    NoDup (List.map s_id l) ->
    mergeSections l [] = sortByOrder l
    /\ mergeSections [] l = sortByOrder l
    /\ (Sorted.StronglySorted Spec.byOrder l ->
        mergeSections l [] = l /\ mergeSections [] l = l).
Proof.
  intros l Hnd.
  assert (H1 : mergeSections l [] = sortByOrder l).
  { rewrite mergeSections_loop. cbn [fold_left]. rewrite seedSections_loop.
    rewrite (loop_fresh seedWith l (fun s => eq_refl) []); [reflexivity|exact Hnd]. }
  assert (H2 : mergeSections [] l = sortByOrder l).
  { rewrite mergeSections_loop.
    change (seedSections []) with (@nil (string * TemplateSection)).
    rewrite (loop_fresh mergeWith l (fun s => eq_refl) []); [reflexivity|exact Hnd]. }
  repeat split; try assumption.
  - rewrite H1. now apply sortByOrder_of_sorted.
  - rewrite H2. now apply sortByOrder_of_sorted.
Qed.

Lemma mergeSections_empty_sample :
  mergeSections [Cases.weighted "b" 2; Cases.weighted "a" 1] []
  = [Cases.weighted "a" 1; Cases.weighted "b" 2]
  /\ mergeSections [Cases.weighted "a" 1; Cases.weighted "b" 2] []
     = [Cases.weighted "a" 1; Cases.weighted "b" 2].
Proof.
  split.
  - apply (mergeSections_empty [Cases.weighted "b" 2; Cases.weighted "a" 1]).
    constructor; [simpl; intuition discriminate|].
    constructor; [simpl; intuition|constructor].
  - apply (mergeSections_empty [Cases.weighted "a" 1; Cases.weighted "b" 2]).
    + constructor; [simpl; intuition discriminate|].
      constructor; [simpl; intuition|constructor].
    + constructor.
      * constructor; [constructor|constructor].
      * constructor; [unfold Spec.byOrder, orderOf, Cases.weighted; simpl; lia|constructor].
Defined.

(** ** The merge of variables *)

Section StoreUnder.

Context {A : Type}.
Variable key : A -> string.
Variable g : option A -> A -> A.



Lemma store_NoDup (l : list A) :
  forall merged : SMap.t A,
    NoDup (SMap.keys merged) -> NoDup (SMap.keys (fold_left (storeUnder key g) l merged)).
Proof.
  induction l as [|a rest IH]; simpl; intros merged Hnd.
  - assumption.
  - apply IH. now apply SMapFacts.NoDup_keys_set.
Qed.

Hypothesis g_key : forall held a, key (g held a) = key a.


End StoreUnder.







(** ** Objects *)

Module JsFacts.

Lemma own_replace_own (d : dict) (k k' : string) (v : value) :
  Js.own (Js.replace_own d k v) k'
  = if String.eqb k k'
    then match Js.own d k with
         | Some _ => Some v
         | None => None
         end
    else Js.own d k'.
Proof.
  induction d as [|[k0 v0] rest IH]; simpl.
  - now destruct (String.eqb k k').
  - destruct (String.eqb k0 k) eqn:Hk; simpl.
    + apply String.eqb_eq in Hk. subst k0. now destruct (String.eqb k k').
    + rewrite IH. destruct (String.eqb k0 k') eqn:Hk'; [|reflexivity].
      apply String.eqb_eq in Hk'. subst k0.
      rewrite String.eqb_sym, Hk. reflexivity.
Qed.

Lemma own_insert_index (d : dict) (n : N) (k k' : string) (v : value) :
  Js.own d k = None ->
  Js.own (Js.insert_index d n k v) k' = if String.eqb k k' then Some v else Js.own d k'.
Proof.
  induction d as [|[k0 v0] rest IH]; simpl; intros Hnone.
  - reflexivity.
  - destruct (String.eqb k0 k) eqn:Hk; [discriminate|].
    assert (Hhere : Js.own ((k, v) :: (k0, v0) :: rest) k'
                    = if String.eqb k k' then Some v
                      else if String.eqb k0 k' then Some v0 else Js.own rest k')
      by reflexivity.
    destruct (Js.array_index k0) as [m|]; [|exact Hhere].
    destruct (m <? n)%N; [|exact Hhere].
    simpl. rewrite (IH Hnone).
    destruct (String.eqb k0 k') eqn:Hk'; [|reflexivity].
    apply String.eqb_eq in Hk'. subst k0. now rewrite String.eqb_sym, Hk.
Qed.

Lemma own_app (d : dict) (k k' : string) (v : value) :
  Js.own d k = None ->
  Js.own (d ++ [(k, v)])%list k' = if String.eqb k k' then Some v else Js.own d k'.
Proof.
  induction d as [|[k0 v0] rest IH]; simpl; intros Hnone.
  - reflexivity.
  - destruct (String.eqb k0 k) eqn:Hk; [discriminate|].
    rewrite (IH Hnone).
    destruct (String.eqb k0 k') eqn:Hk'; [|reflexivity].
    apply String.eqb_eq in Hk'. subst k0. now rewrite String.eqb_sym, Hk.
Qed.

(** An assignment changes no other property. *)
Lemma own_set_other (d : dict) (k k' : string) (v : value) :
  k <> k' -> Js.own (Js.set d k v) k' = Js.own d k'.
Proof.
  intros Hne. apply String.eqb_neq in Hne. unfold Js.set.
  destruct (Js.own d k) eqn:Hown.
  - now rewrite own_replace_own, Hne.
  - destruct (String.eqb k "__proto__"); [reflexivity|].
    destruct (Js.array_index k).
    + now rewrite own_insert_index, Hne.
    + now rewrite own_app, Hne.
Qed.

(** An assignment under a name other than [__proto__] is read back. *)
Lemma own_set_same (d : dict) (k : string) (v : value) :
  k <> "__proto__" -> Js.own (Js.set d k v) k = Some v.
Proof.
  intros Hne. apply String.eqb_neq in Hne. unfold Js.set.
  destruct (Js.own d k) eqn:Hown.
  - now rewrite own_replace_own, String.eqb_refl, Hown.
  - rewrite Hne. destruct (Js.array_index k).
    + now rewrite own_insert_index, String.eqb_refl.
    + now rewrite own_app, String.eqb_refl.
Qed.

Lemma get_own (d : dict) (k : string) (v : value) : Js.own d k = Some v -> Js.get d k = v.
Proof. intros H. unfold Js.get. now rewrite H. Qed.


End JsFacts.

(** ** Variables, further *)

Lemma resolveDefinitions_succeeds (provided : dict) (definitions : list TemplateVariable) :
  forall resolved : dict,
    find (unresolved provided) definitions = None ->
    exists r, resolveDefinitions definitions provided resolved = Ok r.
Proof.
  induction definitions as [|d rest IH]; simpl; intros resolved Hfind.
  - now exists resolved.
  - unfold unresolved in Hfind.
    destruct (Js.defined (Js.get provided (v_name d))); simpl in Hfind; [now apply IH|].
    destruct (Js.defined (valueOf (v_default d))); simpl in Hfind; [now apply IH|].
    destruct (isTrue (v_required d)); [discriminate|now apply IH].
Qed.

(** X9.  Variable resolution has one way to fail: it returns the
    resolved variables exactly when no declared variable is required,
    without default and without a provided value. *)
Theorem resolveVariables_succeeds_iff :
  forall (definitions : list TemplateVariable) (provided : dict),
    (exists resolved, resolveVariables definitions provided = Ok resolved)
    <-> find (unresolved provided) definitions = None.
Proof.
  intros definitions provided. split.
  - intros [resolved Hres].
    destruct (find (unresolved provided) definitions) as [first|] eqn:Hfind;
      [|reflexivity].
    rewrite (resolveVariables_throws _ _ _ Hfind) in Hres. discriminate.
  - intros Hfind. unfold resolveVariables.
    destruct (resolveDefinitions_succeeds provided definitions [] Hfind) as [r Hr].
    rewrite Hr. eexists. reflexivity.
Qed.

(** The first loop leaves alone the names that are not declared. *)
Lemma resolveDefinitions_undeclared (provided : dict) (k : string)
    (definitions : list TemplateVariable) :
  forall resolved r : dict,
    resolveDefinitions definitions provided resolved = Ok r ->
    ~ In k (List.map v_name definitions) ->
    Js.own r k = Js.own resolved k.
Proof.
  induction definitions as [|d rest IH]; simpl; intros resolved r Hres Hout.
  - now inversion Hres.
  - assert (Hne : v_name d <> k) by tauto.
    assert (Hrest : ~ In k (List.map v_name rest)) by tauto.
    destruct (Js.defined (Js.get provided (v_name d))).
    { rewrite (IH _ _ Hres Hrest). now apply JsFacts.own_set_other. }
    destruct (Js.defined (valueOf (v_default d))).
    { rewrite (IH _ _ Hres Hrest). now apply JsFacts.own_set_other. }
    destruct (isTrue (v_required d)); [discriminate|].
    now apply (IH _ _ Hres Hrest).
Qed.



(** The second loop stores nothing under a name that reads as defined. *)
Lemma addExtra_defined_stays (k : string) (entries : list (string * value)) :
  forall resolved : dict,
    Js.defined (Js.get resolved k) = true ->
    Js.own (fold_left addExtra entries resolved) k = Js.own resolved k.
Proof.
  induction entries as [|[k0 v0] rest IH]; simpl; intros resolved Hdef.
  - reflexivity.
  - destruct (String.eqb k0 k) eqn:Hk.
    + apply String.eqb_eq in Hk. subst k0. rewrite Hdef. now apply IH.
    + apply String.eqb_neq in Hk.
      destruct (Js.defined (Js.get resolved k0)); [now apply IH|].
      rewrite IH.
      * now apply JsFacts.own_set_other.
      * unfold Js.get in *. now rewrite JsFacts.own_set_other.
Qed.




(** X11.  A declared default is the value of a variable the caller does
    not provide: when the declared names are distinct, the resolved
    variables hold, under the name of a variable that has a default and
    no provided value, that default. *)
Theorem resolveVariables_default_fills :
  forall (definitions : list TemplateVariable) (provided resolved : dict)
         (def : TemplateVariable),
    resolveVariables definitions provided = Ok resolved ->
    NoDup (List.map v_name definitions) ->
    In def definitions ->
    Js.get provided (v_name def) = VUndef ->
    Js.defined (valueOf (v_default def)) = true ->
    v_name def <> "__proto__" ->
    Js.get resolved (v_name def) = valueOf (v_default def).
Proof.
  intros definitions provided resolved def Hres Hnd Hin Hundef Hdefault Hproto.
  unfold resolveVariables in Hres.
  destruct (resolveDefinitions definitions provided []) as [r1| | |] eqn:Hr1;
    try discriminate.
  rewrite bind_Ok in Hres. inversion Hres as [Hresolved]. clear Hres.
  assert (Hown : Js.own r1 (v_name def) = Some (valueOf (v_default def))).
  { revert Hnd Hin Hr1. generalize (@nil (string * value)).
    induction definitions as [|d rest IH]; simpl; intros acc Hnd Hin Hr1.
    - contradiction.
    - inversion Hnd as [|? ? Hfresh Hnd']; subst.
      destruct Hin as [->|Hin].
      + rewrite Hundef in Hr1. simpl in Hr1. rewrite Hdefault in Hr1.
        rewrite (resolveDefinitions_undeclared provided (v_name def) rest _ _ Hr1 Hfresh).
        now apply JsFacts.own_set_same.
      + destruct (Js.defined (Js.get provided (v_name d)));
          [exact (IH _ Hnd' Hin Hr1)|].
        destruct (Js.defined (valueOf (v_default d))); [exact (IH _ Hnd' Hin Hr1)|].
        destruct (isTrue (v_required d)); [discriminate|].
        exact (IH _ Hnd' Hin Hr1). }
  apply JsFacts.get_own.
  rewrite addExtra_defined_stays; [exact Hown|].
  now rewrite (JsFacts.get_own _ _ _ Hown).
Qed.

Lemma resolveVariables_default_fills_sample :
  resolveVariables Cases.greeting [("team", VStr "core")]
  = Ok [("name", VStr "world"); ("team", VStr "core")]
  /\ Js.get [("name", VStr "world"); ("team", VStr "core")] "name" = VStr "world".
Proof.
  split; [reflexivity|].
  apply (resolveVariables_default_fills Cases.greeting [("team", VStr "core")]
           [("name", VStr "world"); ("team", VStr "core")]
           (List.hd (Sample.required "name") Cases.greeting)).
  - reflexivity.
  - constructor; [simpl; intuition|constructor].
  - simpl. left. reflexivity.
  - reflexivity.
  - reflexivity.
  - discriminate.
Defined.



(** ** Conditions, further *)

(** X13.  The three negative operators are the negations of the three
    positive ones: on every variable, value and mapping, [not_equals],
    [not_contains] and [not_exists] hold exactly when [equals],
    [contains] and [exists] do not. *)
Theorem evaluateCondition_negations :
  forall (variable : string) (v : prop value) (variables : dict),
    evaluateCondition (conditionOn variable OpNotEquals v) variables
    = (holds <- evaluateCondition (conditionOn variable OpEquals v) variables ;;
       Ok (negb holds))
    /\ evaluateCondition (conditionOn variable OpNotContains v) variables
       = (holds <- evaluateCondition (conditionOn variable OpContains v) variables ;;
          Ok (negb holds))
    /\ evaluateCondition (conditionOn variable OpNotExists v) variables
       = (holds <- evaluateCondition (conditionOn variable OpExists v) variables ;;
          Ok (negb holds)).
Proof.
  intros variable v variables. unfold evaluateCondition, conditionOn.
  cbn [c_variable c_operator c_value]. repeat split.
  - destruct (Js.get variables variable); reflexivity.
  - rewrite bind_Ok. f_equal.
    rewrite !Bool.negb_andb, !Bool.negb_involutive. reflexivity.
Qed.

(** X14.  The two comparisons hold of numbers only and exclude each
    other and [equals]: when [greater_than] holds, or when [less_than]
    holds, the variable is a number, the other comparison does not hold
    and [equals] does not hold. *)
Theorem evaluateCondition_comparisons :
  forall (variable : string) (v : prop value) (variables : dict),
    (evaluateCondition (conditionOn variable OpGreaterThan v) variables = Ok true ->
     (exists z, Js.get variables variable = VNum z)
     /\ evaluateCondition (conditionOn variable OpLessThan v) variables = Ok false
     /\ evaluateCondition (conditionOn variable OpEquals v) variables = Ok false)
    /\ (evaluateCondition (conditionOn variable OpLessThan v) variables = Ok true ->
        (exists z, Js.get variables variable = VNum z)
        /\ evaluateCondition (conditionOn variable OpGreaterThan v) variables = Ok false
        /\ evaluateCondition (conditionOn variable OpEquals v) variables = Ok false).
Proof.
  intros variable v variables. unfold evaluateCondition, conditionOn.
  cbn [c_variable c_operator c_value].
  split; intros Hholds;
    destruct (Js.get variables variable) as [| |b|z|s|items|d|f]; try discriminate;
    (split; [now exists z|]);
    destruct (valueOf v) as [| |b|y|s|items|d|f] eqn:Hv; simpl in *;
    try discriminate;
    try (destruct b; simpl in *);
    try (destruct (Num.of_string _); try discriminate);
    inversion Hholds as [Hlt]; rewrite ?Hlt;
    apply Z.ltb_lt in Hlt; split; try reflexivity; f_equal;
    try (apply Z.ltb_ge; lia); try (apply Z.eqb_neq; lia).
Qed.

Lemma evaluateCondition_comparisons_sample :
  (exists z, Js.get [("count", VNum 5)] "count" = VNum z)
  /\ evaluateCondition (conditionOn "count" OpLessThan (Has (VNum 3))) [("count", VNum 5)]
     = Ok false
  /\ evaluateCondition (conditionOn "count" OpEquals (Has (VNum 3))) [("count", VNum 5)]
     = Ok false.
Proof.
  apply (proj1 (evaluateCondition_comparisons "count" (Has (VNum 3)) [("count", VNum 5)])).
  reflexivity.
Defined.

(** ** Sections, further *)

Lemma compileVisible_shape (e : TemplateEngine) (now : Date) (variables : dict)
    (section : TemplateSection) (c : CompiledSection) :
  compileVisible e now variables section = Ok c ->
  cs_id c = s_id section /\ cs_aiGenerated c = Absent
  /\ match s_sections section with
     | Has nested =>
         exists cs,
           compileSections e now nested variables = Ok cs /\ cs_sections c = Has cs
     | _ => cs_sections c = Absent
     end.
Proof.
  unfold compileVisible.
  destruct (interpolate e now (s_title section) variables) as [title| | |];
    try discriminate.
  destruct (interpolate e now (s_content section) variables) as [content| | |];
    try discriminate.
  rewrite !bind_Ok.
  destruct (s_sections section) as [| |nested].
  - rewrite bind_Ok. intros H. inversion H. now repeat split.
  - rewrite bind_Ok. intros H. inversion H. now repeat split.
  - destruct (compileSections e now nested variables) as [cs| | |]; try discriminate.
    rewrite !bind_Ok. intros H. inversion H. cbn [cs_id cs_aiGenerated cs_sections].
    split; [reflexivity|]. split; [reflexivity|]. now exists cs.
Qed.

(** X15.  [compileSections] neither reorders nor repeats: the compiled
    sections are, in the order of the list, those of the sections whose
    condition holds or that have none, each under the id of its section
    and never marked as generated; a compiled section has nested sections
    exactly when its section has a list of them, and they are that list
    compiled. *)
Theorem compileSections_keeps_shown :
  forall (e : TemplateEngine) (now : Date) (sections : list TemplateSection)
         (variables : dict) (compiled : list CompiledSection),
    compileSections e now sections variables = Ok compiled ->
    exists kept : list TemplateSection,
      shownSections variables sections = Ok kept
      /\ Forall2 (fun section c =>
                    cs_id c = s_id section /\ cs_aiGenerated c = Absent
                    /\ match s_sections section with
                       | Has nested =>
                           exists cs,
                             compileSections e now nested variables = Ok cs
                             /\ cs_sections c = Has cs
                       | _ => cs_sections c = Absent
                       end) kept compiled.
Proof.
  intros e now sections variables.
  induction sections as [|section rest IH]; simpl; intros compiled Hres.
  - inversion Hres. exists []. split; [reflexivity|constructor].
  - rewrite compileSection_eq in Hres. unfold shown.
    destruct (s_condition section) as [| |condition];
      try (rewrite bind_Ok in Hres; cbn iota in Hres;
           destruct (compileVisible e now variables section) as [c| | |] eqn:Hc;
           try discriminate; rewrite !bind_Ok in Hres;
           destruct (compileSections e now rest variables) as [tl| | |];
           try discriminate; rewrite bind_Ok in Hres; inversion Hres; subst compiled;
           destruct (IH tl eq_refl) as [kept [Hkept Hall]];
           exists (section :: kept); rewrite bind_Ok, Hkept; split; [reflexivity|];
           constructor; [now apply (compileVisible_shape e now)|exact Hall]).
    destruct (evaluateCondition condition variables) as [holds| | |]; try discriminate.
    rewrite !bind_Ok in *. destruct holds; cbn [negb] in Hres; cbn iota in Hres.
    + destruct (compileVisible e now variables section) as [c| | |] eqn:Hc;
        try discriminate.
      rewrite !bind_Ok in Hres.
      destruct (compileSections e now rest variables) as [tl| | |]; try discriminate.
      rewrite bind_Ok in Hres. inversion Hres. subst compiled.
      destruct (IH tl eq_refl) as [kept [Hkept Hall]].
      exists (section :: kept). rewrite Hkept. split; [reflexivity|].
      constructor; [now apply (compileVisible_shape e now)|exact Hall].
    + rewrite bind_Ok in Hres.
      destruct (compileSections e now rest variables) as [tl| | |]; try discriminate.
      rewrite bind_Ok in Hres. inversion Hres. subst compiled.
      destruct (IH tl eq_refl) as [kept [Hkept Hall]].
      exists kept. rewrite Hkept. split; [reflexivity|exact Hall].
Qed.

Lemma compileSections_keeps_shown_sample :
  exists kept : list TemplateSection,
    shownSections [("authProvider", VStr "oauth")]
      [Sample.guarded; Sample.section "intro" "Hello"] = Ok kept
    /\ Forall2 (fun section c =>
                  cs_id c = s_id section /\ cs_aiGenerated c = Absent
                  /\ match s_sections section with
                     | Has nested =>
                         exists cs,
                           compileSections createTemplateEngine Sample.morning nested
                             [("authProvider", VStr "oauth")] = Ok cs
                           /\ cs_sections c = Has cs
                     | _ => cs_sections c = Absent
                     end) kept [Sample.leaf "intro" "Hello"].
Proof.
  apply (compileSections_keeps_shown createTemplateEngine Sample.morning
           [Sample.guarded; Sample.section "intro" "Hello"]
           [("authProvider", VStr "oauth")] [Sample.leaf "intro" "Hello"]).
  reflexivity.
Defined.

(** ** Interpolation, further *)

Lemma blockOf_unfold (kw v body post : string) :
  blockOf kw v body ++ post
  = reference ("#" ++ kw ++ " " ++ v) ++ body ++ reference ("/" ++ kw) ++ post.
Proof.
  unfold blockOf, reference. repeat rewrite append_assoc. reflexivity.
Qed.

Lemma ifElseBlock_unfold (v yes no post : string) :
  ifElseBlock v yes no ++ post
  = reference ("#if " ++ v) ++ yes ++ reference "else" ++ no ++ reference "/if" ++ post.
Proof.
  unfold ifElseBlock, reference. repeat rewrite append_assoc. reflexivity.
Qed.

Lemma openTag_tag (kw v t : string) :
  word v = true ->
  Re.openTag kw (reference ("#" ++ kw ++ " " ++ v) ++ t) = Some (v, t).
Proof.
  intros Hv.
  pose proof (word_nonempty v Hv) as Hne. pose proof (word_chars v Hv) as Hchars.
  unfold Re.openTag, reference. repeat rewrite append_assoc.
  change ("{{" ++ "#" ++ kw ++ " " ++ v ++ "}}" ++ t)
    with (("{{#" ++ kw) ++ " " ++ v ++ "}}" ++ t).
  rewrite strip_prefix_append. cbn [Re.and_then].
  rewrite (span_append Str.is_space " " _ eq_refl).
  2:{ destruct v as [|c v]; [contradiction|]. cbn [append headFails].
      simpl in Hchars. apply Bool.andb_true_iff in Hchars.
      now apply word_not_space. }
  cbn [String.eqb Ascii.eqb Bool.eqb].
  rewrite (span_append Str.is_word v ("}}" ++ t) Hchars eq_refl).
  destruct (String.eqb v "") eqn:Hempty; [apply String.eqb_eq in Hempty; contradiction|].
  now rewrite strip_prefix_append.
Qed.

Section FindNone.

Variable literal : string.

Hypothesis needs_two :
  forall s, Str.starts_with "{{" s = false -> Str.strip_prefix literal s = None.

Lemma find_first_none_prefix (pre s : string) :
  plain pre = true ->
  Str.find_first literal s = None -> Str.find_first literal (pre ++ s) = None.
Proof.
  unfold plain. induction pre as [|c pre IH]; intros Hpre Hnone; [exact Hnone|].
  simpl in Hpre. apply Bool.andb_true_iff in Hpre. destruct Hpre as [Hc Hpre].
  cbn [append Str.find_first]. rewrite (IH Hpre Hnone).
  rewrite needs_two; [reflexivity|].
  apply not_two_braces. simpl. now apply Bool.negb_true_iff.
Qed.

Lemma find_first_none_plain (t : string) :
  plain t = true -> Str.find_first literal t = None.
Proof.
  intros Ht. rewrite <- (append_empty_r t).
  apply find_first_none_prefix; [exact Ht|].
  simpl. now rewrite needs_two.
Qed.

Lemma find_first_none_token (y s : string) :
  braceless y = true ->
  Str.strip_prefix literal (reference y ++ s) = None ->
  Str.find_first literal s = None ->
  Str.find_first literal (reference y ++ s) = None.
Proof.
  intros Hy Hmiss Hnone.
  rewrite reference_unfold in *.
  cbn [Str.find_first]. rewrite Hmiss.
  rewrite (needs_two _ (second_brace_alone y s Hy)).
  rewrite <- append_assoc.
  now rewrite (find_first_none_prefix _ s (inner_then_close_plain y Hy) Hnone).
Qed.

End FindNone.

Lemma find_first_closing (closing body t : string) :
  plain body = true ->
  Str.find_first (reference closing) (body ++ reference closing ++ t) = Some (body, t).
Proof.
  intros Hbody.
  rewrite <- (append_empty_r body) at 2.
  apply (find_first_plain_prefix (reference closing)
           (strip_reference_needs_two closing)); [exact Hbody|].
  apply find_first_hit.
Qed.

Lemma blockPattern_block (kw v body post : string) :
  word v = true -> plain body = true ->
  Re.blockPattern kw (blockOf kw v body ++ post) = Some ((v, body), post).
Proof.
  intros Hv Hbody. rewrite blockOf_unfold. unfold Re.blockPattern.
  rewrite (openTag_tag kw v _ Hv). cbn [Re.and_then].
  change ("{{/" ++ kw ++ "}}") with (reference ("/" ++ kw)).
  now rewrite (find_first_closing ("/" ++ kw) body post Hbody).
Qed.

Lemma ifElsePattern_block (v yes no post : string) :
  word v = true -> plain yes = true -> plain no = true ->
  Re.ifElsePattern (ifElseBlock v yes no ++ post) = Some ((v, yes, no), post).
Proof.
  intros Hv Hyes Hno. rewrite ifElseBlock_unfold. unfold Re.ifElsePattern.
  rewrite (openTag_tag "if" v _ Hv). cbn [Re.and_then].
  change "{{else}}" with (reference "else").
  rewrite (find_first_closing "else" yes _ Hyes). cbn [Re.and_then].
  change "{{/if}}" with (reference "/if").
  now rewrite (find_first_closing "/if" no post Hno).
Qed.

(** An [if] block without [else] is no match for the pattern with
    [else]. *)
Lemma ifElsePattern_without_else (v body post : string) :
  word v = true -> plain body = true -> plain post = true ->
  Re.ifElsePattern (blockOf "if" v body ++ post) = None.
Proof.
  intros Hv Hbody Hpost. rewrite blockOf_unfold. unfold Re.ifElsePattern.
  rewrite (openTag_tag "if" v _ Hv). cbn [Re.and_then].
  change "{{else}}" with (reference "else").
  rewrite (find_first_none_prefix (reference "else") (strip_reference_needs_two "else")
             body _ Hbody); [reflexivity|].
  apply (find_first_none_token (reference "else") (strip_reference_needs_two "else"));
    [reflexivity| |].
  - rewrite reference_unfold. reflexivity.
  - now apply (find_first_none_plain (reference "else") (strip_reference_needs_two "else")).
Qed.

Lemma openTag_unless_if_tag (v rest : string) :
  Re.openTag "unless" (reference ("#if " ++ v) ++ rest) = None.
Proof. rewrite reference_unfold. reflexivity. Qed.

Lemma openTag_if_unless_tag (v rest : string) :
  Re.openTag "if" (reference ("#unless " ++ v) ++ rest) = None.
Proof. rewrite reference_unfold. reflexivity. Qed.

Lemma tag_braceless (kw v : string) :
  braceless kw = true -> word v = true -> braceless ("#" ++ kw ++ " " ++ v) = true.
Proof.
  intros Hkw Hv.
  change ("#" ++ kw ++ " " ++ v) with (String "#" (kw ++ String " " v)).
  unfold braceless in *. cbn [Str.forallb]. rewrite forallb_append. cbn [Str.forallb].
  rewrite Hkw. apply word_chars, word_braceless in Hv. unfold braceless in Hv.
  now rewrite Hv.
Qed.

Lemma closing_tag_no_hash (kw post : string) :
  Str.starts_with "{{#" (reference ("/" ++ kw) ++ post) = false.
Proof. rewrite reference_unfold. reflexivity. Qed.

(** A replacement whose pattern misses a block passes over it. *)
Lemma block_skipped {A : Type} (pattern : string -> option (A * string))
    (callback : string -> A -> outcome string) (kw v body pre post : string) :
  (forall t, Str.starts_with "{{#" t = false -> pattern t = None) ->
  pattern (blockOf kw v body ++ post) = None ->
  braceless kw = true -> word v = true ->
  plain pre = true -> plain body = true -> plain post = true ->
  Re.replace pattern callback 0 (pre ++ blockOf kw v body ++ post)
  = Ok (pre ++ blockOf kw v body ++ post).
Proof.
  intros Hhash Hmiss Hkw Hv Hpre Hbody Hpost.
  assert (Htwo : forall t, Str.starts_with "{{" t = false -> pattern t = None).
  { intros t Ht. now apply Hhash, hash_needs_two. }
  rewrite (replace_plain_prefix _ _ (needs_one pattern Htwo)) by assumption.
  rewrite blockOf_unfold in *.
  rewrite (replace_token_miss pattern callback Htwo _ _ (tag_braceless kw v Hkw Hv) Hmiss).
  rewrite (replace_plain_prefix _ _ (needs_one pattern Htwo)) by assumption.
  rewrite (replace_token_miss pattern callback Htwo ("/" ++ kw) post).
  - rewrite (replace_plain _ _ (needs_one pattern Htwo)) by assumption. reflexivity.
  - exact Hkw.
  - apply Hhash, closing_tag_no_hash.
Qed.

(** A replacement whose pattern matches a text between two plain texts
    replaces it by what the callback returns. *)
Lemma match_replaced {A : Type} (pattern : string -> option (A * string))
    (callback : string -> A -> outcome string) (x pre post : string) (groups : A) :
  (forall t, headFails Str.is_lbrace t -> pattern t = None) ->
  x <> "" -> pattern (x ++ post) = Some (groups, post) ->
  plain pre = true -> plain post = true ->
  Re.replace pattern callback 0 (pre ++ x ++ post)
  = (r <- callback x groups ;; Ok (pre ++ r ++ post)).
Proof.
  intros Hbrace Hx Hhit Hpre Hpost.
  rewrite (replace_plain_prefix _ _ Hbrace) by assumption.
  rewrite (replace_hit _ _ x post groups Hx Hhit).
  rewrite (replace_plain _ _ Hbrace) by assumption.
  destruct (callback x groups); reflexivity.
Qed.

Lemma tag_not_a_name (kw v rest : string) :
  Re.plainPattern (reference ("#" ++ kw ++ " " ++ v) ++ rest) = None.
Proof. now apply plainPattern_not_a_name. Qed.

Lemma closing_not_a_name (kw rest : string) :
  Re.plainPattern (reference ("/" ++ kw) ++ rest) = None.
Proof. now apply plainPattern_not_a_name. Qed.

(** The first pass leaves a block with a plain body as it stands. *)
Lemma substitution_pass_plain_block (variables : dict) (kw v body pre post : string) :
  braceless kw = true -> word v = true ->
  plain pre = true -> plain body = true -> plain post = true ->
  Re.replace Re.plainPattern (substituteVariable variables) 0
    (pre ++ blockOf kw v body ++ post)
  = Ok (pre ++ blockOf kw v body ++ post).
Proof.
  intros Hkw Hv Hpre Hbody Hpost.
  rewrite (replace_plain_prefix _ _ plainPattern_needs_brace) by assumption.
  rewrite blockOf_unfold.
  rewrite (replace_token_miss _ _ plainPattern_needs_two _ _ (tag_braceless kw v Hkw Hv)
             (tag_not_a_name kw v _)).
  rewrite (replace_plain_prefix _ _ plainPattern_needs_brace) by assumption.
  rewrite (replace_token_miss _ _ plainPattern_needs_two ("/" ++ kw) post Hkw
             (closing_not_a_name kw post)).
  rewrite (replace_plain _ _ plainPattern_needs_brace) by assumption. reflexivity.
Qed.

(** The last two passes leave a plain text as it stands. *)
Lemma last_passes_on_plain (e : TemplateEngine) (now : Date) (variables : dict)
    (text : string) :
  plain text = true ->
  (r3 <- processLoopBlocks text variables ;;
   processHelperCalls e now r3 variables) = Ok text.
Proof.
  intros Hplain.
  rewrite loop_pass_without_block by now apply includes_plain.
  cbn [bind]. unfold processHelperCalls.
  now apply (replace_plain _ _ helperPattern_needs_brace).
Qed.

Lemma blockOf_nonempty (kw v body : string) : blockOf kw v body <> "".
Proof. discriminate. Qed.

Lemma branch_plain (pre post a b : string) (c : bool) :
  plain pre = true -> plain post = true -> plain a = true -> plain b = true ->
  plain (pre ++ (if c then a else b) ++ post) = true.
Proof.
  intros Hpre Hpost Ha Hb. rewrite !plain_append, Hpre, Hpost.
  destruct c; [rewrite Ha|rewrite Hb]; reflexivity.
Qed.

(** X16.  An [if] block and an [unless] block over the same variable
    are complementary: with a body without braces, the first leaves its
    body when the variable is neither [undefined], [null], [false] nor
    the empty string and nothing otherwise, the second the other way
    round; zero and an empty array count as true. *)
Theorem interpolate_if_unless :
  forall (e : TemplateEngine) (now : Date) (variables : dict)
         (pre v body post : string),
    plain pre = true -> word v = true -> plain body = true -> plain post = true ->
    interpolate e now (pre ++ blockOf "if" v body ++ post) variables
    = Ok (pre ++ (if isTruthy (Js.get variables v) then body else "") ++ post)
    /\ interpolate e now (pre ++ blockOf "unless" v body ++ post) variables
       = Ok (pre ++ (if isTruthy (Js.get variables v) then "" else body) ++ post).
Proof.
  intros e now variables pre v body post Hpre Hv Hbody Hpost.
  unfold interpolate. split.
  - rewrite (substitution_pass_plain_block variables "if" v body pre post eq_refl)
      by assumption.
    cbn [bind]. unfold processConditionalBlocks.
    rewrite (block_skipped Re.ifElsePattern _ "if" v body pre post ifElsePattern_needs_hash
               (ifElsePattern_without_else v body post Hv Hbody Hpost) eq_refl)
      by assumption.
    cbn [bind].
    rewrite (match_replaced Re.ifPattern _ (blockOf "if" v body) pre post (v, body)
               (blockPattern_needs_brace "if") (blockOf_nonempty "if" v body)
               (blockPattern_block "if" v body post Hv Hbody)) by assumption.
    cbn [bind].
    assert (Hplain : plain (pre ++ (if isTruthy (Js.get variables v) then body else "")
                            ++ post) = true)
      by now apply branch_plain.
    rewrite (replace_plain _ _ (blockPattern_needs_brace "unless") _ Hplain).
    cbn [bind]. now apply last_passes_on_plain.
  - rewrite (substitution_pass_plain_block variables "unless" v body pre post eq_refl)
      by assumption.
    cbn [bind]. unfold processConditionalBlocks.
    rewrite (block_skipped Re.ifElsePattern _ "unless" v body pre post
               ifElsePattern_needs_hash) by
      (try assumption; try reflexivity;
       rewrite blockOf_unfold; unfold Re.ifElsePattern;
       now rewrite openTag_if_unless_tag).
    cbn [bind].
    rewrite (block_skipped Re.ifPattern _ "unless" v body pre post
               (blockPattern_needs_hash "if")) by
      (try assumption; try reflexivity;
       rewrite blockOf_unfold; unfold Re.ifPattern, Re.blockPattern;
       now rewrite openTag_if_unless_tag).
    cbn [bind].
    rewrite (match_replaced Re.unlessPattern _ (blockOf "unless" v body) pre post (v, body)
               (blockPattern_needs_brace "unless") (blockOf_nonempty "unless" v body)
               (blockPattern_block "unless" v body post Hv Hbody)) by assumption.
    cbn [bind].
    assert (Hplain : plain (pre ++ (if negb (isTruthy (Js.get variables v))
                                    then body else "") ++ post) = true)
      by now apply branch_plain.
    rewrite (last_passes_on_plain e now variables _ Hplain).
    now destruct (isTruthy (Js.get variables v)).
Qed.

(** The first pass leaves an [if] block with its [else] branch as it
    stands, as long as [else] is not the name of a variable. *)
Lemma substitution_pass_ifElse (variables : dict) (v yes no pre post : string) :
  word v = true -> Js.get variables "else" = VUndef ->
  plain pre = true -> plain yes = true -> plain no = true -> plain post = true ->
  Re.replace Re.plainPattern (substituteVariable variables) 0
    (pre ++ ifElseBlock v yes no ++ post)
  = Ok (pre ++ ifElseBlock v yes no ++ post).
Proof.
  intros Hv Helse Hpre Hyes Hno Hpost.
  rewrite (replace_plain_prefix _ _ plainPattern_needs_brace) by assumption.
  rewrite ifElseBlock_unfold.
  rewrite (replace_token_miss _ _ plainPattern_needs_two _ _
             (tag_braceless "if" v eq_refl Hv) (tag_not_a_name "if" v _)).
  rewrite (replace_plain_prefix _ _ plainPattern_needs_brace) by assumption.
  rewrite (replace_hit _ _ (reference "else") _ "else" (reference_nonempty "else")
             (plainPattern_reference "else" _ eq_refl)).
  unfold substituteVariable at 1. rewrite Helse. cbn [Js.defined bind].
  rewrite (replace_plain_prefix _ _ plainPattern_needs_brace) by assumption.
  rewrite (replace_token_miss _ _ plainPattern_needs_two "/if" post eq_refl
             (closing_not_a_name "if" post)).
  rewrite (replace_plain _ _ plainPattern_needs_brace) by assumption. reflexivity.
Qed.

Lemma ifElseBlock_nonempty (v yes no : string) : ifElseBlock v yes no <> "".
Proof. discriminate. Qed.

(** X17.  An [if] block with an [else] branch leaves one of its two
    branches: with branches without braces, and [else] not the name of a
    variable, the first branch when the variable is neither [undefined],
    [null], [false] nor the empty string, the second otherwise. *)
Theorem interpolate_if_else :
  forall (e : TemplateEngine) (now : Date) (variables : dict)
         (pre v yes no post : string),
    plain pre = true -> word v = true ->
    plain yes = true -> plain no = true -> plain post = true ->
    Js.get variables "else" = VUndef ->
    interpolate e now (pre ++ ifElseBlock v yes no ++ post) variables
    = Ok (pre ++ (if isTruthy (Js.get variables v) then yes else no) ++ post).
Proof.
  intros e now variables pre v yes no post Hpre Hv Hyes Hno Hpost Helse.
  unfold interpolate.
  rewrite (substitution_pass_ifElse variables v yes no pre post) by assumption.
  cbn [bind]. unfold processConditionalBlocks.
  rewrite (match_replaced Re.ifElsePattern _ (ifElseBlock v yes no) pre post (v, yes, no)
             ifElsePattern_needs_brace (ifElseBlock_nonempty v yes no)
             (ifElsePattern_block v yes no post Hv Hyes Hno)) by assumption.
  cbn [bind].
  assert (Hplain : plain (pre ++ (if isTruthy (Js.get variables v) then yes else no)
                          ++ post) = true)
    by now apply branch_plain.
  rewrite (replace_plain _ _ (blockPattern_needs_brace "if") _ Hplain).
  cbn [bind].
  rewrite (replace_plain _ _ (blockPattern_needs_brace "unless") _ Hplain).
  cbn [bind]. now apply last_passes_on_plain.
Qed.

Lemma interpolate_if_else_sample :
  interpolate createTemplateEngine Sample.morning
    ("Auth: " ++ ifElseBlock "sso" "single sign-on" "password" ++ ".")
    [("sso", VNum 0)]
  = Ok "Auth: single sign-on.".
Proof.
  apply (interpolate_if_else createTemplateEngine Sample.morning [("sso", VNum 0)]
           "Auth: " "sso" "single sign-on" "password" "."); reflexivity.
Defined.

Lemma interpolate_if_unless_sample :
  interpolate createTemplateEngine Sample.morning
    ("Auth" ++ blockOf "if" "sso" ": single sign-on" ++ ".") [("sso", VBool false)]
  = Ok "Auth."
  /\ interpolate createTemplateEngine Sample.morning
       ("Auth" ++ blockOf "unless" "sso" ": single sign-on" ++ ".") [("sso", VBool false)]
     = Ok "Auth: single sign-on.".
Proof.
  apply (interpolate_if_unless createTemplateEngine Sample.morning [("sso", VBool false)]
           "Auth" "sso" ": single sign-on" "."); reflexivity.
Defined.

(** X18.  An [each] block over a variable that is not an array leaves
    nothing: the block is removed, whatever its body. *)
Theorem interpolate_each_without_array :
  forall (e : TemplateEngine) (now : Date) (variables : dict)
         (pre v post : string) (body : list chunk),
    plain pre = true -> word v = true -> plain post = true ->
    Forall (loopPiece e variables) body ->
    (forall items, Js.get variables v <> VArr items) ->
    interpolate e now (pre ++ eachBlock v body ++ post) variables = Ok (pre ++ post).
Proof.
  intros e now variables pre v post body Hpre Hv Hpost Hbody Hnone.
  unfold interpolate.
  rewrite (substitution_pass_block e variables pre v post body) by assumption.
  cbn [bind].
  rewrite (conditional_pass_block e variables pre v post body) by assumption.
  cbn [bind]. unfold processLoopBlocks.
  rewrite (match_replaced Re.eachPattern _ (eachBlock v body) pre post (v, show body)
             (blockPattern_needs_brace "each") (eachBlock_nonempty v body)
             (eachPattern_block e variables v post body Hv Hbody)) by assumption.
  assert (Hgone : match Js.get variables v with
                  | VArr items =>
                      rs <- renderItems (List.length items) (show body) 0 items ;;
                      Ok (Str.concat rs)
                  | _ => Ok ""
                  end = Ok "").
  { destruct (Js.get variables v) as [| | | | |items| |]; try reflexivity.
    now destruct (Hnone items). }
  rewrite Hgone. cbn [bind append]. unfold processHelperCalls.
  apply (replace_plain _ _ helperPattern_needs_brace).
  now rewrite plain_append, Hpre, Hpost.
Qed.

Lemma interpolate_each_without_array_sample :
  interpolate createTemplateEngine Sample.morning
    ("Team: " ++ eachBlock "people" Sample.rollBody ++ ".") [("people", VStr "Ada")]
  = Ok ("Team: " ++ ".").
Proof.
  apply (interpolate_each_without_array createTemplateEngine Sample.morning
           [("people", VStr "Ada")] "Team: " "people" "." Sample.rollBody).
  - reflexivity.
  - reflexivity.
  - reflexivity.
  - constructor; [left; reflexivity|].
    constructor; [reflexivity|].
    constructor; [right; right; right; split; [reflexivity|split; [reflexivity|]];
                  right; reflexivity|].
    constructor; [reflexivity|constructor].
  - intros items. discriminate.
Defined.

(** ** Helper calls *)

Lemma helperCall_unfold (name args t : string) :
  helperCall name args ++ t = reference (name ++ " " ++ args) ++ t.
Proof. unfold helperCall, reference. repeat rewrite append_assoc. reflexivity. Qed.

Lemma helperPattern_call (name args t : string) :
  word name = true -> args <> "" ->
  Str.forallb (fun c => negb (Str.is_rbrace c)) args = true ->
  headFails Str.is_space args ->
  Re.helperPattern (helperCall name args ++ t) = Some ((name, Some args), t).
Proof.
  intros Hname Hargs Hclosed Hhead.
  unfold Re.helperPattern, helperCall. repeat rewrite append_assoc.
  rewrite strip_prefix_append. cbn [Re.and_then].
  rewrite (span_append Str.is_word name (" " ++ args ++ "}}" ++ t)
             (word_chars name Hname) eq_refl).
  destruct (String.eqb name "") eqn:Hempty.
  { apply String.eqb_eq in Hempty. now apply word_nonempty in Hname. }
  rewrite (span_append Str.is_space " " (args ++ "}}" ++ t) eq_refl).
  2:{ destruct args as [|c args]; [contradiction|exact Hhead]. }
  rewrite (span_append (fun c => negb (Str.is_rbrace c)) args ("}}" ++ t) Hclosed eq_refl).
  destruct (String.eqb args "") eqn:Hnone.
  { apply String.eqb_eq in Hnone. contradiction. }
  now rewrite strip_prefix_append.
Qed.

Lemma plainPattern_call (name args t : string) :
  word name = true -> Re.plainPattern (helperCall name args ++ t) = None.
Proof.
  intros Hname.
  unfold Re.plainPattern, helperCall. repeat rewrite append_assoc.
  rewrite strip_prefix_append. cbn [Re.and_then].
  rewrite (span_append Str.is_word name (" " ++ args ++ "}}" ++ t)
             (word_chars name Hname) eq_refl).
  destruct (String.eqb name ""); reflexivity.
Qed.

Lemma call_braceless (name args : string) :
  word name = true -> braceless args = true -> braceless (name ++ " " ++ args) = true.
Proof.
  intros Hname Hargs. rewrite braceless_append.
  rewrite (word_braceless name (word_chars name Hname)).
  change (" " ++ args) with (String " " args).
  unfold braceless in *. cbn [Str.forallb]. now rewrite Hargs.
Qed.

(** A call opens no block. *)
Lemma call_opens_no_block (pre name args post : string) :
  plain pre = true -> word name = true -> braceless args = true -> plain post = true ->
  Builtin.includes "{{#" (pre ++ helperCall name args ++ post) = false.
Proof.
  intros Hpre Hname Hargs Hpost.
  rewrite includes_plain_prefix by assumption.
  pose proof (call_braceless name args Hname Hargs) as Hinner.
  rewrite helperCall_unfold, reference_unfold.
  rewrite 2 includes_cons.
  rewrite (includes_plain "{#").
  2:{ rewrite <- append_assoc, plain_append, Hpost.
      now rewrite (inner_then_close_plain _ Hinner). }
  rewrite (hash_needs_two _ (second_brace_alone _ _ Hinner)).
  pose proof (word_nonempty name Hname) as Hne.
  pose proof (word_chars name Hname) as Hchars.
  destruct name as [|c name]; [contradiction|].
  simpl in Hchars. apply Bool.andb_true_iff in Hchars. destruct Hchars as [Hc _].
  unfold Str.starts_with. cbn [append Str.strip_prefix].
  rewrite !Ascii.eqb_refl.
  rewrite (Ascii.eqb_sym "#"%char c), (word_not c "#"%char Hc eq_refl).
  reflexivity.
Qed.

(** The first three passes leave a call as it stands. *)
Lemma passes_before_call (variables : dict) (pre name args post : string) :
  plain pre = true -> word name = true -> braceless args = true -> plain post = true ->
  (r1 <- Re.replace Re.plainPattern (substituteVariable variables) 0
           (pre ++ helperCall name args ++ post) ;;
   r2 <- processConditionalBlocks r1 variables ;;
   processLoopBlocks r2 variables)
  = Ok (pre ++ helperCall name args ++ post).
Proof.
  intros Hpre Hname Hargs Hpost.
  rewrite (replace_plain_prefix _ _ plainPattern_needs_brace) by assumption.
  pose proof (plainPattern_call name args post Hname) as Hmiss.
  rewrite helperCall_unfold in Hmiss.
  rewrite (helperCall_unfold name args post).
  rewrite (replace_token_miss _ _ plainPattern_needs_two _ _
             (call_braceless name args Hname Hargs) Hmiss).
  rewrite (replace_plain _ _ plainPattern_needs_brace) by assumption.
  cbn [bind]. rewrite <- helperCall_unfold.
  rewrite conditional_pass_without_block by now apply call_opens_no_block.
  cbn [bind].
  now rewrite loop_pass_without_block by now apply call_opens_no_block.
Qed.

Lemma helperCall_nonempty (name args : string) : helperCall name args <> "".
Proof. discriminate. Qed.

Lemma braceless_closed (s : string) :
  braceless s = true -> Str.forallb (fun c => negb (Str.is_rbrace c)) s = true.
Proof. intros H. now apply braceless_chars in H. Qed.

(** What [interpolate] makes of a call between two plain texts. *)
Lemma interpolate_call (e : TemplateEngine) (now : Date) (variables : dict)
    (pre name args post : string) :
  plain pre = true -> word name = true -> plain post = true ->
  args <> "" -> braceless args = true -> headFails Str.is_space args ->
  interpolate e now (pre ++ helperCall name args ++ post) variables
  = (r <- callHelper e now variables (helperCall name args) (name, Some args) ;;
     Ok (pre ++ r ++ post)).
Proof.
  intros Hpre Hname Hpost Hne Hargs Hhead. unfold interpolate.
  pose proof (passes_before_call variables pre name args post Hpre Hname Hargs Hpost)
    as Hbefore.
  destruct (Re.replace Re.plainPattern (substituteVariable variables) 0
              (pre ++ helperCall name args ++ post)) as [r1| | |]; try discriminate.
  cbn [bind] in *.
  destruct (processConditionalBlocks r1 variables) as [r2| | |]; try discriminate.
  cbn [bind] in *. rewrite Hbefore. cbn [bind]. unfold processHelperCalls.
  apply (match_replaced Re.helperPattern _ (helperCall name args) pre post
           (name, Some args) helperPattern_needs_brace (helperCall_nonempty name args));
    try assumption.
  apply helperPattern_call; try assumption. now apply braceless_closed.
Qed.

(** X19.  A call of a helper that is not registered is left as it
    stands, whether or not its name or its arguments are names of
    variables. *)
Theorem interpolate_keeps_unknown_call :
  forall (e : TemplateEngine) (now : Date) (variables : dict)
         (pre name args post : string),
    plain pre = true -> word name = true -> plain post = true ->
    args <> "" -> braceless args = true -> headFails Str.is_space args ->
    SMap.get (helpers e) name = None ->
    interpolate e now (pre ++ helperCall name args ++ post) variables
    = Ok (pre ++ helperCall name args ++ post).
Proof.
  intros e now variables pre name args post Hpre Hname Hpost Hne Hargs Hhead Hnone.
  rewrite interpolate_call by assumption.
  unfold callHelper. now rewrite Hnone.
Qed.

Lemma interpolate_keeps_unknown_call_sample :
  interpolate createTemplateEngine Sample.morning
    ("By " ++ helperCall "author" "name" ++ ".")
    [("author", VStr "Ada"); ("name", VStr "Grace")]
  = Ok ("By " ++ helperCall "author" "name" ++ ".").
Proof.
  apply (interpolate_keeps_unknown_call createTemplateEngine Sample.morning
           [("author", VStr "Ada"); ("name", VStr "Grace")] "By " "author" "name" ".");
    try reflexivity.
  discriminate.
Defined.

Lemma rev_onto_rev_onto (s : string) :
  forall acc acc' : string,
    Str.rev_onto acc (Str.rev_onto acc' s) = Str.rev_onto (s ++ acc) acc'.
Proof.
  induction s as [|c s IH]; intros acc acc'; simpl; [reflexivity|].
  now rewrite IH.
Qed.

Lemma rev_involutive (s : string) : Str.rev (Str.rev s) = s.
Proof.
  unfold Str.rev. rewrite rev_onto_rev_onto. simpl. apply append_empty_r.
Qed.

Lemma split_ws_from_word (s : string) :
  Str.forallb (fun c => negb (Str.is_space c)) s = true ->
  forall (cur : string) (in_gap : bool),
    Str.split_ws_from cur in_gap s = [Str.rev (Str.rev_onto cur s)].
Proof.
  induction s as [|c s IH]; simpl; intros Hs cur in_gap.
  - unfold Str.rev at 1. reflexivity.
  - apply Bool.andb_true_iff in Hs. destruct Hs as [Hc Hs].
    apply Bool.negb_true_iff in Hc. rewrite Hc. now apply IH.
Qed.


Lemma split_ws_word (w : string) : word w = true -> Str.split_ws w = [w].
Proof.
  intros Hw. unfold Str.split_ws. rewrite split_ws_from_word.
  - fold (Str.rev w). now rewrite rev_involutive.
  - pose proof (word_chars w Hw) as Hchars. clear Hw.
    induction w as [|c w IH]; simpl in *; [reflexivity|].
    apply Bool.andb_true_iff in Hchars. destruct Hchars as [Hc Hchars].
    now rewrite (word_not_space c Hc), (IH Hchars).
Qed.

Lemma word_headFails_space (w : string) : word w = true -> headFails Str.is_space w.
Proof.
  intros Hw. pose proof (word_chars w Hw) as Hchars.
  destruct w as [|c w]; simpl in *; [exact I|].
  apply Bool.andb_true_iff in Hchars. now apply word_not_space.
Qed.

(** What [interpolate] makes of the call of a registered helper on a
    variable. *)
Lemma interpolate_call_on_variable (e : TemplateEngine) (now : Date) (variables : dict)
    (pre name v post : string) (helper : TemplateHelper) :
  plain pre = true -> word name = true -> word v = true -> plain post = true ->
  SMap.get (helpers e) name = Some helper ->
  Js.defined (Js.get variables v) = true ->
  interpolate e now (pre ++ helperCall name v ++ post) variables
  = (r <- helper now [Js.get variables v] variables ;;
     Ok (pre ++ Js.to_string r ++ post)).
Proof.
  intros Hpre Hname Hv Hpost Hhelper Hdef.
  rewrite interpolate_call; try assumption.
  - unfold callHelper. rewrite Hhelper, (split_ws_word v Hv).
    cbn [resolveArguments]. unfold resolveArgument. rewrite Hdef. cbn [bind].
    destruct (helper now [Js.get variables v] variables); reflexivity.
  - now apply word_nonempty.
  - now apply word_braceless, word_chars.
  - now apply word_headFails_space.
Qed.

(** X20.  A registered helper called on the name of a defined variable
    receives the value of the variable as its only argument, and the call
    is replaced by the text of what the helper returns; the name of the
    helper may be the name of a variable as well. *)
Theorem interpolate_calls_helper_on_variable :
  forall (e : TemplateEngine) (now : Date) (variables : dict)
         (pre name v post : string) (helper : TemplateHelper),
    plain pre = true -> word name = true -> word v = true -> plain post = true ->
    SMap.get (helpers e) name = Some helper ->
    Js.defined (Js.get variables v) = true ->
    interpolate e now (pre ++ helperCall name v ++ post) variables
    = (r <- helper now [Js.get variables v] variables ;;
       Ok (pre ++ Js.to_string r ++ post)).
Proof.
  intros e now variables pre name v post helper.
  apply interpolate_call_on_variable.
Qed.

Lemma interpolate_calls_helper_on_variable_sample :
  interpolate createTemplateEngine Sample.morning
    ("Hello " ++ helperCall "uppercase" "name" ++ "!") [("name", VStr "Ada")]
  = (r <- uppercaseHelper Sample.morning [Js.get [("name", VStr "Ada")] "name"]
            [("name", VStr "Ada")] ;;
     Ok ("Hello " ++ Js.to_string r ++ "!")).
Proof.
  apply (interpolate_calls_helper_on_variable createTemplateEngine Sample.morning
           [("name", VStr "Ada")] "Hello " "uppercase" "name" "!" uppercaseHelper);
    reflexivity.
Defined.

(** X21.  The [join] helper called on an array alone joins the texts of
    its elements with a comma and a space. *)
Theorem interpolate_join_default_separator :
  forall (e : TemplateEngine) (now : Date) (variables : dict)
         (pre v post : string) (items : list value),
    plain pre = true -> word v = true -> plain post = true ->
    SMap.get (helpers e) "join" = Some joinHelper ->
    Js.get variables v = VArr items ->
    interpolate e now (pre ++ helperCall "join" v ++ post) variables
    = Ok (pre ++ Js.array_join ", " items ++ post).
Proof.
  intros e now variables pre v post items Hpre Hv Hpost Hjoin Hget.
  rewrite (interpolate_call_on_variable e now variables pre "join" v post joinHelper);
    try assumption; try reflexivity.
  - rewrite Hget. reflexivity.
  - now rewrite Hget.
Qed.

Lemma interpolate_join_default_separator_sample :
  interpolate createTemplateEngine Sample.morning
    ("Built with " ++ helperCall "join" "techStack" ++ ".") Sample.techStack
  = Ok "Built with Go, Rust.".
Proof.
  apply (interpolate_join_default_separator createTemplateEngine Sample.morning
           Sample.techStack "Built with " "techStack" "." [VStr "Go"; VStr "Rust"]);
    reflexivity.
Defined.

(** X22.  A helper registered under a name takes the place of the helper
    that was registered under it, a default helper included, and of no
    other; the templates are untouched, and a reference to the name now
    calls the new helper. *)
Theorem registerHelper_replaces :
  forall (e : TemplateEngine) (name : string) (helper : TemplateHelper),
    SMap.get (helpers (registerHelper e name helper)) name = Some helper
    /\ (forall other, other <> name ->
          SMap.get (helpers (registerHelper e name helper)) other
          = SMap.get (helpers e) other)
    /\ templates (registerHelper e name helper) = templates e
    /\ forall (now : Date) (variables : dict) (pre post : string),
         plain pre = true -> word name = true -> plain post = true ->
         Js.get variables name = VUndef ->
         interpolate (registerHelper e name helper) now (pre ++ reference name ++ post)
           variables
         = (r <- helper now [] variables ;; Ok (pre ++ Js.to_string r ++ post)).
Proof.
  intros e name helper.
  assert (Hsame : SMap.get (helpers (registerHelper e name helper)) name = Some helper).
  { unfold registerHelper. cbn [helpers].
    now rewrite SMapFacts.get_set, String.eqb_refl. }
  split; [exact Hsame|]. split; [|split; [reflexivity|]].
  - intros other Hother. unfold registerHelper. cbn [helpers].
    rewrite SMapFacts.get_set.
    destruct (String.eqb name other) eqn:Heq; [|reflexivity].
    apply String.eqb_eq in Heq. congruence.
  - intros now variables pre post Hpre Hname Hpost Hundef. unfold interpolate.
    rewrite substitution_pass by assumption. rewrite Hundef. cbn [Js.defined bind].
    rewrite conditional_pass_without_block by now apply reference_opens_no_block.
    cbn [bind].
    rewrite loop_pass_without_block by now apply reference_opens_no_block.
    cbn [bind].
    rewrite helper_pass_reference by assumption.
    now rewrite Hsame.
Qed.


Lemma registerHelper_replaces_sample :
  interpolate (registerHelper createTemplateEngine "date" (fun _ _ _ => Ok (VStr "today")))
    Sample.morning ("Written " ++ reference "date" ++ ".") []
  = (r <- Ok (VStr "today") ;; Ok ("Written " ++ Js.to_string r ++ ".")).
Proof.
  apply (proj2 (proj2 (proj2 (registerHelper_replaces createTemplateEngine "date"
                                (fun _ _ _ => Ok (VStr "today"))))));
    reflexivity.
Defined.


(** ** The default helpers *)

Lemma rev_onto_append (s t : string) :
  forall acc : string, Str.rev_onto acc (s ++ t) = Str.rev_onto (Str.rev_onto acc s) t.
Proof. induction s as [|c s IH]; intros acc; simpl; [reflexivity|apply IH]. Qed.

Lemma rev_snoc (s : string) (c : ascii) :
  Str.rev (s ++ String c "") = String c (Str.rev s).
Proof. unfold Str.rev. now rewrite rev_onto_append. Qed.

Lemma snoc_cases (s : string) :
  s = "" \/ exists (init : string) (c : ascii), s = init ++ String c "".
Proof.
  induction s as [|c s IH]; [now left|right].
  destruct IH as [->|[init [d ->]]].
  - now exists "", c.
  - now exists (String c init), d.
Qed.

Lemma hyphen_not_slug_char : is_slug_char "-"%char = false.
Proof. reflexivity. Qed.

Lemma hyphenate_hyphenated (s : string) :
  forall in_run : bool, hyphenated in_run (hyphenate in_run s) = true.
Proof.
  induction s as [|c s IH]; intros in_run; simpl; [reflexivity|].
  destruct (is_slug_char c) eqn:Hc; simpl.
  - rewrite Hc. apply IH.
  - destruct in_run; simpl; [apply IH|]. apply IH.
Qed.

(** [s.replace(/^-/, '')] and [s.replace(/-$/, '')], one after the
    other. *)
Lemma strip_hyphens_eq (s : string) :
  strip_hyphens s
  = let s1 := match s with
              | String c r => if Ascii.eqb c "-"%char then r else s
              | EmptyString => s
              end in
    match Str.rev s1 with
    | String c r => if Ascii.eqb c "-"%char then Str.rev r else s1
    | EmptyString => s1
    end.
Proof.
  unfold strip_hyphens.
  assert (Hfirst : match s with
                   | String "-"%char r => r
                   | _ => s
                   end
                   = match s with
                     | String c r => if Ascii.eqb c "-"%char then r else s
                     | EmptyString => s
                     end).
  { destruct s as [|c r]; [reflexivity|].
    destruct c as [[] [] [] [] [] [] [] []]; reflexivity. }
  rewrite Hfirst. cbv zeta.
  destruct (Str.rev _) as [|c r]; [reflexivity|].
  destruct c as [[] [] [] [] [] [] [] []]; reflexivity.
Qed.

Lemma hyphenated_first (s : string) :
  hyphenated false s = true ->
  hyphenated true match s with
                  | String c r => if Ascii.eqb c "-"%char then r else s
                  | EmptyString => s
                  end = true.
Proof.
  destruct s as [|c r]; simpl; [reflexivity|].
  destruct (Ascii.eqb c "-"%char) eqn:Hc.
  - apply Ascii.eqb_eq in Hc. subst c. now rewrite hyphen_not_slug_char.
  - destruct (is_slug_char c) eqn:Hslug; simpl; [now rewrite Hslug|discriminate].
Qed.

Lemma hyphenated_chopped (init : string) :
  forall after : bool,
    hyphenated after (init ++ "-") = true ->
    init = "" \/ isSlugFrom after init = true.
Proof.
  induction init as [|c init IH]; intros after Hshape; [now left|right].
  simpl in *. destruct (is_slug_char c).
  - destruct (IH false Hshape) as [->|Hslug]; [reflexivity|exact Hslug].
  - apply Bool.andb_true_iff in Hshape. destruct Hshape as [Hhead Hrest].
    rewrite Hhead. simpl.
    destruct (IH true Hrest) as [->|Hslug]; [discriminate|exact Hslug].
Qed.

Lemma hyphenated_ends_well (init : string) (c : ascii) :
  Ascii.eqb c "-"%char = false ->
  forall after : bool,
    hyphenated after (init ++ String c "") = true ->
    isSlugFrom after (init ++ String c "") = true.
Proof.
  intros Hc. induction init as [|d init IH]; intros after Hshape; simpl in *.
  - destruct (is_slug_char c); [reflexivity|]. now rewrite Hc in Hshape.
  - destruct (is_slug_char d); [now apply IH|].
    apply Bool.andb_true_iff in Hshape. destruct Hshape as [Hhead Hrest].
    rewrite Hhead. simpl. now apply IH.
Qed.

Lemma strip_hyphens_slug (s : string) :
  hyphenated false s = true -> isSlug (strip_hyphens s) = true.
Proof.
  intros Hshape. rewrite strip_hyphens_eq. cbv zeta.
  pose proof (hyphenated_first s Hshape) as Hfirst.
  set (s1 := match s with
             | String c r => if Ascii.eqb c "-"%char then r else s
             | EmptyString => s
             end) in *.
  clearbody s1. clear s Hshape. unfold isSlug.
  destruct (snoc_cases s1) as [->|[init [c ->]]]; [reflexivity|].
  rewrite rev_snoc.
  destruct (Ascii.eqb c "-"%char) eqn:Hc.
  - apply Ascii.eqb_eq in Hc. subst c. rewrite rev_involutive.
    destruct (hyphenated_chopped init true Hfirst) as [->|Hslug]; [reflexivity|].
    rewrite Hslug. apply Bool.orb_true_r.
  - rewrite (hyphenated_ends_well init c Hc true Hfirst). apply Bool.orb_true_r.
Qed.

Lemma isSlugFrom_hyphenated (s : string) :
  forall after : bool, isSlugFrom after s = true -> hyphenated after s = true.
Proof.
  induction s as [|c s IH]; intros after Hslug; simpl in *; [reflexivity|].
  destruct (is_slug_char c); [now apply IH|].
  apply Bool.andb_true_iff in Hslug. destruct Hslug as [Hhead Hrest].
  rewrite Hhead. now apply IH.
Qed.

Lemma hyphenated_weaken (s : string) :
  hyphenated true s = true -> hyphenated false s = true.
Proof.
  destruct s as [|c s]; simpl; [reflexivity|].
  destruct (is_slug_char c); [trivial|].
  rewrite Bool.andb_false_r. discriminate.
Qed.

Lemma slug_char_lower (c : ascii) :
  is_slug_char c = true \/ Ascii.eqb c "-"%char = true -> Str.to_lower_char c = c.
Proof.
  destruct c as [[] [] [] [] [] [] [] []]; intros [H|H];
    try discriminate H; reflexivity.
Qed.

Lemma hyphenated_toLowerCase (s : string) :
  forall after : bool, hyphenated after s = true -> Str.toLowerCase s = s.
Proof.
  unfold Str.toLowerCase.
  induction s as [|c s IH]; intros after Hshape; simpl in *; [reflexivity|].
  destruct (is_slug_char c) eqn:Hc.
  - rewrite (slug_char_lower c (or_introl Hc)). f_equal. now apply (IH false).
  - apply Bool.andb_true_iff in Hshape. destruct Hshape as [Hhead Hrest].
    apply Bool.andb_true_iff in Hhead. destruct Hhead as [Hhyphen _].
    rewrite (slug_char_lower c (or_intror Hhyphen)). f_equal. now apply (IH true).
Qed.

Lemma hyphenated_hyphenate (s : string) :
  forall after : bool, hyphenated after s = true -> hyphenate after s = s.
Proof.
  induction s as [|c s IH]; intros after Hshape; simpl in *; [reflexivity|].
  destruct (is_slug_char c) eqn:Hc.
  - f_equal. now apply IH.
  - apply Bool.andb_true_iff in Hshape. destruct Hshape as [Hhead Hrest].
    apply Bool.andb_true_iff in Hhead. destruct Hhead as [Hhyphen Hafter].
    apply Ascii.eqb_eq in Hhyphen. subst c.
    destruct after; [discriminate|]. f_equal. now apply IH.
Qed.

Lemma isSlugFrom_last (init : string) (c : ascii) :
  forall after : bool,
    isSlugFrom after (init ++ String c "") = true -> Ascii.eqb c "-"%char = false.
Proof.
  induction init as [|d init IH]; intros after Hslug; simpl in *.
  - destruct (is_slug_char c) eqn:Hc.
    + destruct (Ascii.eqb c "-"%char) eqn:Hh; [|reflexivity].
      apply Ascii.eqb_eq in Hh. subst c. discriminate.
    + rewrite Bool.andb_false_r in Hslug. discriminate.
  - destruct (is_slug_char d); [now apply (IH false)|].
    apply Bool.andb_true_iff in Hslug. destruct Hslug as [_ Hrest]. now apply (IH true).
Qed.

Lemma strip_hyphens_of_slug (s : string) :
  isSlugFrom true s = true -> strip_hyphens s = s.
Proof.
  intros Hslug. rewrite strip_hyphens_eq. cbv zeta.
  assert (Hfirst : match s with
                   | String c r => if Ascii.eqb c "-"%char then r else s
                   | EmptyString => s
                   end = s).
  { destruct s as [|c r]; [reflexivity|].
    destruct (Ascii.eqb c "-"%char) eqn:Hc; [|reflexivity].
    apply Ascii.eqb_eq in Hc. subst c. simpl in Hslug. discriminate. }
  rewrite Hfirst.
  destruct (snoc_cases s) as [->|[init [c ->]]]; [reflexivity|].
  rewrite rev_snoc. now rewrite (isSlugFrom_last init c true Hslug).
Qed.

(** X23.  The [slug] helper returns a slug, and returns a slug as it
    is: whatever its argument, the text it returns is made of lower-case
    letters and digits in runs separated by single hyphens, with no
    hyphen at either end; called on such a text, it returns that text. *)
Theorem slugHelper_returns_slug :
  forall (now : Date) (args : list value) (variables : dict),
    (exists slug, slugHelper now args variables = Ok (VStr slug) /\ isSlug slug = true)
    /\ (isSlug (textArgument args) = true ->
        slugHelper now args variables = Ok (VStr (textArgument args))).
Proof.
  intros now args variables. unfold slugHelper. fold (textArgument args). split.
  - eexists. split; [reflexivity|].
    apply strip_hyphens_slug, hyphenate_hyphenated.
  - intros Hslug. unfold isSlug in Hslug. apply Bool.orb_true_iff in Hslug.
    destruct Hslug as [Hempty|Hslug].
    + apply String.eqb_eq in Hempty. rewrite Hempty. reflexivity.
    + pose proof (hyphenated_weaken _ (isSlugFrom_hyphenated _ true Hslug)) as Hshape.
      rewrite (hyphenated_toLowerCase _ false Hshape).
      rewrite (hyphenated_hyphenate _ false Hshape).
      now rewrite (strip_hyphens_of_slug _ Hslug).
Qed.

Lemma slugHelper_returns_slug_sample :
  slugHelper Sample.morning [VStr "my-app-2"] [] = Ok (VStr "my-app-2").
Proof.
  apply (proj2 (slugHelper_returns_slug Sample.morning [VStr "my-app-2"] [])).
  reflexivity.
Defined.


Lemma length_take (n : nat) (s : string) :
  String.length (Str.take n s) = Nat.min n (String.length s).
Proof.
  revert s. induction n as [|n IH]; intros [|c s]; simpl; try reflexivity.
  now rewrite IH.
Qed.

Lemma take_take (n : nat) (s t : string) :
  n <= String.length s -> Str.take n (Str.take n s ++ t) = Str.take n s.
Proof.
  revert s. induction n as [|n IH]; intros [|c s] Hn; simpl in *; try reflexivity.
  - lia.
  - f_equal. apply IH. lia.
Qed.

(** X24.  The [truncate] helper, with a limit above zero, returns a text
    no longer than the limit as it is, and cuts a longer one to the
    limit and appends three dots: what it returns then has three
    characters more than the limit, so a text just above the limit comes
    out longer than it went in.  Without a limit, or with zero, the limit
    is one hundred. *)
Theorem truncateHelper_limit :
  forall (now : Date) (args : list value) (variables : dict) (limit : Z),
    truncateLimit args = Some limit -> (0 < limit)%Z ->
    exists text,
      truncateHelper now args variables = Ok (VStr text)
      /\ ((Z.of_nat (String.length (textArgument args)) <= limit)%Z ->
          text = textArgument args)
      /\ ((limit < Z.of_nat (String.length (textArgument args)))%Z ->
          text = Str.take (Z.to_nat limit) (textArgument args) ++ "..."
          /\ Z.of_nat (String.length text) = (limit + 3)%Z
          /\ Str.take (Z.to_nat limit) text = Str.take (Z.to_nat limit) (textArgument args))
      /\ (Js.arg args 1 = VUndef \/ Js.arg args 1 = VNum 0 -> limit = 100%Z).
Proof.
  intros now args variables limit Hlimit Hpos.
  unfold truncateHelper, truncateLimit in *. fold (textArgument args).
  set (str := textArgument args).
  assert (Hcut : (limit < Z.of_nat (String.length str))%Z ->
                 let text := Str.take (Z.to_nat limit) str ++ "..." in
                 Z.of_nat (String.length text) = (limit + 3)%Z
                 /\ Str.take (Z.to_nat limit) text = Str.take (Z.to_nat limit) str).
  { intros Hlong text. unfold text. split.
    - rewrite length_append, length_take. simpl. lia.
    - apply take_take. lia. }
  assert (Hdefault : Js.arg args 1 = VUndef \/ Js.arg args 1 = VNum 0 -> limit = 100%Z).
  { intros [H|H]; rewrite H in Hlimit; simpl in Hlimit; congruence. }
  assert (Hbody : forall len : Z,
            len = limit ->
            exists text,
              (if (Z.of_nat (String.length str) <=? len)%Z then Ok (VStr str)
               else Ok (VStr (slice_0 str len ++ "..."))) = Ok (VStr text)
              /\ ((Z.of_nat (String.length str) <= limit)%Z -> text = str)
              /\ ((limit < Z.of_nat (String.length str))%Z ->
                  text = Str.take (Z.to_nat limit) str ++ "..."
                  /\ Z.of_nat (String.length text) = (limit + 3)%Z
                  /\ Str.take (Z.to_nat limit) text = Str.take (Z.to_nat limit) str)
              /\ (Js.arg args 1 = VUndef \/ Js.arg args 1 = VNum 0 -> limit = 100%Z)).
  { intros len ->.
    destruct (Z.of_nat (String.length str) <=? limit)%Z eqn:Hle.
    - apply Z.leb_le in Hle. exists str. split; [reflexivity|].
      split; [reflexivity|]. split; [lia|exact Hdefault].
    - apply Z.leb_gt in Hle. unfold slice_0.
      assert (Hneg : (limit <? 0)%Z = false) by (apply Z.ltb_ge; lia).
      rewrite Hneg. eexists. split; [reflexivity|].
      split; [lia|]. split; [|exact Hdefault].
      intros _. split; [reflexivity|]. now apply Hcut. }
  destruct (Builtin.to_number (Js.arg args 1)) as [|z|]; try discriminate.
  - apply Hbody. congruence.
  - apply Hbody. congruence.
Qed.

Lemma truncateHelper_limit_sample :
  exists text,
    truncateHelper Sample.morning [VStr "abcd"; VNum 3] [] = Ok (VStr text)
    /\ ((Z.of_nat (String.length (textArgument [VStr "abcd"; VNum 3])) <= 3)%Z ->
        text = textArgument [VStr "abcd"; VNum 3])
    /\ ((3 < Z.of_nat (String.length (textArgument [VStr "abcd"; VNum 3])))%Z ->
        text = Str.take (Z.to_nat 3) (textArgument [VStr "abcd"; VNum 3]) ++ "..."
        /\ Z.of_nat (String.length text) = (3 + 3)%Z
        /\ Str.take (Z.to_nat 3) text
           = Str.take (Z.to_nat 3) (textArgument [VStr "abcd"; VNum 3]))
    /\ (Js.arg [VStr "abcd"; VNum 3] 1 = VUndef \/ Js.arg [VStr "abcd"; VNum 3] 1 = VNum 0 ->
        3%Z = 100%Z).
Proof.
  apply (truncateHelper_limit Sample.morning [VStr "abcd"; VNum 3] [] 3).
  - reflexivity.
  - lia.
Defined.

(** *** Dates *)

Lemma of_Z_numeric (z : Z) : numeric (Str.of_Z z) = true.
Proof.
  assert (Hdigits : forall u, numeric (NilEmpty.string_of_uint u) = true).
  { intros u. pose proof (string_of_uint_digits u) as H. unfold numeric.
    induction (NilEmpty.string_of_uint u) as [|c s IH]; [reflexivity|].
    simpl in *. apply Bool.andb_true_iff in H. destruct H as [Hc Hs].
    now rewrite Hc, (IH Hs). }
  unfold Str.of_Z. destruct z; simpl; try apply Hdigits. reflexivity.
Qed.

Lemma numeric_append (a b : string) : numeric (a ++ b) = numeric a && numeric b.
Proof. unfold numeric. apply forallb_append. Qed.

Lemma pad_numeric (n : Z) : numeric (pad n) = true.
Proof.
  unfold pad. rewrite numeric_append, of_Z_numeric, Bool.andb_true_r.
  induction (2 - String.length (Str.of_Z n)) as [|k IH]; [reflexivity|].
  simpl. exact IH.
Qed.

Lemma forallb_impl (p q : ascii -> bool) (s : string) :
  (forall c, p c = true -> q c = true) ->
  Str.forallb p s = true -> Str.forallb q s = true.
Proof.
  intros Himpl. induction s as [|c s IH]; [reflexivity|].
  cbn [Str.forallb]. intros H. apply Bool.andb_true_iff in H. destruct H as [Hc Hs].
  now rewrite (Himpl c Hc), (IH Hs).
Qed.

(** A letter, or a dollar sign, is no character of a numeric text. *)
Lemma numeric_without (h : ascii) (s : string) :
  Str.is_digit h || Ascii.eqb h "-"%char = false ->
  numeric s = true ->
  Str.forallb (fun c => negb (Ascii.eqb h c)) s = true.
Proof.
  intros Hh. apply forallb_impl. intros c Hc.
  apply Bool.negb_true_iff.
  destruct (Ascii.eqb h c) eqn:Heq; [|reflexivity].
  apply Ascii.eqb_eq in Heq. subst c. congruence.
Qed.

Lemma numeric_no_dollar (s : string) :
  numeric s = true -> Str.forallb (fun c => negb (Ascii.eqb c "$"%char)) s = true.
Proof.
  apply forallb_impl. intros c Hc.
  apply Bool.negb_true_iff.
  destruct (Ascii.eqb c "$"%char) eqn:Heq; [|reflexivity].
  apply Ascii.eqb_eq in Heq. subst c. discriminate Hc.
Qed.

Lemma replaceFirstFrom_eq (literal replacement passed text : string) :
  Re.replaceFirstFrom literal replacement passed text
  = match Str.strip_prefix literal text with
    | Some after =>
        Re.substitution (Str.rev passed) literal after replacement ++ after
    | None =>
        match text with
        | EmptyString => EmptyString
        | String c text' =>
            String c (Re.replaceFirstFrom literal replacement (String c passed) text')
        end
    end.
Proof. destruct text; reflexivity. Qed.

Section ReplaceFirst.

Variables (h : ascii) (tail replacement : string).

Lemma replaceFirstFrom_absent (t : string) :
  Str.forallb (fun c => negb (Ascii.eqb h c)) t = true ->
  forall passed : string,
    Re.replaceFirstFrom (String h tail) replacement passed t = t.
Proof.
  induction t as [|c t IH]; intros Ht passed; [reflexivity|].
  simpl in Ht. apply Bool.andb_true_iff in Ht. destruct Ht as [Hc Ht].
  apply Bool.negb_true_iff in Hc.
  cbn [Re.replaceFirstFrom Str.strip_prefix]. rewrite Hc. f_equal. now apply IH.
Qed.

Hypothesis no_dollar :
  Str.forallb (fun c => negb (Ascii.eqb c "$"%char)) replacement = true.

Lemma replaceFirstFrom_found (pre after : string) :
  Str.forallb (fun c => negb (Ascii.eqb h c)) pre = true ->
  forall passed : string,
    Re.replaceFirstFrom (String h tail) replacement passed
      (pre ++ String h tail ++ after)
    = pre ++ replacement ++ after.
Proof.
  induction pre as [|c pre IH]; intros Hpre passed.
  - cbn [append]. change (String h (tail ++ after)) with (String h tail ++ after).
    rewrite replaceFirstFrom_eq, strip_prefix_append.
    now rewrite substitution_without_dollar.
  - simpl in Hpre. apply Bool.andb_true_iff in Hpre. destruct Hpre as [Hc Hpre].
    apply Bool.negb_true_iff in Hc.
    cbn [append Re.replaceFirstFrom Str.strip_prefix]. rewrite Hc. f_equal.
    now apply IH.
Qed.

End ReplaceFirst.

Lemma pad_two_characters (n : Z) : (0 <= n < 100)%Z -> String.length (pad n) = 2.
Proof.
  intros Hn.
  assert (Hk : exists k, k < 100 /\ n = Z.of_nat k).
  { exists (Z.to_nat n). split; lia. }
  destruct Hk as [k [Hk ->]]. clear Hn.
  do 100 (destruct k as [|k]; [reflexivity|]). lia.
Qed.

Lemma formatDate_default (date : Date) : formatDate date "YYYY-MM-DD" = isoDay date.
Proof.
  unfold formatDate, isoDay, Re.replaceFirst.
  set (y := Str.of_Z (getFullYear date)).
  set (m := pad (getMonth date + 1)).
  set (d := pad (getDate date)).
  assert (Hy : numeric y = true) by apply of_Z_numeric.
  assert (Hm : numeric m = true) by apply pad_numeric.
  assert (Hd : numeric d = true) by apply pad_numeric.
  change "YYYY-MM-DD" with ("" ++ "YYYY" ++ "-MM-DD").
  rewrite (replaceFirstFrom_found "Y" "YYY" y (numeric_no_dollar y Hy) "" "-MM-DD" eq_refl).
  change ("" ++ y ++ "-MM-DD") with (y ++ "-" ++ "MM" ++ "-DD").
  rewrite <- (append_assoc y "-").
  rewrite (replaceFirstFrom_found "M" "M" m (numeric_no_dollar m Hm) (y ++ "-") "-DD").
  2:{ apply (numeric_without "M"%char); [reflexivity|].
      now rewrite numeric_append, Hy. }
  change (m ++ "-DD") with (m ++ "-" ++ "DD" ++ "").
  rewrite <- (append_assoc m "-"), <- (append_assoc (y ++ "-")).
  rewrite (replaceFirstFrom_found "D" "D" d (numeric_no_dollar d Hd) _ "").
  2:{ apply (numeric_without "D"%char); [reflexivity|].
      now rewrite !numeric_append, Hy, Hm. }
  rewrite append_empty_r.
  assert (Hall : numeric (((y ++ "-") ++ m ++ "-") ++ d) = true)
    by now rewrite !numeric_append, Hy, Hm, Hd.
  rewrite (replaceFirstFrom_absent "H" "H" _ _ (numeric_without "H"%char _ eq_refl Hall)).
  rewrite (replaceFirstFrom_absent "m" "m" _ _ (numeric_without "m"%char _ eq_refl Hall)).
  rewrite (replaceFirstFrom_absent "s" "s" _ _ (numeric_without "s"%char _ eq_refl Hall)).
  now rewrite !append_assoc.
Qed.

(** X25.  The [date] helper without a format writes the day of the
    clock as year, month and day between hyphens, the month counted from
    one; month and day take two characters each. *)
Theorem dateHelper_default_format :
  forall (now : Date) (args : list value) (variables : dict),
    Js.truthy (Js.arg args 0) = false ->
    dateHelper now args variables = Ok (VStr (isoDay now))
    /\ ((0 <= getMonth now < 12)%Z -> (1 <= getDate now <= 31)%Z ->
        String.length (isoDay now) = String.length (Str.of_Z (getFullYear now)) + 6).
Proof.
  intros now args variables Hnone. split.
  - unfold dateHelper, Js.or_else. rewrite Hnone. now rewrite formatDate_default.
  - intros Hmonth Hday. unfold isoDay.
    rewrite !length_append, !pad_two_characters by lia. simpl. lia.
Qed.

Lemma dateHelper_default_format_sample :
  dateHelper Sample.morning [] [] = Ok (VStr (isoDay Sample.morning))
  /\ ((0 <= getMonth Sample.morning < 12)%Z -> (1 <= getDate Sample.morning <= 31)%Z ->
      String.length (isoDay Sample.morning)
      = String.length (Str.of_Z (getFullYear Sample.morning)) + 6).
Proof.
  apply (dateHelper_default_format Sample.morning [] []). reflexivity.
Defined.


(** * The loader *)

Lemma mapIndexed_app {A : Type} (f : value -> nat -> outcome A) (l1 l2 : list value) :
  forall index : nat,
    mapIndexed f (l1 ++ l2)%list index
    = (a <- mapIndexed f l1 index ;;
       b <- mapIndexed f l2 (index + List.length l1) ;;
       Ok (a ++ b)%list).
Proof.
  induction l1 as [|x l1 IH]; intros index; simpl.
  - rewrite Nat.add_0_r. now rewrite bind_ret.
  - rewrite IH. rewrite !bind_assoc. apply bind_ext. intros a.
    rewrite !bind_assoc. apply bind_ext. intros tl. simpl.
    replace (index + S (List.length l1)) with (S (index + List.length l1)) by lia.
    rewrite !bind_assoc. apply bind_ext. intros b. reflexivity.
Qed.

Lemma mapIndexed_length {A : Type} (f : value -> nat -> outcome A) (items : list value) :
  forall (index : nat) (out : list A),
    mapIndexed f items index = Ok out -> List.length out = List.length items.
Proof.
  induction items as [|x items IH]; simpl; intros index out Hout.
  - inversion Hout. reflexivity.
  - destruct (f x index) as [a| | |]; try discriminate.
    rewrite bind_Ok in Hout.
    destruct (mapIndexed f items (S index)) as [tl| | |] eqn:Htl; try discriminate.
    rewrite bind_Ok in Hout. inversion Hout. simpl. f_equal. now apply (IH (S index)).
Qed.

Lemma mapIndexed_Forall {A : Type} (f : value -> nat -> outcome A) (P : A -> Prop)
    (items : list value) :
  (forall x i a, f x i = Ok a -> P a) ->
  forall (index : nat) (out : list A),
    mapIndexed f items index = Ok out -> Forall P out.
Proof.
  intros Hf. induction items as [|x items IH]; simpl; intros index out Hout.
  - inversion Hout. constructor.
  - destruct (f x index) as [a| | |] eqn:Ha; try discriminate.
    rewrite bind_Ok in Hout.
    destruct (mapIndexed f items (S index)) as [tl| | |] eqn:Htl; try discriminate.
    rewrite bind_Ok in Hout. inversion Hout.
    constructor; [now apply (Hf x index)|now apply (IH (S index))].
Qed.

(** The loop over the required fields stops at the first that is
    missing. *)
Lemma checkRequired_find (data : dict) (source : option string) (fields : list string) :
  checkRequired data source fields
  = match find (fun field => negb (Js.truthy (Js.get data field))) fields with
    | Some field => Throw (missingField field source)
    | None => Ok tt
    end.
Proof.
  induction fields as [|field rest IH]; simpl; [reflexivity|].
  destruct (Js.truthy (Js.get data field)); simpl; [exact IH|reflexivity].
Qed.

(** X26.  [validate] checks the meta section before anything else: data
    whose [meta] is neither an object nor an array are refused for their
    missing meta section; otherwise, when a required field of the meta
    section is missing, empty, zero or [false], the error names the first
    such field in the order id, name, description, version, category,
    scope, whatever the variables and the sections hold. *)
Theorem validate_names_first_missing_field :
  forall (data : dict) (source : option string),
    (metaRecord (Js.get data "meta") = None ->
     validate data source
     = Throw (Error ("Invalid template: missing meta section" ++ inSource source)))
    /\ (forall (m : dict) (field : string),
          metaRecord (Js.get data "meta") = Some m ->
          find (fun field => negb (Js.truthy (Js.get m field))) requiredFields
          = Some field ->
          In field requiredFields
          /\ validateMeta m source = Throw (missingField field source)
          /\ validate data source = Throw (missingField field source)).
Proof.
  intros data source. split.
  - intros Hnone. unfold validate. now rewrite Hnone.
  - intros m field Hmeta Hfind.
    assert (Hthrow : validateMeta m source = Throw (missingField field source)).
    { unfold validateMeta. now rewrite checkRequired_find, Hfind. }
    split; [now apply find_some in Hfind|].
    split; [exact Hthrow|].
    unfold validate. now rewrite Hmeta, Hthrow.
Qed.

Lemma validate_names_first_missing_field_sample :
  In "version" requiredFields
  /\ validateMeta [("id", VStr "api"); ("name", VStr "API"); ("description", VStr "Docs");
                   ("version", VNum 0)] (Some "api.yaml")
     = Throw (missingField "version" (Some "api.yaml"))
  /\ validate [("sections", VStr "none");
               ("meta", VObj [("id", VStr "api"); ("name", VStr "API");
                              ("description", VStr "Docs"); ("version", VNum 0)])]
       (Some "api.yaml")
     = Throw (missingField "version" (Some "api.yaml")).
Proof.
  apply (proj2 (validate_names_first_missing_field
                  [("sections", VStr "none");
                   ("meta", VObj [("id", VStr "api"); ("name", VStr "API");
                                  ("description", VStr "Docs"); ("version", VNum 0)])]
                  (Some "api.yaml"))); reflexivity.
Defined.

(** X27.  [validateVariables] refuses the first entry without a name,
    and says where it stands: when the entries before it are accepted,
    an entry whose name is missing, empty, zero or [false] makes the
    error name its index, counted from zero, whatever follows. *)
Theorem validateVariables_names_index :
  forall (before after : list value) (v : value) (d : dict) (source : option string)
         (accepted : list TemplateVariable),
    validateVariables before source = Ok accepted ->
    asRecord v "name" = Ok d ->
    Js.truthy (Js.get d "name") = false ->
    validateVariables (before ++ v :: after)%list source
    = Throw (missingName (List.length before) source).
Proof.
  intros before after v d source accepted Hbefore Hrecord Hname.
  unfold validateVariables in *. rewrite mapIndexed_app, Hbefore. cbn [bind].
  cbn [mapIndexed]. unfold validateVariable at 1. rewrite Hrecord. cbn [bind].
  now rewrite Hname.
Qed.

Lemma validateVariables_names_index_sample :
  validateVariables
    ([VObj [("name", VStr "projectName")]] ++ VObj [("label", VStr "Team")] :: [VNull])%list
    None
  = Throw (missingName (List.length [VObj [("name", VStr "projectName")]]) None).
Proof.
  apply (validateVariables_names_index [VObj [("name", VStr "projectName")]] [VNull]
           (VObj [("label", VStr "Team")]) [("label", VStr "Team")] None
           [ {| v_name := "projectName"; v_label := "projectName"; v_type := TString;
                v_default := Undefined; v_required := Has false;
                v_description := Undefined; v_options := Undefined;
                v_pattern := Undefined; v_min := Undefined; v_max := Undefined |} ]);
    reflexivity.
Defined.


(** The callback of [validateSections] as the source has it, with the
    recursive call of [validateSections] on the nested list. *)
Lemma validateSection_eq (source : option string) (s : dict) (index : nat) :
  validateSection source (VObj s) index
  = if negb (Js.truthy (Js.get s "id")) then Throw (missingOf "id" index source)
    else if negb (Js.truthy (Js.get s "title")) then Throw (missingOf "title" index source)
    else
      order <- asNumber (Js.get s "order") ;;
      collapsible <- asBoolean (Js.get s "collapsible") ;;
      condition <- (if Js.truthy (Js.get s "condition")
                    then c <- asCondition (Js.get s "condition") ;; Ok (Has c)
                    else Ok Absent) ;;
      nested <- nestedSections source s ;;
      Ok {| s_id := Js.to_string (Js.get s "id");
            s_title := Js.to_string (Js.get s "title");
            s_content := Js.to_string (Js.or_else (Js.get s "content") (VStr ""));
            s_condition := condition;
            s_sections := nested;
            s_collapsible := collapsible;
            s_order := order;
            s_prompt := optionalText (Js.get s "prompt") |}.
Proof.
  cbn [validateSection].
  destruct (negb (Js.truthy (Js.get s "id"))); [reflexivity|].
  destruct (negb (Js.truthy (Js.get s "title"))); [reflexivity|].
  apply bind_ext. intros order. apply bind_ext. intros collapsible.
  apply bind_ext. intros condition.
  f_equal. unfold nestedSections, Js.get.
  change (Js.assoc Js.object_prototype "sections") with (@None string).
  change (String.eqb "sections" "__proto__") with false. cbv iota.
  induction s as [|[k x] rest IH]; [reflexivity|].
  cbn [Js.own]. destruct (String.eqb k "sections"); [|exact IH].
  destruct (Js.truthy x); [|reflexivity].
  destruct x as [| |b|z|t|items|d|f]; try reflexivity.
  f_equal. unfold validateSections. generalize 0.
  induction items as [|item more IHm]; intros i; [reflexivity|].
  cbn [mapIndexed]. now rewrite IHm.
Qed.

(** X28.  [validateSections] refuses the first entry without an id or
    without a title and says where it stands, the id being looked at
    first; an error found in a nested list is passed on as it is, so the
    index it names counts within the nested list. *)
Theorem validateSections_names_index :
  forall (before after : list value) (s : dict) (source : option string)
         (accepted : list TemplateSection),
    validateSections before source = Ok accepted ->
    (Js.truthy (Js.get s "id") = false ->
     validateSections (before ++ VObj s :: after)%list source
     = Throw (missingOf "id" (List.length before) source))
    /\ (Js.truthy (Js.get s "id") = true -> Js.truthy (Js.get s "title") = false ->
        validateSections (before ++ VObj s :: after)%list source
        = Throw (missingOf "title" (List.length before) source))
    /\ (forall (items : list value) (e : exn) (order : prop Z) (collapsible : prop bool),
          Js.truthy (Js.get s "id") = true -> Js.truthy (Js.get s "title") = true ->
          asNumber (Js.get s "order") = Ok order ->
          asBoolean (Js.get s "collapsible") = Ok collapsible ->
          Js.truthy (Js.get s "condition") = false ->
          Js.get s "sections" = VArr items ->
          validateSections items source = Throw e ->
          validateSections (before ++ VObj s :: after)%list source = Throw e).
Proof.
  intros before after s source accepted Hbefore.
  assert (Hstep : validateSections (before ++ VObj s :: after)%list source
                  = (a <- validateSection source (VObj s) (0 + List.length before) ;;
                     tl <- mapIndexed (validateSection source) after
                             (S (0 + List.length before)) ;;
                     Ok (accepted ++ a :: tl)%list)).
  { unfold validateSections in *. rewrite mapIndexed_app, Hbefore. cbn [bind mapIndexed].
    rewrite !bind_assoc. apply bind_ext. intros a.
    rewrite !bind_assoc. apply bind_ext. intros tl. reflexivity. }
  rewrite Hstep, validateSection_eq. cbn [Nat.add]. repeat split.
  - intros Hid. now rewrite Hid.
  - intros Hid Htitle. now rewrite Hid, Htitle.
  - intros items e order collapsible Hid Htitle Horder Hcollapsible Hcondition
      Hsections Hnested.
    rewrite Hid, Htitle, Horder, Hcollapsible, Hcondition. cbn [negb bind].
    unfold nestedSections. rewrite Hsections, Hnested. reflexivity.
Qed.

Lemma validateSections_names_index_sample :
  validateSections
    ([VObj [("id", VStr "intro"); ("title", VStr "Introduction")]]
     ++ VObj [("id", VStr "usage"); ("title", VStr "Usage");
              ("sections", VArr [VObj [("id", VStr "cli")]])] :: [])%list None
  = Throw (missingOf "title" 0 None).
Proof.
  apply (proj2 (proj2 (validateSections_names_index
                         [VObj [("id", VStr "intro"); ("title", VStr "Introduction")]] []
                         [("id", VStr "usage"); ("title", VStr "Usage");
                          ("sections", VArr [VObj [("id", VStr "cli")]])] None
                         [ {| s_id := "intro"; s_title := "Introduction"; s_content := "";
                              s_condition := Absent; s_sections := Absent;
                              s_collapsible := Undefined; s_order := Undefined;
                              s_prompt := Undefined |} ]
                         eq_refl))
           [VObj [("id", VStr "cli")]] (missingOf "title" 0 None) Undefined Undefined);
    reflexivity.
Defined.

(** ** Loaded templates and inheritance *)

Lemma optionalText_held (v : value) : optionalText v <> Absent.
Proof. unfold optionalText. destruct (Js.truthy v); discriminate. Qed.

Lemma asNumber_held (v : value) (p : prop Z) : asNumber v = Ok p -> p <> Absent.
Proof. destruct v; simpl; intros H; inversion H; discriminate. Qed.

Lemma asBoolean_held (v : value) (p : prop bool) : asBoolean v = Ok p -> p <> Absent.
Proof. destruct v; simpl; intros H; inversion H; discriminate. Qed.

Lemma held_held (v : value) : held v <> Absent.
Proof. destruct v; discriminate. Qed.

Lemma spread_held {A : Type} (parent child : prop A) :
  child <> Absent -> spread parent child = child.
Proof. destruct child; [congruence|reflexivity|reflexivity]. Qed.

Lemma validateMeta_held (data : dict) (source : option string) (m : TemplateMeta) :
  validateMeta data source = Ok m ->
  m_author m <> Absent /\ m_audience m <> Absent /\ m_tags m <> Absent
  /\ m_license m <> Absent.
Proof.
  unfold validateMeta. intros H.
  destruct (checkRequired data source requiredFields); try discriminate.
  rewrite bind_Ok in H.
  destruct (asScope (Js.get data "scope")); try discriminate. rewrite bind_Ok in H.
  destruct (asAudience (Js.get data "audience")) as [audience| | |] eqn:Ha;
    try discriminate.
  rewrite bind_Ok in H.
  destruct (asTags (Js.get data "tags")) as [tags| | |] eqn:Ht; try discriminate.
  rewrite bind_Ok in H. inversion H. cbn [m_author m_audience m_tags m_license].
  repeat split; try apply optionalText_held.
  - unfold asAudience in Ha. destruct (Js.get data "audience"); try discriminate.
    + inversion Ha. discriminate.
    + repeat (match type of Ha with
              | (if ?c then _ else _) = _ => destruct c
              end; [inversion Ha; discriminate|]).
      discriminate.
  - unfold asTags in Ht. destruct (Js.get data "tags"); try discriminate.
    + inversion Ht. discriminate.
    + destruct (texts items); [inversion Ht; discriminate|discriminate].
Qed.

Lemma validateVariable_held (source : option string) (v : value) (index : nat)
    (a : TemplateVariable) :
  validateVariable source v index = Ok a ->
  v_default a <> Absent /\ v_required a <> Absent /\ v_description a <> Absent
  /\ v_options a <> Absent /\ v_pattern a <> Absent /\ v_min a <> Absent
  /\ v_max a <> Absent.
Proof.
  unfold validateVariable. intros H.
  destruct (asRecord v "name") as [d| | |]; try discriminate. rewrite bind_Ok in H.
  destruct (Js.truthy (Js.get d "name")); [|discriminate].
  destruct (asType (Js.get d "type")); try discriminate. rewrite bind_Ok in H.
  destruct (asOptions (Js.get d "options")) as [options| | |] eqn:Ho; try discriminate.
  rewrite bind_Ok in H.
  destruct (asNumber (Js.get d "min")) as [lo| | |] eqn:Hlo; try discriminate.
  rewrite bind_Ok in H.
  destruct (asNumber (Js.get d "max")) as [hi| | |] eqn:Hhi; try discriminate.
  rewrite bind_Ok in H. inversion H.
  cbn [v_default v_required v_description v_options v_pattern v_min v_max].
  repeat split; try apply optionalText_held; try apply held_held; try discriminate;
    try (eapply asNumber_held; eassumption).
  unfold asOptions in Ho. destruct (Js.get d "options"); try discriminate.
  - inversion Ho. discriminate.
  - destruct (choices items); [inversion Ho; discriminate|discriminate].
Qed.

Lemma validateSection_held (source : option string) (v : value) (index : nat)
    (a : TemplateSection) :
  validateSection source v index = Ok a ->
  s_order a <> Absent /\ s_collapsible a <> Absent /\ s_prompt a <> Absent.
Proof.
  destruct v as [| |b|z|t|items|s|f]; try discriminate.
  rewrite validateSection_eq. intros H.
  destruct (negb (Js.truthy (Js.get s "id"))); [discriminate|].
  destruct (negb (Js.truthy (Js.get s "title"))); [discriminate|].
  destruct (asNumber (Js.get s "order")) as [order| | |] eqn:Ho; try discriminate.
  rewrite bind_Ok in H.
  destruct (asBoolean (Js.get s "collapsible")) as [collapsible| | |] eqn:Hc;
    try discriminate.
  rewrite bind_Ok in H.
  destruct (if Js.truthy (Js.get s "condition")
            then c <- asCondition (Js.get s "condition") ;; Ok (Has c)
            else Ok Absent) as [condition| | |]; try discriminate.
  rewrite bind_Ok in H.
  destruct (nestedSections source s) as [nested| | |]; try discriminate.
  rewrite bind_Ok in H. inversion H. cbn [s_order s_collapsible s_prompt].
  repeat split.
  - eapply asNumber_held; eassumption.
  - eapply asBoolean_held; eassumption.
  - apply optionalText_held.
Qed.

(** X29.  A template that comes out of [validate] has every optional
    field of its meta section, of its variables and, weight, collapsible
    flag and prompt, of its sections under a key of its own, with the
    value [undefined] where the data had none.  So it inherits none of
    them: merged onto a parent, its meta section and its variables come
    out as they are, and its sections keep their own weight, a missing
    one counting as zero whatever the weight of the parent section. *)
Theorem validate_leaves_nothing_to_inherit :
  forall (data : dict) (source : option string) (template : CustomTemplate),
    validate data source = Ok template ->
    (forall parent : TemplateMeta, mergeMeta parent (meta template) = meta template)
    /\ Forall (fun v => forall existing : option TemplateVariable,
                 mergeVariable existing v = v) (variables template)
    /\ Forall (fun s => forall (existing : TemplateSection)
                               (nested : prop (list TemplateSection)),
                 s_order (overrideSection existing s nested) = s_order s
                 /\ s_collapsible (overrideSection existing s nested) = s_collapsible s
                 /\ s_prompt (overrideSection existing s nested) = s_prompt s
                 /\ orderOf (overrideSection existing s nested) = orderOf s)
         (sections template).
Proof.
  intros data source template Hvalid. unfold validate in Hvalid.
  destruct (metaRecord (Js.get data "meta")) as [m|]; [|discriminate].
  destruct (validateMeta m source) as [checked| | |] eqn:Hmeta; try discriminate.
  rewrite bind_Ok in Hvalid.
  destruct (asList (Js.get data "variables") "data.map") as [vs| | |]; try discriminate.
  rewrite bind_Ok in Hvalid.
  destruct (validateVariables vs source) as [loadedVariables| | |] eqn:Hvs; try discriminate.
  rewrite bind_Ok in Hvalid.
  destruct (asList (Js.get data "sections") "data.map") as [ss| | |]; try discriminate.
  rewrite bind_Ok in Hvalid.
  destruct (validateSections ss source) as [loadedSections| | |] eqn:Hss; try discriminate.
  rewrite bind_Ok in Hvalid.
  match type of Hvalid with
  | bind ?p _ = _ => destruct p as [prompts| | |]; try discriminate
  end.
  rewrite bind_Ok in Hvalid. inversion Hvalid. cbn [meta variables sections].
  repeat split.
  - intros parent. destruct (validateMeta_held _ _ _ Hmeta) as [H1 [H2 [H3 H4]]].
    destruct checked. unfold mergeMeta. cbn in *.
    now rewrite !spread_held.
  - apply (mapIndexed_Forall (validateVariable source) _ vs) with (index := 0);
      [|exact Hvs].
    intros x i a Ha existing.
    destruct (validateVariable_held _ _ _ _ Ha) as [H1 [H2 [H3 [H4 [H5 [H6 H7]]]]]].
    destruct existing as [held|]; [|reflexivity].
    destruct a. unfold mergeVariable. cbn in *. now rewrite !spread_held.
  - apply (mapIndexed_Forall (validateSection source) _ ss) with (index := 0);
      [|exact Hss].
    intros x i a Ha existing nested.
    destruct (validateSection_held _ _ _ _ Ha) as [H1 [H2 H3]].
    unfold orderOf, overrideSection. cbn [s_order s_collapsible s_prompt].
    now rewrite !spread_held.
Qed.

Lemma validate_leaves_nothing_to_inherit_sample :
  exists template,
    validate [("meta", VObj [("id", VStr "api"); ("name", VStr "API");
                             ("description", VStr "Docs"); ("version", VStr "1.0.0");
                             ("category", VStr "docs"); ("scope", VStr "mvp")]);
              ("extends", VStr "base");
              ("variables", VArr [VObj [("name", VStr "team")]]);
              ("sections", VArr [VObj [("id", VStr "intro"); ("title", VStr "Intro")]])]
      None = Ok template
    /\ (forall parent : TemplateMeta, mergeMeta parent (meta template) = meta template)
    /\ Forall (fun v => forall existing : option TemplateVariable,
                 mergeVariable existing v = v) (variables template)
    /\ Forall (fun s => forall (existing : TemplateSection)
                               (nested : prop (list TemplateSection)),
                 s_order (overrideSection existing s nested) = s_order s
                 /\ s_collapsible (overrideSection existing s nested) = s_collapsible s
                 /\ s_prompt (overrideSection existing s nested) = s_prompt s
                 /\ orderOf (overrideSection existing s nested) = orderOf s)
         (sections template).
Proof.
  eexists. split; [reflexivity|].
  apply (validate_leaves_nothing_to_inherit
           [("meta", VObj [("id", VStr "api"); ("name", VStr "API");
                           ("description", VStr "Docs"); ("version", VStr "1.0.0");
                           ("category", VStr "docs"); ("scope", VStr "mvp")]);
            ("extends", VStr "base");
            ("variables", VArr [VObj [("name", VStr "team")]]);
            ("sections", VArr [VObj [("id", VStr "intro"); ("title", VStr "Intro")]])]
           None).
  reflexivity.
Defined.

(** ** The blank template *)

Lemma interpolate_of_plain (e : TemplateEngine) (now : Date) (variables : dict)
    (text : string) :
  plain text = true -> interpolate e now text variables = Ok text.
Proof.
  intros Hplain. unfold interpolate.
  rewrite (replace_plain _ _ plainPattern_needs_brace _ Hplain). cbn [bind].
  now apply passes_on_plain.
Qed.

Lemma interpolate_defined_reference (e : TemplateEngine) (now : Date) (variables : dict)
    (name : string) :
  word name = true -> Js.defined (Js.get variables name) = true ->
  plain (Js.to_string (Js.get variables name)) = true ->
  interpolate e now (reference name) variables
  = Ok (Js.to_string (Js.get variables name)).
Proof.
  intros Hname Hdef Hplain. unfold interpolate.
  rewrite <- (append_empty_r (reference name)).
  change (reference name ++ "") with ("" ++ reference name ++ "").
  rewrite substitution_pass by (try assumption; reflexivity).
  rewrite Hdef. cbn [bind append]. rewrite append_empty_r.
  now apply passes_on_plain.
Qed.

(** X30.  The blank template asks for its two variables and for nothing
    else: [compile] refuses a context without a project name, then a
    context without a project description, each time naming the
    variable; with both, it compiles to the overview, whose content is
    the text of the description, and the details, whatever the id and the
    name of the template and whatever the engine holds.  (The text of
    the description holds no opening brace.) *)
Theorem createBlankTemplate_compiles :
  forall (e : TemplateEngine) (now : Date) (fuel : nat) (id name : string)
         (context : TemplateContext),
    let provided := ctx_variables context in
    (Js.get provided "projectName" = VUndef ->
     compile e now fuel (createBlankTemplate id name) context
     = Throw (Error "Required variable missing: projectName"))
    /\ (Js.defined (Js.get provided "projectName") = true ->
        Js.get provided "projectDescription" = VUndef ->
        compile e now fuel (createBlankTemplate id name) context
        = Throw (Error "Required variable missing: projectDescription"))
    /\ (Js.defined (Js.get provided "projectName") = true ->
        Js.defined (Js.get provided "projectDescription") = true ->
        plain (Js.to_string (Js.get provided "projectDescription")) = true ->
        exists resolved,
          resolveVariables (variables (createBlankTemplate id name)) provided = Ok resolved
          /\ Js.get resolved "projectName" = Js.get provided "projectName"
          /\ Js.get resolved "projectDescription" = Js.get provided "projectDescription"
          /\ compile e now fuel (createBlankTemplate id name) context
             = Ok {| ct_template := createBlankTemplate id name;
                     ct_sections :=
                       [ {| cs_id := "overview"; cs_title := "Overview";
                            cs_content :=
                              Js.to_string (Js.get provided "projectDescription");
                            cs_sections := Absent; cs_aiGenerated := Absent |};
                         {| cs_id := "details"; cs_title := "Details";
                            cs_content := "Add your content here.";
                            cs_sections := Absent; cs_aiGenerated := Absent |} ];
                     ct_variables := resolved |}).
Proof.
  intros e now fuel id name context provided.
  assert (Hres : resolveInheritance e fuel (createBlankTemplate id name)
                 = Ok (createBlankTemplate id name)).
  { now rewrite resolveInheritance_eq. }
  unfold compile. rewrite Hres. cbn [bind]. fold provided.
  repeat split.
  - intros Hname.
    rewrite (resolveVariables_throws provided _
               (List.hd (Sample.required "") (variables (createBlankTemplate id name)))).
    + reflexivity.
    + cbn [variables createBlankTemplate find]. unfold unresolved at 1.
      cbn [v_name v_default v_required valueOf isTrue Js.defined].
      now rewrite Hname.
  - intros Hname Hdescription.
    rewrite (resolveVariables_throws provided _
               (List.hd (Sample.required "")
                  (List.tl (variables (createBlankTemplate id name))))).
    + reflexivity.
    + cbn [variables createBlankTemplate find]. unfold unresolved at 1.
      cbn [v_name v_default v_required valueOf isTrue Js.defined].
      rewrite Hname. cbn [negb andb]. unfold unresolved.
      cbn [v_name v_default v_required valueOf isTrue Js.defined].
      now rewrite Hdescription.
  - intros Hname Hdescription Hplain.
    set (r1 := [("projectName", Js.get provided "projectName");
                ("projectDescription", Js.get provided "projectDescription")]).
    assert (Hr1 : resolveVariables (variables (createBlankTemplate id name)) provided
                  = Ok (fold_left addExtra provided r1)).
    { unfold resolveVariables. cbn [variables createBlankTemplate resolveDefinitions v_name].
      rewrite Hname, Hdescription. reflexivity. }
    assert (Hown : forall k v, Js.own r1 k = Some v -> Js.defined v = true ->
                   Js.get (fold_left addExtra provided r1) k = v).
    { intros k v Hk Hv. apply JsFacts.get_own.
      rewrite addExtra_defined_stays; [exact Hk|].
      now rewrite (JsFacts.get_own _ _ _ Hk). }
    assert (Hn : Js.get (fold_left addExtra provided r1) "projectName"
                 = Js.get provided "projectName")
      by (apply Hown; [reflexivity|exact Hname]).
    assert (Hd : Js.get (fold_left addExtra provided r1) "projectDescription"
                 = Js.get provided "projectDescription")
      by (apply Hown; [reflexivity|exact Hdescription]).
    exists (fold_left addExtra provided r1).
    split; [exact Hr1|]. split; [exact Hn|]. split; [exact Hd|].
    rewrite Hr1. cbn [bind sections createBlankTemplate compileSections].
    rewrite !compileSection_eq. unfold compileVisible.
    cbn [s_condition s_title s_content s_sections s_id bind].
    rewrite (interpolate_of_plain e now _ "Overview" eq_refl).
    rewrite (interpolate_of_plain e now _ "Details" eq_refl).
    rewrite (interpolate_of_plain e now _ "Add your content here." eq_refl).
    change "{{projectDescription}}" with (reference "projectDescription").
    rewrite (interpolate_defined_reference e now _ "projectDescription" eq_refl);
      rewrite Hd; try assumption.
    reflexivity.
Qed.

Lemma createBlankTemplate_compiles_sample :
  compile createTemplateEngine Sample.morning 0 (createBlankTemplate "api" "API")
    {| ctx_variables := [("projectDescription", VStr "Docs")] |}
  = Throw (Error "Required variable missing: projectName").
Proof.
  apply (proj1 (createBlankTemplate_compiles createTemplateEngine Sample.morning 0
                  "api" "API" {| ctx_variables := [("projectDescription", VStr "Docs")] |})).
  reflexivity.
Defined.
